(** * postdock: command construction, execution engine, database lifecycle

    A shallow embedding of [postdock.go].  The Go functions are written as
    Rocq functions over an explicit model of the outside world: every
    external process, log line and file operation is an event appended to
    a trace, and the answers of the outside world are read from an
    environment record.  Functions of the Go standard library and of
    [github.com/bitfield/script] that the package calls are modelled in
    the first part of the file. *)

From Stdlib Require Import String Ascii List Bool ZArith NArith Lia.
From Stdlib Require Import Numbers.DecimalString.
Import ListNotations.

Local Open Scope list_scope.
Local Open Scope string_scope.

(* ===================================================================== *)
(** ** Go standard library: package strings                              *)
(* ===================================================================== *)

Module strings.

(** [strings.HasPrefix(s, prefix)]. *)
Fixpoint HasPrefix (s prefix : string) {struct prefix} : bool :=
  match prefix with
  | EmptyString => true
  | String p ps =>
      match s with
      | EmptyString => false
      | String c cs => Ascii.eqb c p && HasPrefix cs ps
      end
  end.

(** [s[n:]], the whole string when [n] exceeds its length. *)
Fixpoint drop (n : nat) (s : string) : string :=
  match n with
  | O => s
  | S k => match s with
           | EmptyString => EmptyString
           | String _ cs => drop k cs
           end
  end.

(** [s[:n]], the whole string when [n] exceeds its length. *)
Fixpoint take (n : nat) (s : string) : string :=
  match n with
  | O => EmptyString
  | S k => match s with
           | EmptyString => EmptyString
           | String c cs => String c (take k cs)
           end
  end.

(** [strings.TrimPrefix(s, prefix)]: one occurrence is removed at most. *)
Definition TrimPrefix (s prefix : string) : string :=
  if HasPrefix s prefix then drop (String.length prefix) s else s.

(** [strings.Contains(s, substr)]. *)
Fixpoint Contains (s substr : string) : bool :=
  match s with
  | EmptyString => HasPrefix EmptyString substr
  | String _ cs => HasPrefix s substr || Contains cs substr
  end.

(** [strings.Join(elems, sep)]. *)
Fixpoint Join (elems : list string) (sep : string) : string :=
  match elems with
  | [] => EmptyString
  | [e] => e
  | e :: rest => e ++ sep ++ Join rest sep
  end.

(** String reversal, used to look at a string from its end. *)
Fixpoint rev_onto (s acc : string) : string :=
  match s with
  | EmptyString => acc
  | String c cs => rev_onto cs (String c acc)
  end.

Definition rev (s : string) : string := rev_onto s EmptyString.

(** Width in bytes of the white-space rune that starts [s], 0 when [s]
    does not start with one.  The runes are those of [unicode.IsSpace]:
    TAB, LF, VT, FF, CR, SPACE, U+0085, U+00A0, U+1680, U+2000..U+200A,
    U+2028, U+2029, U+202F, U+205F and U+3000, in their UTF-8 encoding. *)
Definition space_width (s : string) : nat :=
  match s with
  | EmptyString => 0
  | String a r1 =>
      let x := N_of_ascii a in
      if ((9 <=? x) && (x <=? 13) || (x =? 32))%N then 1
      else match r1 with
           | EmptyString => 0
           | String b r2 =>
               let y := N_of_ascii b in
               if ((x =? 194) && ((y =? 133) || (y =? 160)))%N then 2
               else match r2 with
                    | EmptyString => 0
                    | String c _ =>
                        let z := N_of_ascii c in
                        if ((x =? 225) && (y =? 154) && (z =? 128))%N then 3
                        else if ((x =? 226) && (y =? 128) &&
                                 ((128 <=? z) && (z <=? 138) ||
                                  (z =? 168) || (z =? 169) || (z =? 175)))%N then 3
                        else if ((x =? 226) && (y =? 129) && (z =? 159))%N then 3
                        else if ((x =? 227) && (y =? 128) && (z =? 128))%N then 3
                        else 0
                    end
           end
  end.

(** The same test on a reversed string: the bytes of the rune come last
    byte first. *)
Definition space_width_rev (s : string) : nat :=
  match s with
  | EmptyString => 0
  | String a r1 =>
      let z := N_of_ascii a in
      if ((9 <=? z) && (z <=? 13) || (z =? 32))%N then 1
      else match r1 with
           | EmptyString => 0
           | String b r2 =>
               let y := N_of_ascii b in
               if ((y =? 194) && ((z =? 133) || (z =? 160)))%N then 2
               else match r2 with
                    | EmptyString => 0
                    | String c _ =>
                        let x := N_of_ascii c in
                        if ((x =? 225) && (y =? 154) && (z =? 128))%N then 3
                        else if ((x =? 226) && (y =? 128) &&
                                 ((128 <=? z) && (z <=? 138) ||
                                  (z =? 168) || (z =? 169) || (z =? 175)))%N then 3
                        else if ((x =? 226) && (y =? 129) && (z =? 159))%N then 3
                        else if ((x =? 227) && (y =? 128) && (z =? 128))%N then 3
                        else 0
                    end
           end
  end.

(** Removes white-space runes from the front, one rune per unit of fuel. *)
Fixpoint trim_front (width : string -> nat) (fuel : nat) (s : string) : string :=
  match fuel with
  | O => s
  | S f => match width s with
           | O => s
           | S w => trim_front width f (drop (S w) s)
           end
  end.

(** [strings.TrimSpace(s)]: leading and trailing white space removed. *)
Definition TrimSpace (s : string) : string :=
  let l := trim_front space_width (String.length s) s in
  rev (trim_front space_width_rev (String.length l) (rev l)).

End strings.

(* ===================================================================== *)
(** ** Go standard library: fmt verbs, strconv, path/filepath             *)
(* ===================================================================== *)

(** The [%d] verb on an [int]. *)
Definition itoa (n : Z) : string := NilZero.string_of_int (Z.to_int n).

Definition newline : string := String (ascii_of_nat 10) EmptyString.
Definition carriage_return : ascii := ascii_of_nat 13.

Module filepath.

(** [filepath.Split(path)]: the directory, up to and with the last
    slash, and the file name after it. *)
Fixpoint Split (path : string) : string * string :=
  match path with
  | EmptyString => (EmptyString, EmptyString)
  | String c rest =>
      let (d, f) := Split rest in
      match d with
      | String _ _ => (String c d, f)
      | EmptyString =>
          if Ascii.eqb c "/"%char then (String c EmptyString, f)
          else (EmptyString, String c f)
      end
  end.

End filepath.

(* ===================================================================== *)
(** ** Error values                                                       *)
(* ===================================================================== *)

(** The error values the package can hand to its caller.  The sentinel
    [ErrDBNotExist] is a constructor of its own: in Go it is one
    allocated value, equal to no other error. *)
Inductive error : Type :=
| errorString (msg : string)              (* errors.New, fmt.Errorf without %w *)
| ErrDBNotExist                           (* var ErrDBNotExist = errors.New("db does not exists") *)
| wrapError (msg : string) (err : error)  (* fmt.Errorf with %w *)
| NumError (Func Num : string)            (* strconv: invalid syntax *)
| foreignError (msg : string).            (* an error made by os, os/exec or script *)

(** [errors.Is(err, ErrDBNotExist)]. *)
Fixpoint Is_ErrDBNotExist (err : error) : bool :=
  match err with
  | ErrDBNotExist => true
  | wrapError _ inner => Is_ErrDBNotExist inner
  | _ => false
  end.

Module strconv.

(** [strconv.ParseBool(str)]. *)
Definition ParseBool (str : string) : bool * option error :=
  if (String.eqb str "1" || String.eqb str "t" || String.eqb str "T" ||
      String.eqb str "true" || String.eqb str "TRUE" || String.eqb str "True")%bool
  then (true, None)
  else if (String.eqb str "0" || String.eqb str "f" || String.eqb str "F" ||
           String.eqb str "false" || String.eqb str "FALSE" || String.eqb str "False")%bool
  then (false, None)
  else (false, Some (NumError "ParseBool" str)).

Definition dquote : ascii := ascii_of_nat 34.
Definition backslash : ascii := ascii_of_nat 92.

Definition hex_digit (n : N) : ascii :=
  if (n <? 10)%N then ascii_of_N (48 + n) else ascii_of_N (87 + n).

(** [strconv.Quote] on a string of ASCII bytes: double quotes around,
    backslash escapes inside.  Bytes from 128 on are written as [\x]
    escapes, which is what Go does when they are not valid UTF-8. *)
Fixpoint quote_body (s : string) : string :=
  match s with
  | EmptyString => EmptyString
  | String c cs =>
      let n := N_of_ascii c in
      let esc (x : string) := String backslash x in
      (if (n =? 34)%N then esc (String dquote EmptyString)
       else if (n =? 92)%N then esc (String backslash EmptyString)
       else if ((32 <=? n) && (n <=? 126))%N then String c EmptyString
       else if (n =? 7)%N then esc "a"
       else if (n =? 8)%N then esc "b"
       else if (n =? 12)%N then esc "f"
       else if (n =? 10)%N then esc "n"
       else if (n =? 13)%N then esc "r"
       else if (n =? 9)%N then esc "t"
       else if (n =? 11)%N then esc "v"
       else esc (String "x"%char
                   (String (hex_digit (n / 16)) (String (hex_digit (n mod 16)) EmptyString))))
      ++ quote_body cs
  end.

Definition QuoteASCII (s : string) : string :=
  String dquote (quote_body s ++ String dquote EmptyString).

End strconv.

(* ===================================================================== *)
(** ** The outside world                                                  *)
(* ===================================================================== *)

(** What the package does to the outside world, in the order it does it. *)
Inductive Event : Type :=
| EvExec (stdin : option string) (cmd : string)  (* an external process is run *)
| EvLog (msg : string)                           (* log.Printf *)
| EvOpenFile (name : string)                     (* os.OpenFile, create or truncate *)
| EvWriteString (name data : string).            (* WriteString on the opened file *)

Definition Trace : Type := list Event.

(** A [script.Pipe] after its command has run: the exit status that
    [ExitStatus] reports (the library reads it from a decimal numeral, so
    it is never negative), the combined output, and the pipe's error. *)
Record Pipe : Type := mkPipe {
  ExitStatus : N;
  Reader : string;
  Error_ : option string    (* the message of the pipe's error, if it has one *)
}.

(** [p.SetError(err)]. *)
Definition SetError (p : Pipe) (err : option string) : Pipe :=
  mkPipe (ExitStatus p) (Reader p) err.

(** [p.String()]: the contents of the pipe and its error. *)
Definition String_ (p : Pipe) : string * option error :=
  match Error_ p with
  | Some msg => (EmptyString, Some (foreignError msg))
  | None => (Reader p, None)
  end.

(** [script.Echo(s)]. *)
Definition Echo (s : string) : Pipe := mkPipe 0 s None.

(** The answers of the outside world.  Each may depend on everything the
    package has done so far. *)
Record Env : Type := mkEnv {
  (* os.Stat("/.dockerenv") returns no error *)
  env_dockerenv : Trace -> bool;
  (* the pipe of an external process, given its standard input and command line *)
  env_exec : Trace -> option string -> string -> Pipe;
  (* filepath.Abs, which asks for the working directory; the error is its message *)
  env_abs : string -> string * option string;
  (* os.OpenFile and WriteString: the error message, if any *)
  env_open : Trace -> string -> option string;
  env_write : Trace -> string -> string -> option string
}.

(** Computations that read the environment and extend the trace. *)
Definition M (A : Type) : Type := Env -> Trace -> A * Trace.

Definition ret {A : Type} (a : A) : M A := fun _ t => (a, t).

Definition bind {A B : Type} (c : M A) (k : A -> M B) : M B :=
  fun env t => let (a, t') := c env t in k a env t'.

Declare Scope go_scope.
Delimit Scope go_scope with go.
Notation "x <- c ;; k" := (bind c (fun x => k))
  (at level 61, c at next level, right associativity) : go_scope.
Notation "c ;; k" := (bind c (fun _ => k))
  (at level 61, right associativity) : go_scope.
Local Open Scope go_scope.

(** [script.Exec(cmd)]. *)
Definition script_Exec (cmd : string) : M Pipe :=
  fun env t => (env_exec env t None cmd, (t ++ [EvExec None cmd])%list).

(** [p.Exec(cmd)]: the command reads the pipe; a pipe in error is passed on. *)
Definition Pipe_Exec (p : Pipe) (cmd : string) : M Pipe :=
  match Error_ p with
  | Some _ => ret p
  | None => fun env t =>
      (env_exec env t (Some (Reader p)) cmd, (t ++ [EvExec (Some (Reader p)) cmd])%list)
  end.

Definition log_Printf (msg : string) : M unit :=
  fun _ t => (tt, (t ++ [EvLog msg])%list).

Definition os_Stat_dockerenv : M bool :=
  fun env t => (env_dockerenv env t, t).

Definition filepath_Abs (path : string) : M (string * option error) :=
  fun env t => (match env_abs env path with
                | (_, Some msg) => (EmptyString, Some (foreignError msg))
                | (p, None) => (p, None)
                end, t).

Definition os_OpenFile (name : string) : M (option error) :=
  fun env t => (option_map foreignError (env_open env t name), (t ++ [EvOpenFile name])%list).

Definition File_WriteString (name data : string) : M (option error) :=
  fun env t => (option_map foreignError (env_write env t name data),
                (t ++ [EvWriteString name data])%list).

(* ===================================================================== *)
(** ** github.com/bitfield/script: line filters                           *)
(* ===================================================================== *)

Module script.

(** The tokens of [bufio.ScanLines] before the carriage return is
    dropped: the text between line feeds, and a last line without one. *)
Fixpoint split_lines (s : string) : list string :=
  match s with
  | EmptyString => []
  | String c cs =>
      if Ascii.eqb c (ascii_of_nat 10) then EmptyString :: split_lines cs
      else match split_lines cs with
           | [] => [String c EmptyString]
           | l :: ls => String c l :: ls
           end
  end.

(** [dropCR]: one trailing carriage return is removed. *)
Fixpoint dropCR (l : string) : string :=
  match l with
  | EmptyString => EmptyString
  | String c cs =>
      match cs with
      | EmptyString => if Ascii.eqb c carriage_return then EmptyString else l
      | String _ _ => String c (dropCR cs)
      end
  end.

(** [bufio.MaxScanTokenSize]: the size of the buffer of a [bufio.Scanner]
    that has not been given another. *)
Definition MaxScanTokenSize : N := 65536.

Fixpoint token_length (l : string) : N :=
  match l with
  | EmptyString => 0
  | String _ cs => N.succ (token_length cs)
  end.

(** A line that the buffer cannot hold together with its line feed, or,
    for a last line without one, with the byte that would show the end
    of the input: [Scan] then stops with [bufio.ErrTooLong]. *)
Definition too_long (l : string) : bool :=
  (MaxScanTokenSize <=? token_length l)%N.

(** The tokens that [Scan] delivers: those before the first one that is
    too long. *)
Fixpoint scan_tokens (ls : list string) : list string :=
  match ls with
  | [] => []
  | l :: rest => if too_long l then [] else l :: scan_tokens rest
  end.

(** The lines a [bufio.Scanner] yields for [s], up to the end of the
    input or to a line that is too long.  [EachLine] sets the error of
    the scanner on the pipe it read and returns a new pipe, so that the
    lines from the long one on are lost without an error. *)
Definition ScanLines (s : string) : list string :=
  map dropCR (scan_tokens (split_lines s)).

(** What [EachLine] builds from the lines it lets through: each line
    followed by a line feed. *)
Fixpoint write_lines (ls : list string) : string :=
  match ls with
  | [] => EmptyString
  | l :: rest => l ++ newline ++ write_lines rest
  end.

(** [p.EachLine] with a function that writes the line when [keep] holds;
    a pipe in error is returned as it is. *)
Definition EachLine_keep (keep : string -> bool) (p : Pipe) : Pipe :=
  match Error_ p with
  | Some _ => p
  | None => Echo (write_lines (filter keep (ScanLines (Reader p))))
  end.

(** [p.Reject(s)]: the lines that do not contain [s]. *)
Definition Reject (s : string) (p : Pipe) : Pipe :=
  EachLine_keep (fun line => negb (strings.Contains line s)) p.

(** The regular expressions of the package: a literal anchored at the
    start of the text. *)
Inductive Regexp : Type :=
| Caret (literal : string).

Definition MatchString (re : Regexp) (s : string) : bool :=
  match re with
  | Caret literal => strings.HasPrefix s literal
  end.

(** [p.RejectRegexp(re)]: the lines that [re] does not match. *)
Definition RejectRegexp (re : Regexp) (p : Pipe) : Pipe :=
  EachLine_keep (fun line => negb (MatchString re line)) p.

(** Where [cat] is in its input: at the start of a line that follows a
    line with text (or at the start of the input), inside a line, or at
    the start of a line that follows an empty one. *)
Inductive cat_state : Type :=
| AtLineStart
| InLine
| AfterBlank.

(** [cat -s], byte by byte: every byte is copied, but for a line feed
    that ends an empty line right after another empty line. *)
Fixpoint cat_squeeze (st : cat_state) (input : string) : string :=
  match input with
  | EmptyString => EmptyString
  | String c cs =>
      if Ascii.eqb c (ascii_of_nat 10) then
        match st with
        | AfterBlank => cat_squeeze AfterBlank cs
        | AtLineStart => String c (cat_squeeze AfterBlank cs)
        | InLine => String c (cat_squeeze AtLineStart cs)
        end
      else String c (cat_squeeze InLine cs)
  end.

Definition cat_s (input : string) : string := cat_squeeze AtLineStart input.

(** What [cat -s] does, told on lines: of several adjacent empty lines
    the first is kept. *)
Fixpoint squeeze (prev_blank : bool) (ls : list string) : list string :=
  match ls with
  | [] => []
  | l :: rest =>
      if String.eqb l EmptyString
      then (if prev_blank then squeeze true rest else l :: squeeze true rest)
      else l :: squeeze false rest
  end.

End script.

(* ===================================================================== *)
(** ** The package                                                        *)
(* ===================================================================== *)

Record Options : Type := mkOptions {
  DockerImage : string;
  DockerNetwork : string;
  dockerVolume : string;
  DBName : string;
  DBHost : string;
  DBPort : Z;
  DBUser : string;
  DBPassword : string;
  Debug : bool
}.

Definition set_DBPort (port : Z) (o : Options) : Options :=
  mkOptions (DockerImage o) (DockerNetwork o) (dockerVolume o) (DBName o)
            (DBHost o) port (DBUser o) (DBPassword o) (Debug o).

Definition set_dockerVolume (v : string) (o : Options) : Options :=
  mkOptions (DockerImage o) (DockerNetwork o) v (DBName o)
            (DBHost o) (DBPort o) (DBUser o) (DBPassword o) (Debug o).

Definition set_DBName (n : string) (o : Options) : Options :=
  mkOptions (DockerImage o) (DockerNetwork o) (dockerVolume o) n
            (DBHost o) (DBPort o) (DBUser o) (DBPassword o) (Debug o).

(** [if o.DBPort == 0 { o.DBPort = 5432 }] *)
Definition defaultPort (o : Options) : Options :=
  if (DBPort o =? 0)%Z then set_DBPort 5432 o else o.

Definition is_empty (s : string) : bool := String.eqb s EmptyString.

(** [func (o Options) isValid(dbName string) error] *)
Definition isValid (o : Options) (dbName : string) : option error :=
  if is_empty dbName then
    Some (errorString "postdock: required option: db name")
  else if is_empty (DBHost o) then
    Some (errorString "postdock: required option: db host")
  else if is_empty (DBUser o) then
    Some (errorString "postdock: required option: db user")
  else if is_empty (DBPassword o) then
    Some (errorString "postdock: required option: db password")
  else if is_empty (DockerImage o) then
    Some (errorString "postdock: required option: docker base image (ex: postgres:11.7-alpine")
  else None.

Section PostDock.

(** The [%q] verb, [strconv.Quote]: it depends on the Unicode tables of
    the Go runtime, and nothing below depends on what it returns. *)
Variable Quote : string -> string.

(** [err.Error()]. *)
Definition Error (err : error) : string :=
  match err with
  | errorString msg => msg
  | ErrDBNotExist => "db does not exists"
  | wrapError msg _ => msg
  | NumError fn num => "strconv." ++ fn ++ ": parsing " ++ Quote num ++ ": invalid syntax"
  | foreignError msg => msg
  end.

(** [func psql(dbName string, query string, o Options) string] *)
Definition psql (dbName query : string) (o : Options) : string :=
  let o := defaultPort o in
  "PGPASSWORD=" ++ DBPassword o ++ " psql -h " ++ DBHost o ++ " -d " ++ dbName ++
  " -U " ++ DBUser o ++ " -p " ++ itoa (DBPort o) ++
  " -v ON_ERROR_STOP=1 -t -c " ++ Quote query.

(** [func psqlFile(dbName string, fileName string, o Options) string] *)
Definition psqlFile (dbName fileName : string) (o : Options) : string :=
  let o := defaultPort o in
  "PGPASSWORD=" ++ DBPassword o ++ " psql -h " ++ DBHost o ++ " -d " ++ dbName ++
  " -U " ++ DBUser o ++ " -p " ++ itoa (DBPort o) ++
  " -v ON_ERROR_STOP=1 --file=" ++ fileName.

(** The command line of [SchemaDump], rendered from the options after the
    port has been defaulted. *)
Definition pg_dump (dbName : string) (opt : Options) : string :=
  "PGPASSWORD=" ++ DBPassword opt ++ " pg_dump -h " ++ DBHost opt ++
  " -p " ++ itoa (DBPort opt) ++ " -U " ++ DBUser opt ++ " " ++ dbName ++
  " --schema-only".

(** [func inDocker() bool] *)
Definition inDocker : M bool := os_Stat_dockerenv.

(** The end of both branches of [run], and of [dockerPull] and
    [SchemaDump]: the error made from a positive exit status. *)
Definition raw_error (p : Pipe) : error :=
  let p := SetError p None in
  let (out, _) := String_ p in
  errorString ("raw error: " ++ out).

(** [func dockerPull(imageName string) error] *)
Definition dockerPull (imageName : string) : M (option error) :=
  p <- script_Exec ("docker pull -q " ++ imageName) ;;
  if (0 <? ExitStatus p)%N then ret (Some (raw_error p))
  else ret None.

(** The command line [e] of [run] outside a container:
    [docker run [OPTIONS] IMAGE [COMMAND] [ARG...]]. *)
Definition docker_run (cmd : string) (o : Options) : string :=
  let network :=
    if negb (is_empty (DockerNetwork o))
    then "--network=" ++ DockerNetwork o else EmptyString in
  let vol :=
    if negb (is_empty (dockerVolume o))
    then "--volume " ++ dockerVolume o else EmptyString in
  "docker run --rm " ++ network ++ " " ++ vol ++ " " ++
  DockerImage o ++ " sh -c " ++ Quote cmd.

(** [func run(cmd string, o Options) (string, error)] *)
Definition run (cmd : string) (o : Options) : M (string * option error) :=
  inside <- inDocker ;;
  if inside then
    p <- script_Exec cmd ;;
    let n := ExitStatus p in
    if (0 <? n)%N then ret (EmptyString, Some (raw_error p))
    else
      match String_ p with
      | (_, Some err) => ret (EmptyString, Some err)
      | (out, None) => ret (strings.TrimSpace out, None)
      end
  else
    pulled <- dockerPull (DockerImage o) ;;
    match pulled with
    | Some err => ret (EmptyString, Some err)
    | None =>
        let e := docker_run cmd o in
        (if Debug o then log_Printf ("raw docker command:" ++ newline ++ e)
         else ret tt) ;;
        p <- script_Exec e ;;
        let n := ExitStatus p in
        if (0 <? n)%N then ret (EmptyString, Some (raw_error p))
        else
          match String_ p with
          | (_, Some err) => ret (EmptyString, Some err)
          | (out, None) => ret (strings.TrimSpace out, None)
          end
    end.

(** The query [q] of [Exists]. *)
Definition exists_query (dbName : string) : string :=
  "SELECT EXISTS ( SELECT datname FROM pg_database WHERE datname = '" ++ dbName ++ "')".

(** [func Exists(dbName string, opt Options) error] *)
Definition Exists (dbName : string) (opt : Options) : M (option error) :=
  match isValid opt dbName with
  | Some err => ret (Some err)
  | None =>
      let q := exists_query dbName in
      let cmd := psql "postgres" q opt in
      r <- run cmd opt ;;
      match r with
      | (_, Some err) => ret (Some err)
      | (out, None) =>
          match strconv.ParseBool out with
          | (_, Some err) => ret (Some err)
          | (true, None) =>
              (if Debug opt
               then log_Printf ("skipping creating db:" ++ dbName ++ " exists")
               else ret tt) ;;
              ret None
          | (false, None) =>
              ret (Some (wrapError (dbName ++ ": " ++ Error ErrDBNotExist) ErrDBNotExist))
          end
      end
  end.

(** The block of [Create] under [if !exists]: the user is created. *)
Definition Create_user (opt : Options) : M (option error) :=
  let q := "CREATE USER " ++ DBUser opt ++ " WITH PASSWORD '" ++ DBPassword opt ++ "';" in
  let cmd := psql "postgres" q opt in
  r <- run cmd opt ;;
  match r with
  | (_, Some err) => ret (Some err)
  | (out, None) =>
      (if Debug opt
       then log_Printf ("[" ++ out ++ "]: successfully created user:" ++ DBUser opt)
       else ret tt) ;;
      ret None
  end.

(** The four privilege statements of [Create], with the user filled in. *)
Definition privilege_queries (user : string) : list string :=
  map (fun q => q ++ user)
    [ "GRANT ALL PRIVILEGES ON ALL TABLES IN SCHEMA public TO ";
      "GRANT ALL PRIVILEGES ON ALL SEQUENCES IN SCHEMA public TO ";
      "ALTER DEFAULT PRIVILEGES IN SCHEMA public GRANT ALL PRIVILEGES ON TABLES TO ";
      "ALTER DEFAULT PRIVILEGES IN SCHEMA public GRANT ALL PRIVILEGES ON SEQUENCES TO " ].

(** [func Create(dbName string, opt Options) error] *)
Definition Create (dbName : string) (opt : Options) : M (option error) :=
  match isValid opt dbName with
  | Some err => ret (Some err)
  | None =>
      let q := "SELECT EXISTS ( SELECT usename FROM pg_catalog.pg_user WHERE usename = '" ++
               DBUser opt ++ "');" in
      let cmd := psql "postgres" q opt in
      r <- run cmd opt ;;
      match r with
      | (_, Some err) => ret (Some err)
      | (out, None) =>
          match strconv.ParseBool out with
          | (_, Some err) => ret (Some err)
          | (exists_, None) =>
              created <- (if negb exists_ then Create_user opt else ret None) ;;
              match created with
              | Some err => ret (Some err)
              | None =>
                  found <- Exists dbName opt ;;
                  match found with
                  | None =>
                      (if Debug opt
                       then log_Printf ("skipping creating existing database:" ++ dbName)
                       else ret tt) ;;
                      ret None
                  | Some _ =>
                      let q := "CREATE DATABASE " ++ dbName ++
                               " ENCODING 'UTF-8' LC_COLLATE='en_US.UTF-8' LC_CTYPE='en_US.UTF-8' TEMPLATE template0 OWNER " ++
                               DBUser opt ++ ";" in
                      let cmd := psql "postgres" q opt in
                      r <- run cmd opt ;;
                      match r with
                      | (_, Some err) => ret (Some err)
                      | (out, None) =>
                          (if Debug opt
                           then log_Printf ("[" ++ out ++ "]: successfully created database:" ++ dbName)
                           else ret tt) ;;
                          let queries := privilege_queries (DBUser opt) in
                          let cmd := psql dbName (strings.Join queries "; ") opt in
                          r <- run cmd opt ;;
                          match r with
                          | (_, Some err) => ret (Some err)
                          | (_, None) =>
                              (if Debug opt
                               then log_Printf ("successfully applied PRIVILEGES to user:" ++
                                                DBUser opt ++ " on db:" ++ dbName)
                               else ret tt) ;;
                              ret None
                          end
                      end
                  end
              end
          end
      end
  end.

(** [func Terminate(dbName string, opt Options) error] *)
Definition Terminate (dbName : string) (opt : Options) : M (option error) :=
  match isValid opt dbName with
  | Some err => ret (Some err)
  | None =>
      let q := "SELECT pg_terminate_backend(pid) FROM pg_stat_activity WHERE datname = '" ++
               dbName ++ "';" in
      let cmd := psql "postgres" q opt in
      r <- run cmd opt ;;
      match r with
      | (_, Some err) => ret (Some err)
      | (out, None) =>
          (if Debug opt
           then log_Printf ("[" ++ out ++ "]: terminate db:" ++ dbName ++ " errors:<nil>")
           else ret tt) ;;
          ret None
      end
  end.

(** [func Drop(dbName string, opt Options) error] *)
Definition Drop (dbName : string) (opt : Options) : M (option error) :=
  terminated <- Terminate dbName opt ;;
  match terminated with
  | Some err => ret (Some err)
  | None =>
      let q := "DROP DATABASE IF EXISTS " ++ dbName ++ ";" in
      let cmd := psql "postgres" q opt in
      r <- run cmd opt ;;
      match r with
      | (_, Some err) => ret (Some err)
      | (out, None) =>
          (if Debug opt
           then log_Printf ("[" ++ out ++ "]: drop db:" ++ dbName)
           else ret tt) ;;
          ret None
      end
  end.

(** The mount spec of [Import]: the directory of the file, with one
    leading dot and then one leading slash removed from the file name. *)
Definition import_dir (sqlFile : string) : string :=
  let file := strings.TrimPrefix sqlFile "." in
  let file := strings.TrimPrefix file "/" in
  let (dir, _) := filepath.Split file in
  dir.

(** [func Import(dbName string, sqlFile string, opt Options) error] *)
Definition Import (dbName sqlFile : string) (opt : Options) : M (option error) :=
  if is_empty sqlFile then
    ret (Some (errorString "required option: sql file to import"))
  else
    dropped <- Drop dbName opt ;;
    match dropped with
    | Some err => ret (Some err)
    | None =>
        created <- Create dbName opt ;;
        match created with
        | Some err => ret (Some err)
        | None =>
            let dir := import_dir sqlFile in
            a <- filepath_Abs dir ;;
            match a with
            | (_, Some err) => ret (Some err)
            | (absDir, None) =>
                let opt := set_dockerVolume (absDir ++ ":/" ++ dir) opt in
                let cmd := psqlFile dbName sqlFile opt in
                r <- run cmd opt ;;
                match r with
                | (_, Some err) => ret (Some err)
                | (out, None) =>
                    (if Debug opt
                     then log_Printf ("[" ++ out ++ "]: successfully imported into db:" ++
                                      dbName ++ " from file:" ++ sqlFile)
                     else ret tt) ;;
                    ret None
                end
            end
        end
    end.

(** The filters of [SchemaDump], from [script.Echo(out)] to the pipe that
    [cat -s] reads. *)
Definition dump_filters (out : string) : Pipe :=
  script.RejectRegexp (script.Caret "GRANT")
    (script.RejectRegexp (script.Caret "SET")
      (script.RejectRegexp (script.Caret "COMMENT ON")
        (script.RejectRegexp (script.Caret "REVOKE")
          (script.RejectRegexp (script.Caret "--")
            (script.Reject "OWNER TO"
              (script.Reject "ALTER DEFAULT PRIVILEGES" (Echo out))))))).

(** [func SchemaDump(dbName string, outputFile string, opt Options) (string, error)] *)
Definition SchemaDump (dbName outputFile : string) (opt : Options)
  : M (string * option error) :=
  match isValid opt dbName with
  | Some err => ret (EmptyString, Some err)
  | None =>
      let opt := defaultPort opt in
      let cmd := pg_dump dbName opt in
      r <- run cmd opt ;;
      match r with
      | (_, Some err) => ret (EmptyString, Some err)
      | (out, None) =>
          p <- Pipe_Exec (dump_filters out) "cat -s" ;;
          let n := ExitStatus p in
          if (0 <? n)%N then ret (EmptyString, Some (raw_error p))
          else
            match String_ p with
            | (_, Some err) => ret (EmptyString, Some err)
            | (dump, None) =>
                if negb (is_empty outputFile) then
                  opened <- os_OpenFile outputFile ;;
                  match opened with
                  | Some err => ret (EmptyString, Some err)
                  | None =>
                      written <- File_WriteString outputFile dump ;;
                      match written with
                      | Some err => ret (EmptyString, Some err)
                      | None => ret (dump, None)
                      end
                  end
                else ret (dump, None)
            end
      end
  end.

End PostDock.

(* ===================================================================== *)
(** ** Definitions used to state the properties                          *)
(* ===================================================================== *)

(** The exclusion rules of the dump pipeline, as the specification words
    them: a line is removed when it contains one of two texts or starts
    with one of five. *)
Definition rejected (line : string) : bool :=
  strings.Contains line "ALTER DEFAULT PRIVILEGES" ||
  strings.Contains line "OWNER TO" ||
  strings.HasPrefix line "--" ||
  strings.HasPrefix line "REVOKE" ||
  strings.HasPrefix line "COMMENT ON" ||
  strings.HasPrefix line "SET" ||
  strings.HasPrefix line "GRANT".

(** The byte [b] occurs in [s]. *)
Fixpoint has_byte (b : ascii) (s : string) : bool :=
  match s with
  | EmptyString => false
  | String c cs => Ascii.eqb c b || has_byte b cs
  end.

Definition line_feed : ascii := ascii_of_nat 10.

(** A line as a scanner yields it holds no line feed. *)
Definition lf_free (l : string) : Prop := has_byte line_feed l = false.

(** A line that a scanner delivers. *)
Definition short (l : string) : Prop := script.too_long l = false.

Definition is_blank (l : string) : bool := String.eqb l EmptyString.

(** The collapse of blank runs, as the specification words it: of two
    empty lines that follow one another one is removed, so that a run of
    them leaves a single one. *)
Fixpoint collapse_blank_runs (ls : list string) : list string :=
  match ls with
  | [] => []
  | l :: rest =>
      match rest with
      | [] => [l]
      | l' :: _ =>
          if is_blank l && is_blank l' then collapse_blank_runs rest
          else l :: collapse_blank_runs rest
      end
  end.

(** No two empty lines follow one another. *)
Fixpoint no_blank_run (ls : list string) : Prop :=
  match ls with
  | [] => True
  | l :: rest =>
      match rest with
      | [] => True
      | l' :: _ => ~ (l = EmptyString /\ l' = EmptyString)
      end /\ no_blank_run rest
  end.

(** [dropCR] applied [n] times: every filter of the pipeline scans its
    input anew, and each scan drops one trailing carriage return. *)
Fixpoint dropCRs (n : nat) (l : string) : string :=
  match n with
  | O => l
  | S k => dropCRs k (script.dropCR l)
  end.

(** What [run] makes of the pipe of the process that carried the
    command: the test of the exit status and the reading of the output
    that end both of its branches. *)
Definition pipe_result (p : Pipe) : string * option error :=
  if (0 <? ExitStatus p)%N
  then (EmptyString, Some (errorString ("raw error: " ++ Reader p)))
  else match Error_ p with
       | Some msg => (EmptyString, Some (foreignError msg))
       | None => (strings.TrimSpace (Reader p), None)
       end.

(** The trace after the image has been pulled, up to the start of the
    container. *)
Definition after_pull (Quote : string -> string) (cmd : string) (o : Options)
           (t : Trace) : Trace :=
  ((t ++ [EvExec None ("docker pull -q " ++ DockerImage o)]) ++
   (if Debug o
    then [EvLog ("raw docker command:" ++ newline ++ docker_run Quote cmd o)]
    else []))%list.

(** A test of a filter that trailing carriage returns do not change. *)
Definition cr_blind (k : string -> bool) : Prop :=
  forall l : string, k (script.dropCR l) = k l.

(** The first missing option in the order of the checks, by the name the
    error message gives it. *)
Definition first_missing (o : Options) (dbName : string) : option string :=
  if is_empty dbName then Some "db name"
  else if is_empty (DBHost o) then Some "db host"
  else if is_empty (DBUser o) then Some "db user"
  else if is_empty (DBPassword o) then Some "db password"
  else if is_empty (DockerImage o) then Some "docker base image (ex: postgres:11.7-alpine"
  else None.

(* ===================================================================== *)
(** ** Sample environments                                                *)
(* ===================================================================== *)

Module Sample.

Definition is_exec (e : Event) : bool :=
  match e with
  | EvExec None _ => true
  | _ => false
  end.

Definition ok_pipe (out : string) : Pipe := mkPipe 0 out None.

Definition failed_pipe (status : N) (out : string) : Pipe :=
  mkPipe status out (Some ("exit status " ++ itoa (Z.of_N status))).

(** A host whose working directory is [/srv], with a working [cat], where
    the n-th command started by [script.Exec] is answered by the n-th
    pipe of [answers], and by an empty success once they are used up. *)
Definition scripted (inside : bool) (answers : list Pipe) : Env :=
  mkEnv (fun _ => inside)
        (fun t stdin cmd =>
           match stdin with
           | Some input =>
               if String.eqb cmd "cat -s" then ok_pipe (script.cat_s input)
               else mkPipe 127 EmptyString (Some "exit status 127")
           | None => nth (List.length (filter is_exec t)) answers (ok_pipe EmptyString)
           end)
        (fun p => ("/srv/" ++ strings.rev (strings.TrimPrefix (strings.rev p) "/"), None))
        (fun _ _ => None)
        (fun _ _ _ => None).

Definition opts : Options :=
  mkOptions "postgres:11.8-alpine" "" "" "" "localhost" 0 "bob" "secret" false.

(** Two hosts outside a container: on the first the pull of the image
    fails, on the second the pull succeeds and the container fails, both
    with the same output. *)
Definition env_pull_fails : Env := scripted false [failed_pipe 1 "boom"].

Definition env_container_fails : Env :=
  scripted false [ok_pipe "sha256:0"; failed_pipe 1 "boom"].

(** A host inside a container where the configured user exists and the
    existence query of [Exists] fails. *)
Definition env_exists_fails : Env :=
  scripted true [ok_pipe " t"; failed_pipe 2 "connection refused"].

(** A host outside a container on which every command succeeds, the user
    exists and the database does not. *)
Definition env_fresh_host : Env :=
  scripted false [ok_pipe ""; ok_pipe ""; ok_pipe ""; ok_pipe "";
                  ok_pipe ""; ok_pipe " t"; ok_pipe ""; ok_pipe " f"].

(** A host outside a container without a docker binary: the pull cannot
    be started, which the pipe reports as an error with exit status 0;
    the commands after it succeed. *)
Definition env_no_docker : Env :=
  scripted false [mkPipe 0 EmptyString (Some "exec: docker: not found"); ok_pipe " ok "].

(** A host inside a container where the extraction prints a dump and the
    output file can be opened but not written. *)
Definition env_disk_full : Env :=
  mkEnv (fun _ => true)
        (fun _ stdin _ =>
           match stdin with
           | Some input => ok_pipe (script.cat_s input)
           | None => ok_pipe "CREATE TABLE t();"
           end)
        (fun p => (p, None))
        (fun _ _ => None)
        (fun _ _ _ => Some "no space left on device").

(** A host inside a container without a working [cat]. *)
Definition env_no_cat : Env :=
  mkEnv (fun _ => true)
        (fun _ stdin _ =>
           match stdin with
           | Some _ => mkPipe 127 "cat: not found" (Some "exit status 127")
           | None => ok_pipe "CREATE TABLE t();"
           end)
        (fun p => (p, None))
        (fun _ _ => None)
        (fun _ _ _ => None).

(** Hosts inside a container: the user and the database exist; the user
    is missing and cannot be created; the user exists, the database does
    not and cannot be created. *)
Definition env_all_there : Env := scripted true [ok_pipe " t"; ok_pipe " t"].

Definition env_no_user : Env :=
  scripted true [ok_pipe " f"; failed_pipe 1 "ERROR:  permission denied to create role"].

Definition env_no_database : Env :=
  scripted true [ok_pipe " t"; ok_pipe " f";
                 failed_pipe 1 "ERROR:  permission denied to create database"].

(** A line of [n] letters; with 65536 of them, the shortest line that a
    scanner does not deliver. *)
Definition letters (n : N) : string := N.iter n (String "x"%char) EmptyString.

Definition long_line : string := letters 65536.

(** The raw dump of the specification's example. *)
Definition raw_dump : string :=
  strings.Join ["-- comment"; "GRANT x"; "CREATE TABLE t();"; ""; ""; "SET x=y;"] newline.

End Sample.

(* ===================================================================== *)
(** ** Further definitions: options, queries, quiet traces                *)
(* ===================================================================== *)

Definition set_Debug (b : bool) (o : Options) : Options :=
  mkOptions (DockerImage o) (DockerNetwork o) (dockerVolume o) (DBName o)
            (DBHost o) (DBPort o) (DBUser o) (DBPassword o) b.

Definition set_DockerNetwork (n : string) (o : Options) : Options :=
  mkOptions (DockerImage o) n (dockerVolume o) (DBName o)
            (DBHost o) (DBPort o) (DBUser o) (DBPassword o) (Debug o).

Definition set_DockerImage (i : string) (o : Options) : Options :=
  mkOptions i (DockerNetwork o) (dockerVolume o) (DBName o)
            (DBHost o) (DBPort o) (DBUser o) (DBPassword o) (Debug o).

(** The statements that the lifecycle operations hand to [psql], by the
    name of what they do. *)
Definition user_query (opt : Options) : string :=
  "SELECT EXISTS ( SELECT usename FROM pg_catalog.pg_user WHERE usename = '" ++
  DBUser opt ++ "');".

Definition create_user_query (opt : Options) : string :=
  "CREATE USER " ++ DBUser opt ++ " WITH PASSWORD '" ++ DBPassword opt ++ "';".

Definition create_database_query (dbName : string) (opt : Options) : string :=
  "CREATE DATABASE " ++ dbName ++
  " ENCODING 'UTF-8' LC_COLLATE='en_US.UTF-8' LC_CTYPE='en_US.UTF-8' TEMPLATE template0 OWNER " ++
  DBUser opt ++ ";".

Definition terminate_query (dbName : string) : string :=
  "SELECT pg_terminate_backend(pid) FROM pg_stat_activity WHERE datname = '" ++
  dbName ++ "';".

Definition drop_query (dbName : string) : string :=
  "DROP DATABASE IF EXISTS " ++ dbName ++ ";".

(** The log line of an operation, present when [Debug] is set. *)
Definition debug_log (o : Options) (msg : string) : Trace :=
  if Debug o then [EvLog msg] else [].

(** The first part of [Create] has ended without error and left the
    trace [t2]: the user query parsed to true, or it parsed to false and
    the user was created. *)
Definition user_ready (Quote : string -> string) (opt : Options) (env : Env)
           (t t2 : Trace) : Prop :=
  exists (out : string) (t1 : Trace),
    run Quote (psql Quote "postgres" (user_query opt) opt) opt env t = ((out, None), t1) /\
    ((strconv.ParseBool out = (true, None) /\ t2 = t1) \/
     (strconv.ParseBool out = (false, None) /\
      Create_user Quote opt env t1 = (None, t2))).

(** The trace without its log lines. *)
Definition is_log (ev : Event) : bool :=
  match ev with
  | EvLog _ => true
  | _ => false
  end.

Definition quiet (t : Trace) : Trace := filter (fun ev => negb (is_log ev)) t.

(** An outside world whose answers do not depend on what the package has
    logged. *)
Definition log_blind (env : Env) : Prop :=
  forall t : Trace,
    env_dockerenv env t = env_dockerenv env (quiet t) /\
    (forall stdin cmd, env_exec env t stdin cmd = env_exec env (quiet t) stdin cmd) /\
    (forall name, env_open env t name = env_open env (quiet t) name) /\
    (forall name data, env_write env t name data = env_write env (quiet t) name data).

(** Two computations that differ in their log lines at most: from traces
    that agree up to log lines they return the same value and leave
    traces that agree up to log lines. *)
Definition same_but_logs {A : Type} (c1 c2 : M A) : Prop :=
  forall (env : Env) (t1 t2 : Trace),
    log_blind env -> quiet t1 = quiet t2 ->
    fst (c1 env t1) = fst (c2 env t2) /\
    quiet (snd (c1 env t1)) = quiet (snd (c2 env t2)).

(** The environment reports the inside of a container at every moment. *)
Definition always_inside (env : Env) : Prop :=
  forall t : Trace, env_dockerenv env t = true.

(** Two outcomes that differ in the log lines of their traces at most. *)
Definition same_outcome {A : Type} (r1 r2 : A * Trace) : Prop :=
  fst r1 = fst r2 /\ quiet (snd r1) = quiet (snd r2).

(** The options with another image, network and mount. *)
Definition relocate (image network volume : string) (o : Options) : Options :=
  mkOptions image network volume (DBName o)
            (DBHost o) (DBPort o) (DBUser o) (DBPassword o) (Debug o).

(** Two computations that do the same inside a container. *)
Definition same_inside {A : Type} (c1 c2 : M A) : Prop :=
  forall (env : Env) (t : Trace), always_inside env -> c1 env t = c2 env t.

(** The filters of [SchemaDump] followed by a working [cat -s], as a
    function of the extraction output. *)
Definition dump_pipeline (out : string) : string :=
  script.cat_s (Reader (dump_filters out)).

(** The white-space runes of [unicode.IsSpace] by the values of their
    bytes: one byte, two bytes, three bytes. *)
Definition space1 (x : N) : bool := ((9 <=? x) && (x <=? 13) || (x =? 32))%N.

Definition space2 (x y : N) : bool := ((x =? 194) && ((y =? 133) || (y =? 160)))%N.

Definition space3 (x y z : N) : bool :=
  ((x =? 225) && (y =? 154) && (z =? 128) ||
   (x =? 226) && (y =? 128) &&
     ((128 <=? z) && (z <=? 138) || (z =? 168) || (z =? 169) || (z =? 175)) ||
   (x =? 226) && (y =? 129) && (z =? 159) ||
   (x =? 227) && (y =? 128) && (z =? 128))%N.

(** The encoding of one white-space rune. *)
Definition space_rune (u : string) : Prop :=
  u <> EmptyString /\ strings.space_width u = String.length u.

(** A text that holds white-space runes and nothing else. *)
Inductive space_run : string -> Prop :=
| space_run_nil : space_run EmptyString
| space_run_cons (u v : string) :
    space_rune u -> space_run v -> space_run (u ++ v).

(** [s] is [raw] without the white space at its two ends: what comes
    before it and after it in [raw] is white space, and [s] neither
    starts nor ends with a white-space rune. *)
Definition trimmed_of (raw s : string) : Prop :=
  exists pre post : string,
    raw = pre ++ s ++ post /\
    space_run pre /\ space_run post /\
    strings.space_width s = 0 /\
    strings.space_width_rev (strings.rev s) = 0.

(** The events that touch the file system. *)
Definition is_file_event (ev : Event) : bool :=
  match ev with
  | EvOpenFile _ | EvWriteString _ _ => true
  | _ => false
  end.

(* ===================================================================== *)
(** ** Strings                                                            *)
(* ===================================================================== *)

Lemma is_empty_true (s : string) : is_empty s = true <-> s = EmptyString.
Proof. unfold is_empty. apply String.eqb_eq. Qed.

Lemma is_empty_false (s : string) : is_empty s = false <-> s <> EmptyString.
Proof. unfold is_empty. apply String.eqb_neq. Qed.

Lemma HasPrefix_refl (s : string) : strings.HasPrefix s s = true.
Proof.
  induction s as [|c s IH]; simpl; [reflexivity|].
  now rewrite Ascii.eqb_refl, IH.
Qed.

Lemma HasPrefix_app (p s : string) : strings.HasPrefix (p ++ s) p = true.
Proof.
  induction p as [|c p IH]; simpl; [reflexivity|].
  now rewrite Ascii.eqb_refl, IH.
Qed.

Lemma Contains_prefix (s sub : string) :
  strings.HasPrefix s sub = true -> strings.Contains s sub = true.
Proof.
  destruct s as [|c s]; simpl; intros H; [exact H|].
  now rewrite H.
Qed.

(** A text contains each of its suffixes. *)
Lemma Contains_app_r (a b : string) : strings.Contains (a ++ b) b = true.
Proof.
  induction a as [|c a IH]; simpl.
  - apply Contains_prefix, HasPrefix_refl.
  - rewrite IH. apply orb_true_r.
Qed.

(* ===================================================================== *)
(** ** The execution engine                                               *)
(* ===================================================================== *)

(** Unfolds the plumbing of the monad and of the calls into the world. *)
Ltac unfold_world :=
  cbv [bind ret inDocker os_Stat_dockerenv dockerPull script_Exec log_Printf
       Pipe_Exec filepath_Abs os_OpenFile File_WriteString].

Section RunFacts.

Variable Quote : string -> string.

(** Inside a container [run] starts one process, the command itself. *)
Lemma run_inside (cmd : string) (o : Options) (env : Env) (t : Trace) :
  env_dockerenv env t = true ->
  run Quote cmd o env t =
  (pipe_result (env_exec env t None cmd), (t ++ [EvExec None cmd])%list).
Proof.
  intros Hin.
  unfold run, pipe_result. unfold_world.
  rewrite Hin.
  destruct (0 <? ExitStatus (env_exec env t None cmd))%N; [reflexivity|].
  unfold String_.
  destruct (Error_ (env_exec env t None cmd)); reflexivity.
Qed.

(** Outside a container a pull with a positive exit status ends [run]. *)
Lemma run_outside_pull_failed (cmd : string) (o : Options) (env : Env) (t : Trace) :
  env_dockerenv env t = false ->
  (0 < ExitStatus (env_exec env t None ("docker pull -q " ++ DockerImage o)))%N ->
  run Quote cmd o env t =
  ((EmptyString,
    Some (errorString
            ("raw error: " ++
             Reader (env_exec env t None ("docker pull -q " ++ DockerImage o))))),
   (t ++ [EvExec None ("docker pull -q " ++ DockerImage o)])%list).
Proof.
  intros Hout Hpull.
  apply N.ltb_lt in Hpull.
  unfold run. unfold_world.
  rewrite Hout, Hpull. reflexivity.
Qed.

(** Outside a container, after a pull with exit status 0, [run] starts
    the container and returns what its pipe gives. *)
Lemma run_outside_pulled (cmd : string) (o : Options) (env : Env) (t : Trace) :
  env_dockerenv env t = false ->
  ExitStatus (env_exec env t None ("docker pull -q " ++ DockerImage o)) = 0%N ->
  run Quote cmd o env t =
  (pipe_result (env_exec env (after_pull Quote cmd o t) None (docker_run Quote cmd o)),
   (after_pull Quote cmd o t ++ [EvExec None (docker_run Quote cmd o)])%list).
Proof.
  intros Hout Hpull.
  unfold run, pipe_result, after_pull. unfold_world.
  rewrite Hout, Hpull. simpl.
  destruct (Debug o); simpl.
  - destruct (0 <? ExitStatus _)%N; [reflexivity|].
    unfold String_. destruct (Error_ _); reflexivity.
  - rewrite app_nil_r.
    destruct (0 <? ExitStatus _)%N; [reflexivity|].
    unfold String_. destruct (Error_ _); reflexivity.
Qed.

(** The three outcomes of a pipe. *)
Lemma pipe_result_ok (p : Pipe) (s : string) :
  pipe_result p = (s, None) <->
  ExitStatus p = 0%N /\ Error_ p = None /\ s = strings.TrimSpace (Reader p).
Proof.
  unfold pipe_result.
  destruct (0 <? ExitStatus p)%N eqn:Hn.
  - apply N.ltb_lt in Hn. split; [discriminate|]. intros [H0 _]. lia.
  - apply N.ltb_ge in Hn.
    destruct (Error_ p) as [msg|].
    + split; [discriminate|]. intros (_ & H & _). discriminate.
    + split.
      * intros H. injection H as <-. repeat split. lia.
      * intros (_ & _ & ->). reflexivity.
Qed.

Lemma pipe_result_failed (p : Pipe) :
  (0 < ExitStatus p)%N ->
  pipe_result p = (EmptyString, Some (errorString ("raw error: " ++ Reader p))).
Proof.
  intros H. apply N.ltb_lt in H. unfold pipe_result. now rewrite H.
Qed.

(** The error of [run] is never the sentinel of [Exists]. *)
Lemma pipe_result_not_sentinel (p : Pipe) (s : string) (e : error) :
  pipe_result p = (s, Some e) -> Is_ErrDBNotExist e = false.
Proof.
  unfold pipe_result.
  destruct (0 <? ExitStatus p)%N.
  - intros H. injection H as _ <-. reflexivity.
  - destruct (Error_ p); intros H; [|discriminate].
    injection H as _ <-. reflexivity.
Qed.

Lemma run_not_sentinel (cmd : string) (o : Options) (env : Env) (t : Trace)
      (s : string) (e : error) :
  fst (run Quote cmd o env t) = (s, Some e) -> Is_ErrDBNotExist e = false.
Proof.
  destruct (env_dockerenv env t) eqn:Hd.
  - rewrite (run_inside _ _ _ _ Hd). simpl. apply pipe_result_not_sentinel.
  - destruct (N.eq_0_gt_0_cases
                (ExitStatus (env_exec env t None ("docker pull -q " ++ DockerImage o))))
      as [H0|Hpos].
    + rewrite (run_outside_pulled _ _ _ _ Hd H0). simpl. apply pipe_result_not_sentinel.
    + rewrite (run_outside_pull_failed _ _ _ _ Hd Hpos). simpl.
      intros H. injection H as _ <-. reflexivity.
Qed.

End RunFacts.

(** C9: when the environment detector reports that the process is inside
    the isolated environment, the execution engine starts exactly one
    process, the command line itself as it was given: no image is pulled,
    no container is started, and neither the network nor the mount of the
    options (nor any other option) has an effect on what is executed or
    returned. *)
Theorem run_inside_executes_directly
    (Quote : string -> string) (cmd : string) (o : Options) (env : Env) (t : Trace) :
  env_dockerenv env t = true ->
  snd (run Quote cmd o env t) = (t ++ [EvExec None cmd])%list /\
  fst (run Quote cmd o env t) = pipe_result (env_exec env t None cmd) /\
  (forall o' : Options, run Quote cmd o' env t = run Quote cmd o env t).
Proof.
  intros Hin. rewrite (run_inside Quote cmd o env t Hin).
  repeat split. intros o'. apply run_inside, Hin.
Qed.

Lemma run_inside_executes_directly_witness :
  snd (run strconv.QuoteASCII "psql -c 'select 1'"
           (set_dockerVolume "/srv/data:/data" Sample.opts)
           (Sample.scripted true [Sample.ok_pipe "1"]) []) =
  [EvExec None "psql -c 'select 1'"].
Proof.
  exact (proj1 (run_inside_executes_directly strconv.QuoteASCII "psql -c 'select 1'"
                  (set_dockerVolume "/srv/data:/data" Sample.opts)
                  (Sample.scripted true [Sample.ok_pipe "1"]) [] eq_refl)).
Defined.

(** C4 (as amended): outside a container, a pull with a positive exit
    status ends [run] before any container is started, and the error
    returned is "raw error: " followed by the output of the pull; a
    container that exits with a positive status after a successful pull
    is reported in the same form, "raw error: " followed by its output. *)
Theorem pull_failure_same_form
    (Quote : string -> string) (cmd : string) (o : Options) (env : Env) (t : Trace) :
  env_dockerenv env t = false ->
  let pull := env_exec env t None ("docker pull -q " ++ DockerImage o) in
  let p := env_exec env (after_pull Quote cmd o t) None (docker_run Quote cmd o) in
  ((0 < ExitStatus pull)%N ->
   run Quote cmd o env t =
   ((EmptyString, Some (errorString ("raw error: " ++ Reader pull))),
    (t ++ [EvExec None ("docker pull -q " ++ DockerImage o)])%list)) /\
  (ExitStatus pull = 0%N -> (0 < ExitStatus p)%N ->
   fst (run Quote cmd o env t) =
   (EmptyString, Some (errorString ("raw error: " ++ Reader p)))).
Proof.
  intros Hd. cbv zeta. split.
  - intros Hpos. apply run_outside_pull_failed; assumption.
  - intros H0 Hpos. rewrite (run_outside_pulled Quote cmd o env t Hd H0). simpl fst.
    apply pipe_result_failed, Hpos.
Qed.

Lemma pull_failure_same_form_witness :
  run strconv.QuoteASCII "psql" Sample.opts
      (Sample.scripted false [Sample.failed_pipe 1 "manifest unknown"]) [] =
  ((EmptyString, Some (errorString "raw error: manifest unknown")),
   [EvExec None "docker pull -q postgres:11.8-alpine"]).
Proof.
  apply (proj1 (pull_failure_same_form strconv.QuoteASCII "psql" Sample.opts
                  (Sample.scripted false [Sample.failed_pipe 1 "manifest unknown"]) []
                  eq_refl)).
  reflexivity.
Defined.

(** C4 fails as stated: a pull that fails with some output and a
    container that fails with the same output after a successful pull
    make [run] return the same error. *)
Lemma pull_failure_not_distinguishable :
  (0 < ExitStatus (env_exec Sample.env_pull_fails [] None
                            "docker pull -q postgres:11.8-alpine"))%N /\
  ExitStatus (env_exec Sample.env_container_fails [] None
                       "docker pull -q postgres:11.8-alpine") = 0%N /\
  (0 < ExitStatus (env_exec Sample.env_container_fails
                            (after_pull strconv.QuoteASCII "psql" Sample.opts [])
                            None (docker_run strconv.QuoteASCII "psql" Sample.opts)))%N /\
  fst (run strconv.QuoteASCII "psql" Sample.opts Sample.env_pull_fails []) =
  fst (run strconv.QuoteASCII "psql" Sample.opts Sample.env_container_fails []).
Proof.
  repeat split.
Qed.

(* ===================================================================== *)
(** ** The command builder and the options                                *)
(* ===================================================================== *)

Lemma defaultPort_unset (o : Options) :
  defaultPort (set_DBPort 0 o) = set_DBPort 5432 o.
Proof. reflexivity. Qed.

Lemma defaultPort_5432 (o : Options) :
  defaultPort (set_DBPort 5432 o) = set_DBPort 5432 o.
Proof. reflexivity. Qed.

Lemma isValid_set_DBPort (port : Z) (o : Options) (dbName : string) :
  isValid (set_DBPort port o) dbName = isValid o dbName.
Proof. reflexivity. Qed.

(** C8: the command rendered from options whose port is unset (0) is the
    same string as the one rendered from the options with port 5432, for
    the inline-statement builder [psql], the file builder [psqlFile] and
    the command of [SchemaDump]; the whole of [SchemaDump] is the same
    computation for the two. *)
Theorem port_default_same_command
    (Quote : string -> string) (dbName arg : string) (o : Options) :
  psql Quote dbName arg (set_DBPort 0 o) = psql Quote dbName arg (set_DBPort 5432 o) /\
  psqlFile dbName arg (set_DBPort 0 o) = psqlFile dbName arg (set_DBPort 5432 o) /\
  pg_dump dbName (defaultPort (set_DBPort 0 o)) =
  pg_dump dbName (defaultPort (set_DBPort 5432 o)) /\
  (forall (env : Env) (t : Trace),
      SchemaDump Quote dbName arg (set_DBPort 0 o) env t =
      SchemaDump Quote dbName arg (set_DBPort 5432 o) env t).
Proof.
  split; [|split; [|split]].
  - unfold psql. now rewrite defaultPort_unset, defaultPort_5432.
  - unfold psqlFile. now rewrite defaultPort_unset, defaultPort_5432.
  - now rewrite defaultPort_unset, defaultPort_5432.
  - intros env t. unfold SchemaDump.
    now rewrite !isValid_set_DBPort, defaultPort_unset, defaultPort_5432.
Qed.

Section DBNameFacts.

Variable Quote : string -> string.
Variable n : string.

Lemma psql_set_DBName (dbName query : string) (o : Options) :
  psql Quote dbName query (set_DBName n o) = psql Quote dbName query o.
Proof. unfold psql, defaultPort. simpl. destruct (DBPort o =? 0)%Z; reflexivity. Qed.

Lemma psqlFile_set_DBName (dbName file : string) (o : Options) :
  psqlFile dbName file (set_DBName n o) = psqlFile dbName file o.
Proof. unfold psqlFile, defaultPort. simpl. destruct (DBPort o =? 0)%Z; reflexivity. Qed.

Lemma run_set_DBName (cmd : string) (o : Options) :
  run Quote cmd (set_DBName n o) = run Quote cmd o.
Proof. reflexivity. Qed.

Lemma Exists_set_DBName (dbName : string) (o : Options) :
  Exists Quote dbName (set_DBName n o) = Exists Quote dbName o.
Proof. unfold Exists. now rewrite psql_set_DBName, run_set_DBName. Qed.

Lemma Create_set_DBName (dbName : string) (o : Options) :
  Create Quote dbName (set_DBName n o) = Create Quote dbName o.
Proof.
  unfold Create, Create_user.
  now rewrite !psql_set_DBName, !run_set_DBName, Exists_set_DBName.
Qed.

Lemma Terminate_set_DBName (dbName : string) (o : Options) :
  Terminate Quote dbName (set_DBName n o) = Terminate Quote dbName o.
Proof. unfold Terminate. now rewrite psql_set_DBName, run_set_DBName. Qed.

Lemma Drop_set_DBName (dbName : string) (o : Options) :
  Drop Quote dbName (set_DBName n o) = Drop Quote dbName o.
Proof. unfold Drop. now rewrite Terminate_set_DBName, psql_set_DBName, run_set_DBName. Qed.

Lemma Import_set_DBName (dbName sqlFile : string) (o : Options) :
  Import Quote dbName sqlFile (set_DBName n o) = Import Quote dbName sqlFile o.
Proof.
  unfold Import. rewrite Drop_set_DBName, Create_set_DBName.
  unfold psqlFile, defaultPort. simpl.
  destruct (DBPort o =? 0)%Z; reflexivity.
Qed.

Lemma SchemaDump_set_DBName (dbName outputFile : string) (o : Options) :
  SchemaDump Quote dbName outputFile (set_DBName n o) =
  SchemaDump Quote dbName outputFile o.
Proof.
  unfold SchemaDump, defaultPort. simpl.
  destruct (DBPort o =? 0)%Z; reflexivity.
Qed.

End DBNameFacts.

(** C10: the field [DBName] of the options is read by no public
    operation: changing it to any value changes neither the result nor
    the trace of [Create], [Exists], [Terminate], [Drop], [Import] and
    [SchemaDump], in any environment; the database is the one named by
    the argument. *)
Theorem DBName_field_never_read
    (Quote : string -> string) (n dbName file : string) (o : Options) :
  Create Quote dbName (set_DBName n o) = Create Quote dbName o /\
  Exists Quote dbName (set_DBName n o) = Exists Quote dbName o /\
  Terminate Quote dbName (set_DBName n o) = Terminate Quote dbName o /\
  Drop Quote dbName (set_DBName n o) = Drop Quote dbName o /\
  Import Quote dbName file (set_DBName n o) = Import Quote dbName file o /\
  SchemaDump Quote dbName file (set_DBName n o) = SchemaDump Quote dbName file o.
Proof.
  split; [|split; [|split; [|split; [|split]]]].
  - apply Create_set_DBName.
  - apply Exists_set_DBName.
  - apply Terminate_set_DBName.
  - apply Drop_set_DBName.
  - apply Import_set_DBName.
  - apply SchemaDump_set_DBName.
Qed.

(* ===================================================================== *)
(** ** Validation of the options                                          *)
(* ===================================================================== *)

(** [isValid] reports the first missing option, by name. *)
Lemma isValid_first_missing (o : Options) (dbName : string) :
  isValid o dbName =
  option_map (fun field => errorString ("postdock: required option: " ++ field))
             (first_missing o dbName).
Proof.
  unfold isValid, first_missing.
  destruct (is_empty dbName); [reflexivity|].
  destruct (is_empty (DBHost o)); [reflexivity|].
  destruct (is_empty (DBUser o)); [reflexivity|].
  destruct (is_empty (DBPassword o)); [reflexivity|].
  destruct (is_empty (DockerImage o)); reflexivity.
Qed.

Lemma first_missing_some (o : Options) (dbName : string) :
  dbName = EmptyString \/ DBHost o = EmptyString \/ DBUser o = EmptyString \/
  DBPassword o = EmptyString \/ DockerImage o = EmptyString ->
  exists field : string, first_missing o dbName = Some field.
Proof.
  intros H. unfold first_missing.
  destruct (is_empty dbName) eqn:H1; [eauto|].
  destruct (is_empty (DBHost o)) eqn:H2; [eauto|].
  destruct (is_empty (DBUser o)) eqn:H3; [eauto|].
  destruct (is_empty (DBPassword o)) eqn:H4; [eauto|].
  destruct (is_empty (DockerImage o)) eqn:H5; [eauto|].
  apply is_empty_false in H1, H2, H3, H4, H5. tauto.
Qed.

Section InvalidOptions.

Variable Quote : string -> string.
Variables (dbName : string) (o : Options) (e : error).
Hypothesis Hinvalid : isValid o dbName = Some e.

Lemma Create_invalid : Create Quote dbName o = ret (Some e).
Proof. unfold Create. now rewrite Hinvalid. Qed.

Lemma Exists_invalid : Exists Quote dbName o = ret (Some e).
Proof. unfold Exists. now rewrite Hinvalid. Qed.

Lemma Terminate_invalid : Terminate Quote dbName o = ret (Some e).
Proof. unfold Terminate. now rewrite Hinvalid. Qed.

Lemma Drop_invalid (env : Env) (t : Trace) : Drop Quote dbName o env t = (Some e, t).
Proof. unfold Drop. rewrite Terminate_invalid. reflexivity. Qed.

Lemma SchemaDump_invalid (outputFile : string) :
  SchemaDump Quote dbName outputFile o = ret (EmptyString, Some e).
Proof. unfold SchemaDump. now rewrite Hinvalid. Qed.

Lemma Import_invalid (sqlFile : string) (env : Env) (t : Trace) :
  sqlFile <> EmptyString -> Import Quote dbName sqlFile o env t = (Some e, t).
Proof.
  intros Hfile. apply is_empty_false in Hfile.
  unfold Import. rewrite Hfile. unfold bind. rewrite Drop_invalid. reflexivity.
Qed.

End InvalidOptions.

(** [Import] looks at the file name before anything else. *)
Lemma Import_no_file (Quote : string -> string) (dbName : string) (o : Options)
      (env : Env) (t : Trace) :
  Import Quote dbName EmptyString o env t =
  (Some (errorString "required option: sql file to import"), t).
Proof. reflexivity. Qed.

(** C7 (as amended): when the database name, the host, the user, the
    password or the image is empty, [Create], [Exists], [Terminate],
    [Drop] and [SchemaDump], and [Import] with a non-empty file name,
    return the error "postdock: required option: " followed by the name
    of the first missing one, in the order database name, host, user,
    password, image, and leave the trace as it was: no process, log line
    or file operation.  [Import] with an empty file name reports the
    file name instead, whatever else is missing. *)
Theorem missing_option_fails_before_io
    (Quote : string -> string) (dbName file : string) (o : Options)
    (env : Env) (t : Trace) :
  dbName = EmptyString \/ DBHost o = EmptyString \/ DBUser o = EmptyString \/
  DBPassword o = EmptyString \/ DockerImage o = EmptyString ->
  exists field : string,
    first_missing o dbName = Some field /\
    let e := errorString ("postdock: required option: " ++ field) in
    Create Quote dbName o env t = (Some e, t) /\
    Exists Quote dbName o env t = (Some e, t) /\
    Terminate Quote dbName o env t = (Some e, t) /\
    Drop Quote dbName o env t = (Some e, t) /\
    SchemaDump Quote dbName file o env t = ((EmptyString, Some e), t) /\
    (file <> EmptyString -> Import Quote dbName file o env t = (Some e, t)) /\
    Import Quote dbName EmptyString o env t =
    (Some (errorString "required option: sql file to import"), t).
Proof.
  intros H. destruct (first_missing_some o dbName H) as [field Hfield].
  exists field. split; [exact Hfield|]. cbv zeta.
  assert (Hinv : isValid o dbName =
                 Some (errorString ("postdock: required option: " ++ field))).
  { rewrite isValid_first_missing, Hfield. reflexivity. }
  split; [|split; [|split; [|split; [|split; [|split]]]]].
  - now rewrite (Create_invalid Quote _ _ _ Hinv).
  - now rewrite (Exists_invalid Quote _ _ _ Hinv).
  - now rewrite (Terminate_invalid Quote _ _ _ Hinv).
  - apply Drop_invalid, Hinv.
  - now rewrite (SchemaDump_invalid Quote _ _ _ Hinv).
  - intros Hfile. apply Import_invalid; assumption.
  - apply Import_no_file.
Qed.

Lemma missing_option_fails_before_io_witness :
  exists field : string,
    first_missing (set_DBPort 5432 Sample.opts) EmptyString = Some field /\
    Drop strconv.QuoteASCII EmptyString (set_DBPort 5432 Sample.opts)
         Sample.env_fresh_host [] =
    (Some (errorString ("postdock: required option: " ++ field)), []).
Proof.
  destruct (missing_option_fails_before_io strconv.QuoteASCII EmptyString "dump.sql"
              (set_DBPort 5432 Sample.opts) Sample.env_fresh_host []
              (or_introl eq_refl))
    as (field & Hfield & _ & _ & _ & Hdrop & _).
  exists field. split; [exact Hfield | exact Hdrop].
Defined.

(** C7 fails as stated for [Import]: with the database name and the file
    name both empty, the error names the file, not the database name
    that [isValid] would report. *)
Lemma Import_reports_file_first :
  isValid Sample.opts EmptyString =
  Some (errorString "postdock: required option: db name") /\
  fst (Import strconv.QuoteASCII EmptyString EmptyString Sample.opts
              Sample.env_fresh_host []) =
  Some (errorString "required option: sql file to import") /\
  fst (Import strconv.QuoteASCII EmptyString EmptyString Sample.opts
              Sample.env_fresh_host []) <>
  Some (errorString "postdock: required option: db name").
Proof.
  split; [reflexivity|]. split; [reflexivity|]. discriminate.
Qed.

(* ===================================================================== *)
(** ** Exists                                                             *)
(* ===================================================================== *)

Lemma ParseBool_cases (s : string) :
  strconv.ParseBool s = (true, None) \/
  strconv.ParseBool s = (false, None) \/
  strconv.ParseBool s = (false, Some (NumError "ParseBool" s)).
Proof.
  unfold strconv.ParseBool.
  destruct (_ || _)%bool; [now left|].
  destruct (_ || _)%bool; [now right; left | now right; right].
Qed.

Section ExistsFacts.

Variable Quote : string -> string.
Variables (dbName : string) (opt : Options) (env : Env) (t : Trace).
Hypothesis Hvalid : isValid opt dbName = None.

(** The query of [Exists], as [run] answers it. *)
Let answer : string * option error :=
  fst (run Quote (psql Quote "postgres" (exists_query dbName) opt) opt env t).

Lemma Exists_run_error (out : string) (e : error) :
  answer = (out, Some e) -> fst (Exists Quote dbName opt env t) = Some e.
Proof.
  unfold answer, Exists. rewrite Hvalid. unfold bind.
  destruct (run _ _ _ _ _) as [r t1]. simpl. now intros ->.
Qed.

Lemma Exists_true (out : string) :
  answer = (out, None) -> strconv.ParseBool out = (true, None) ->
  fst (Exists Quote dbName opt env t) = None.
Proof.
  unfold answer, Exists. rewrite Hvalid. unfold bind.
  destruct (run _ _ _ _ _) as [r t1]. simpl. intros -> ->.
  destruct (Debug opt); reflexivity.
Qed.

Lemma Exists_false (out : string) :
  answer = (out, None) -> strconv.ParseBool out = (false, None) ->
  fst (Exists Quote dbName opt env t) =
  Some (wrapError (dbName ++ ": db does not exists") ErrDBNotExist).
Proof.
  unfold answer, Exists. rewrite Hvalid. unfold bind.
  destruct (run _ _ _ _ _) as [r t1]. simpl. now intros -> ->.
Qed.

Lemma Exists_malformed (out : string) (e : error) :
  answer = (out, None) -> strconv.ParseBool out = (false, Some e) ->
  fst (Exists Quote dbName opt env t) = Some e.
Proof.
  unfold answer, Exists. rewrite Hvalid. unfold bind.
  destruct (run _ _ _ _ _) as [r t1]. simpl. now intros -> ->.
Qed.

(** The four ways [Exists] can end, told apart by the answer to its query. *)
Lemma Exists_cases :
  (exists out e, answer = (out, Some e) /\
                 Is_ErrDBNotExist e = false /\
                 fst (Exists Quote dbName opt env t) = Some e) \/
  (exists out, answer = (out, None) /\ strconv.ParseBool out = (true, None) /\
               fst (Exists Quote dbName opt env t) = None) \/
  (exists out, answer = (out, None) /\ strconv.ParseBool out = (false, None) /\
               fst (Exists Quote dbName opt env t) =
               Some (wrapError (dbName ++ ": db does not exists") ErrDBNotExist)) \/
  (exists out, answer = (out, None) /\
               strconv.ParseBool out = (false, Some (NumError "ParseBool" out)) /\
               fst (Exists Quote dbName opt env t) = Some (NumError "ParseBool" out)).
Proof.
  destruct answer as [out [e|]] eqn:Ha.
  - left. exists out, e. split; [reflexivity|]. split.
    + exact (run_not_sentinel Quote _ _ _ _ _ _ Ha).
    + exact (Exists_run_error _ _ Ha).
  - right. destruct (ParseBool_cases out) as [Hp|[Hp|Hp]].
    + left. exists out. split; [reflexivity|]. split; [exact Hp|].
      exact (Exists_true out Ha Hp).
    + right; left. exists out. split; [reflexivity|]. split; [exact Hp|].
      exact (Exists_false out Ha Hp).
    + right; right. exists out. split; [reflexivity|]. split; [exact Hp|].
      exact (Exists_malformed out _ Ha Hp).
Qed.

End ExistsFacts.

(** C3: with valid options, [Exists] returns no error exactly when the
    output of its query parses to true; it returns an error that is
    [ErrDBNotExist] (for [errors.Is]) exactly when the output parses to
    false, and that error wraps the sentinel under the message
    "<dbName>: db does not exists"; an output that is no boolean makes it
    return an error that is not [ErrDBNotExist]. *)
Theorem Exists_result
    (Quote : string -> string) (dbName : string) (opt : Options)
    (env : Env) (t : Trace) :
  isValid opt dbName = None ->
  let answer :=
    fst (run Quote (psql Quote "postgres" (exists_query dbName) opt) opt env t) in
  let result := fst (Exists Quote dbName opt env t) in
  (result = None <->
   exists out, answer = (out, None) /\ strconv.ParseBool out = (true, None)) /\
  ((exists e, result = Some e /\ Is_ErrDBNotExist e = true) <->
   exists out, answer = (out, None) /\ strconv.ParseBool out = (false, None)) /\
  (forall e, result = Some e -> Is_ErrDBNotExist e = true ->
             e = wrapError (dbName ++ ": db does not exists") ErrDBNotExist) /\
  (forall out, answer = (out, None) -> snd (strconv.ParseBool out) <> None ->
               exists e, result = Some e /\ Is_ErrDBNotExist e = false).
Proof.
  intros Hvalid. cbv zeta.
  destruct (Exists_cases Quote dbName opt env t Hvalid)
    as [(out & e & Ha & He & Hr) | [(out & Ha & Hp & Hr) |
        [(out & Ha & Hp & Hr) | (out & Ha & Hp & Hr)]]];
    rewrite Hr, Ha.
  - split; [|split; [|split]].
    + split; [discriminate|]. intros (o' & Ho & _). discriminate.
    + split.
      * intros (e' & He' & Hs). injection He' as <-. congruence.
      * intros (o' & Ho & _). discriminate.
    + intros e' He' Hs. injection He' as <-. congruence.
    + intros o' Ho. discriminate.
  - split; [|split; [|split]].
    + split; [|reflexivity]. intros _. now exists out.
    + split.
      * intros (e' & He' & _). discriminate.
      * intros (o' & Ho & Hp'). injection Ho as <-. congruence.
    + intros e' He'. discriminate.
    + intros o' Ho. injection Ho as <-. rewrite Hp. intros Hn. now elim Hn.
  - split; [|split; [|split]].
    + split; [discriminate|].
      intros (o' & Ho & Hp'). injection Ho as <-. congruence.
    + split; [|intros _; eexists; split; reflexivity].
      intros _. now exists out.
    + intros e' He' _. now injection He' as <-.
    + intros o' Ho. injection Ho as <-. rewrite Hp. intros Hn. now elim Hn.
  - split; [|split; [|split]].
    + split; [discriminate|].
      intros (o' & Ho & Hp'). injection Ho as <-. congruence.
    + split.
      * intros (e' & He' & Hs). injection He' as <-. discriminate.
      * intros (o' & Ho & Hp'). injection Ho as <-. congruence.
    + intros e' He' Hs. injection He' as <-. discriminate.
    + intros o' Ho _. injection Ho as <-. eexists. split; reflexivity.
Qed.

Lemma Exists_result_witness :
  fst (Exists strconv.QuoteASCII "app" Sample.opts
              (Sample.scripted true [Sample.ok_pipe " t "]) []) = None /\
  exists e : error,
    fst (Exists strconv.QuoteASCII "app" Sample.opts
                (Sample.scripted true [Sample.ok_pipe "maybe"]) []) = Some e /\
    Is_ErrDBNotExist e = false.
Proof.
  split.
  - apply (proj1 (Exists_result strconv.QuoteASCII "app" Sample.opts
                    (Sample.scripted true [Sample.ok_pipe " t "]) [] eq_refl)).
    exists "t". split; reflexivity.
  - apply (proj2 (proj2 (proj2
             (Exists_result strconv.QuoteASCII "app" Sample.opts
                (Sample.scripted true [Sample.ok_pipe "maybe"]) [] eq_refl)))
             "maybe").
    + reflexivity.
    + discriminate.
Defined.

(* ===================================================================== *)
(** ** Create                                                             *)
(* ===================================================================== *)

(** C1 does not hold of the code; this is [Create] at an input that
    shows it.  The user exists and the existence query of [Exists] exits
    with status 2: [Exists] returns
    the error "raw error: connection refused", which is not
    [ErrDBNotExist]; [Create] does not return it, but goes on to issue
    CREATE DATABASE and the privilege statements, and returns no error. *)
Theorem Create_ignores_Exists_error :
  fst (Exists strconv.QuoteASCII "app" Sample.opts Sample.env_exists_fails
         [EvExec None
            (psql strconv.QuoteASCII "postgres"
               "SELECT EXISTS ( SELECT usename FROM pg_catalog.pg_user WHERE usename = 'bob');"
               Sample.opts)]) =
  Some (errorString "raw error: connection refused") /\
  fst (Create strconv.QuoteASCII "app" Sample.opts Sample.env_exists_fails []) = None /\
  snd (Create strconv.QuoteASCII "app" Sample.opts Sample.env_exists_fails []) =
  [ EvExec None
      (psql strconv.QuoteASCII "postgres"
         "SELECT EXISTS ( SELECT usename FROM pg_catalog.pg_user WHERE usename = 'bob');"
         Sample.opts);
    EvExec None
      (psql strconv.QuoteASCII "postgres" (exists_query "app") Sample.opts);
    EvExec None
      (psql strconv.QuoteASCII "postgres"
         "CREATE DATABASE app ENCODING 'UTF-8' LC_COLLATE='en_US.UTF-8' LC_CTYPE='en_US.UTF-8' TEMPLATE template0 OWNER bob;"
         Sample.opts);
    EvExec None
      (psql strconv.QuoteASCII "app"
         (strings.Join (privilege_queries "bob") "; ") Sample.opts) ].
Proof.
  split; [|split]; vm_compute; reflexivity.
Qed.

(** The steps of [Create] other than the check of [Exists] do end it
    with their error: the query for the user, here. *)
Lemma Create_user_query_error
    (Quote : string -> string) (dbName : string) (opt : Options)
    (env : Env) (t : Trace) (out : string) (e : error) :
  isValid opt dbName = None ->
  fst (run Quote
         (psql Quote "postgres"
            ("SELECT EXISTS ( SELECT usename FROM pg_catalog.pg_user WHERE usename = '" ++
             DBUser opt ++ "');") opt) opt env t) = (out, Some e) ->
  fst (Create Quote dbName opt env t) = Some e.
Proof.
  intros Hvalid. unfold Create. rewrite Hvalid. unfold bind.
  destruct (run _ _ _ _ _) as [r t1]. simpl. now intros ->.
Qed.

(* ===================================================================== *)
(** ** Import                                                             *)
(* ===================================================================== *)

Lemma mount_spec_not_empty (absDir dir : string) :
  is_empty (absDir ++ ":/" ++ dir) = false.
Proof. destruct absDir; reflexivity. Qed.

(** The container of [Import] is started with the mount. *)
Lemma docker_run_mount (Quote : string -> string) (cmd absDir dir : string)
      (opt : Options) :
  docker_run Quote cmd (set_dockerVolume (absDir ++ ":/" ++ dir) opt) =
  "docker run --rm " ++
  (if negb (is_empty (DockerNetwork opt))
   then "--network=" ++ DockerNetwork opt else EmptyString) ++
  " " ++ ("--volume " ++ absDir ++ ":/" ++ dir) ++ " " ++
  DockerImage opt ++ " sh -c " ++ Quote cmd.
Proof.
  unfold docker_run.
  cbn [set_dockerVolume dockerVolume DockerNetwork DockerImage].
  now rewrite mount_spec_not_empty.
Qed.

(** C6: [Import] with an empty file name returns its error at once and
    does nothing else.  With a file name it runs [Drop]; if that returns
    no error it runs [Create]; if that returns no error it resolves the
    directory of the file name (one leading dot, then one leading slash
    removed) to an absolute path, sets the mount to
    "<absolute path>:/<directory>" and runs the file-based restore
    command with it; outside a container that command is started under
    [docker run] with [--volume] and the mount.  The error of the first
    step that fails is the result, and no later step is run. *)
Theorem Import_sequence
    (Quote : string -> string) (dbName sqlFile : string) (opt : Options)
    (env : Env) (t : Trace) :
  Import Quote dbName EmptyString opt env t =
  (Some (errorString "required option: sql file to import"), t) /\
  (sqlFile <> EmptyString ->
   let dir :=
     fst (filepath.Split (strings.TrimPrefix (strings.TrimPrefix sqlFile ".") "/")) in
   let dropped := Drop Quote dbName opt env t in
   let created := Create Quote dbName opt env (snd dropped) in
   (forall e, fst dropped = Some e ->
              Import Quote dbName sqlFile opt env t = (Some e, snd dropped)) /\
   (fst dropped = None ->
    (forall e, fst created = Some e ->
               Import Quote dbName sqlFile opt env t = (Some e, snd created)) /\
    (fst created = None ->
     (forall p msg, env_abs env dir = (p, Some msg) ->
                    Import Quote dbName sqlFile opt env t =
                    (Some (foreignError msg), snd created)) /\
     (forall absDir, env_abs env dir = (absDir, None) ->
        let mounted := set_dockerVolume (absDir ++ ":/" ++ dir) opt in
        let cmd := psqlFile dbName sqlFile mounted in
        let restored := run Quote cmd mounted env (snd created) in
        fst (Import Quote dbName sqlFile opt env t) = snd (fst restored) /\
        snd (Import Quote dbName sqlFile opt env t) =
        (snd restored ++
         match fst restored with
         | (out, None) =>
             if Debug opt
             then [EvLog ("[" ++ out ++ "]: successfully imported into db:" ++
                          dbName ++ " from file:" ++ sqlFile)]
             else []
         | (_, Some _) => []
         end)%list /\
        (env_dockerenv env (snd created) = false ->
         ExitStatus (env_exec env (snd created) None
                              ("docker pull -q " ++ DockerImage opt)) = 0%N ->
         In (EvExec None
               ("docker run --rm " ++
                (if negb (is_empty (DockerNetwork opt))
                 then "--network=" ++ DockerNetwork opt else EmptyString) ++
                " " ++ ("--volume " ++ absDir ++ ":/" ++ dir) ++ " " ++
                DockerImage opt ++ " sh -c " ++ Quote cmd))
            (snd (Import Quote dbName sqlFile opt env t))))))).
Proof.
  split; [reflexivity|].
  intros Hfile. apply is_empty_false in Hfile. cbv zeta.
  assert (Hdir : fst (filepath.Split
                        (strings.TrimPrefix (strings.TrimPrefix sqlFile ".") "/")) =
                 import_dir sqlFile).
  { unfold import_dir. now destruct (filepath.Split _). }
  rewrite Hdir. clear Hdir.
  remember (Import Quote dbName sqlFile opt env t) as result eqn:HI.
  unfold Import in HI. rewrite Hfile in HI.
  cbv [bind ret filepath_Abs log_Printf] in HI. revert HI.
  destruct (Drop Quote dbName opt env t) as [[e1|] t1]; cbn [fst snd]; intros HI.
  { split; [|discriminate]. intros e He. now injection He as <-. }
  split; [discriminate|]. intros _. revert HI.
  destruct (Create Quote dbName opt env t1) as [[e2|] t2]; cbn [fst snd]; intros HI.
  { split; [|discriminate]. intros e He. now injection He as <-. }
  split; [discriminate|]. intros _.
  split.
  - intros p msg Habs. rewrite Habs in HI. exact HI.
  - intros absDir Habs. rewrite Habs in HI. revert HI.
    set (mounted := set_dockerVolume (absDir ++ ":/" ++ import_dir sqlFile) opt).
    change (Debug mounted) with (Debug opt).
    assert (Hstarted :
              env_dockerenv env t2 = false ->
              ExitStatus (env_exec env t2 None
                                   ("docker pull -q " ++ DockerImage opt)) = 0%N ->
              In (EvExec None
                    ("docker run --rm " ++
                     (if negb (is_empty (DockerNetwork opt))
                      then "--network=" ++ DockerNetwork opt else EmptyString) ++
                     " " ++ ("--volume " ++ absDir ++ ":/" ++ import_dir sqlFile) ++
                     " " ++ DockerImage opt ++ " sh -c " ++
                     Quote (psqlFile dbName sqlFile mounted)))
                 (snd (run Quote (psqlFile dbName sqlFile mounted) mounted env t2))).
    { intros Hd H0.
      rewrite (run_outside_pulled Quote _ mounted env t2 Hd H0). cbn [snd].
      apply in_or_app. right. left. f_equal.
      apply (docker_run_mount Quote _ absDir (import_dir sqlFile) opt). }
    revert Hstarted.
    destruct (run _ _ _ _ _) as [[out [e|]] t3]; cbn [fst snd];
      intros Hstarted ->; cbn [fst snd].
    + split; [reflexivity|]. split; [now rewrite app_nil_r|]. exact Hstarted.
    + destruct (Debug opt); cbn [fst snd].
      * split; [reflexivity|]. split; [reflexivity|].
        intros Hd H0. apply in_or_app. left. now apply Hstarted.
      * split; [reflexivity|]. split; [now rewrite app_nil_r|]. exact Hstarted.
Qed.

Lemma Import_sequence_witness :
  fst (Import strconv.QuoteASCII "app" "./data/schema.sql" Sample.opts
              Sample.env_fresh_host []) = None /\
  In (EvExec None
        ("docker run --rm  --volume /srv/data:/data/ postgres:11.8-alpine sh -c " ++
         strconv.QuoteASCII
           "PGPASSWORD=secret psql -h localhost -d app -U bob -p 5432 -v ON_ERROR_STOP=1 --file=./data/schema.sql"))
     (snd (Import strconv.QuoteASCII "app" "./data/schema.sql" Sample.opts
                  Sample.env_fresh_host [])).
Proof.
  pose proof (proj2 (Import_sequence strconv.QuoteASCII "app" "./data/schema.sql"
                       Sample.opts Sample.env_fresh_host [])) as H.
  assert (Hfile : "./data/schema.sql" <> EmptyString) by discriminate.
  specialize (H Hfile). cbv zeta in H.
  destruct H as [_ H].
  assert (Hd : fst (Drop strconv.QuoteASCII "app" Sample.opts
                         Sample.env_fresh_host []) = None) by (vm_compute; reflexivity).
  destruct (H Hd) as [_ H'].
  assert (Hc : fst (Create strconv.QuoteASCII "app" Sample.opts Sample.env_fresh_host
                      (snd (Drop strconv.QuoteASCII "app" Sample.opts
                                 Sample.env_fresh_host []))) = None)
    by (vm_compute; reflexivity).
  destruct (H' Hc) as [_ H''].
  destruct (H'' "/srv/data" eq_refl) as (Hres & _ & Hrun).
  split.
  - rewrite Hres. vm_compute. reflexivity.
  - apply Hrun; vm_compute; reflexivity.
Defined.

(* ===================================================================== *)
(** ** Lines                                                              *)
(* ===================================================================== *)

Lemma split_lines_lf_free (s : string) : Forall lf_free (script.split_lines s).
Proof.
  induction s as [|c cs IH]; simpl; [constructor|].
  destruct (Ascii.eqb c (ascii_of_nat 10)) eqn:Hc.
  - constructor; [reflexivity | exact IH].
  - destruct (script.split_lines cs) as [|l ls].
    + constructor; [|constructor].
      unfold lf_free, line_feed. simpl. now rewrite Hc.
    + inversion IH as [|? ? Hl Hls]; subst.
      constructor; [|exact Hls].
      unfold lf_free, line_feed in *. simpl. now rewrite Hc.
Qed.

Lemma dropCR_lf_free (l : string) : lf_free l -> lf_free (script.dropCR l).
Proof.
  unfold lf_free.
  induction l as [|c cs IH]; [trivial|].
  destruct cs as [|c' cs'].
  - simpl. destruct (Ascii.eqb c carriage_return); [reflexivity|trivial].
  - intros H. change (script.dropCR (String c (String c' cs')))
      with (String c (script.dropCR (String c' cs'))).
    simpl in H. apply orb_false_iff in H as [Hc H].
    simpl has_byte at 1. rewrite Hc. simpl. apply IH. exact H.
Qed.

Lemma dropCRs_lf_free (n : nat) (l : string) : lf_free l -> lf_free (dropCRs n l).
Proof.
  revert l. induction n as [|n IH]; intros l H; simpl; [exact H|].
  apply IH, dropCR_lf_free, H.
Qed.

(** Outer and inner application of [dropCR] agree. *)
Lemma dropCR_dropCRs (n : nat) (l : string) :
  script.dropCR (dropCRs n l) = dropCRs (S n) l.
Proof.
  revert l. induction n as [|n IH]; intros l; [reflexivity|].
  simpl. rewrite IH. reflexivity.
Qed.

Lemma split_lines_cons (c : ascii) (cs : string) :
  script.split_lines (String c cs) =
  if Ascii.eqb c line_feed then EmptyString :: script.split_lines cs
  else match script.split_lines cs with
       | [] => [String c EmptyString]
       | l :: ls => String c l :: ls
       end.
Proof. reflexivity. Qed.

(** Scanning what [EachLine] wrote gives the lines back. *)
Lemma split_lines_line (l rest : string) :
  lf_free l ->
  script.split_lines (l ++ newline ++ rest) = l :: script.split_lines rest.
Proof.
  unfold lf_free.
  induction l as [|c cs IH]; intros H.
  - reflexivity.
  - simpl in H. apply orb_false_iff in H as [Hc H].
    change (String c cs ++ newline ++ rest) with (String c (cs ++ newline ++ rest)).
    rewrite split_lines_cons, Hc, (IH H). reflexivity.
Qed.

Lemma split_write_lines (ls : list string) :
  Forall lf_free ls -> script.split_lines (script.write_lines ls) = ls.
Proof.
  induction 1 as [|l ls Hl _ IH]; [reflexivity|].
  change (script.write_lines (l :: ls)) with (l ++ newline ++ script.write_lines ls).
  rewrite (split_lines_line _ _ Hl), IH. reflexivity.
Qed.

Lemma filter_map_comm {A B : Type} (k : B -> bool) (f : A -> B) (xs : list A) :
  filter k (map f xs) = map f (filter (fun x => k (f x)) xs).
Proof.
  induction xs as [|x xs IH]; [reflexivity|].
  simpl. destruct (k (f x)); simpl; now rewrite IH.
Qed.

Lemma filter_twice {A : Type} (k K : A -> bool) (xs : list A) :
  filter k (filter K xs) = filter (fun x => K x && k x) xs.
Proof.
  induction xs as [|x xs IH]; [reflexivity|].
  simpl. destruct (K x); simpl; [destruct (k x)|]; now rewrite IH.
Qed.

Lemma Forall_filter {A : Type} (P : A -> Prop) (k : A -> bool) (xs : list A) :
  Forall P xs -> Forall P (filter k xs).
Proof.
  induction 1 as [|x xs Hx _ IH]; [constructor|].
  simpl. destruct (k x); [constructor|]; assumption.
Qed.

Lemma Forall_map_lf_free (n : nat) (ls : list string) :
  Forall lf_free ls -> Forall lf_free (map (dropCRs n) ls).
Proof.
  induction 1 as [|l ls Hl _ IH]; simpl; constructor; [|exact IH].
  apply dropCRs_lf_free, Hl.
Qed.

(* ===================================================================== *)
(** ** The tests of the filters and trailing carriage returns             *)
(* ===================================================================== *)

Lemma dropCR_cons2 (c c' : ascii) (cs : string) :
  script.dropCR (String c (String c' cs)) = String c (script.dropCR (String c' cs)).
Proof. reflexivity. Qed.

Lemma HasPrefix_dropCR (p l : string) :
  has_byte carriage_return p = false ->
  strings.HasPrefix (script.dropCR l) p = strings.HasPrefix l p.
Proof.
  revert l. induction p as [|a ps IH]; intros l Hps.
  - reflexivity.
  - simpl in Hps. apply orb_false_iff in Hps as [Ha Hps].
    destruct l as [|c cs]; [reflexivity|].
    destruct cs as [|c' cs'].
    + simpl. destruct (Ascii.eqb c carriage_return) eqn:Hc.
      * apply Ascii.eqb_eq in Hc. subst c.
        rewrite Ascii.eqb_sym, Ha. reflexivity.
      * reflexivity.
    + rewrite dropCR_cons2. cbn [strings.HasPrefix].
      rewrite (IH (String c' cs') Hps). reflexivity.
Qed.

Lemma Contains_cons (c : ascii) (cs p : string) :
  strings.Contains (String c cs) p =
  strings.HasPrefix (String c cs) p || strings.Contains cs p.
Proof. reflexivity. Qed.

Lemma Contains_dropCR (p l : string) :
  has_byte carriage_return p = false ->
  strings.Contains (script.dropCR l) p = strings.Contains l p.
Proof.
  intros Hp.
  induction l as [|c cs IH]; [reflexivity|].
  destruct cs as [|c' cs'].
  - pose proof (HasPrefix_dropCR p (String c EmptyString) Hp) as H.
    rewrite Contains_cons. cbn [script.dropCR] in H |- *.
    destruct (Ascii.eqb c carriage_return).
    + cbn [strings.Contains]. rewrite <- H. now rewrite orb_diag.
    + apply Contains_cons.
  - pose proof (HasPrefix_dropCR p (String c (String c' cs')) Hp) as H.
    rewrite dropCR_cons2 in H |- *.
    rewrite !Contains_cons with (c := c), H, IH. reflexivity.
Qed.

Lemma rejected_dropCR (l : string) : rejected (script.dropCR l) = rejected l.
Proof.
  unfold rejected.
  rewrite !Contains_dropCR, !HasPrefix_dropCR by reflexivity.
  reflexivity.
Qed.

Lemma rejected_dropCRs (n : nat) (l : string) : rejected (dropCRs n l) = rejected l.
Proof.
  revert l. induction n as [|n IH]; intros l; [reflexivity|].
  simpl. now rewrite IH, rejected_dropCR.
Qed.

(* ===================================================================== *)
(** ** The dump pipeline                                                  *)
(* ===================================================================== *)

Lemma cr_blind_dropCRs (k : string -> bool) (n : nat) (l : string) :
  cr_blind k -> k (dropCRs n l) = k l.
Proof.
  intros Hk. revert l. induction n as [|n IH]; intros l; [reflexivity|].
  simpl. now rewrite IH, Hk.
Qed.

Lemma Reject_cr_blind (s : string) :
  has_byte carriage_return s = false ->
  cr_blind (fun line => negb (strings.Contains line s)).
Proof. intros Hs l. now rewrite Contains_dropCR. Qed.

Lemma RejectRegexp_cr_blind (literal : string) :
  has_byte carriage_return literal = false ->
  cr_blind (fun line => negb (script.MatchString (script.Caret literal) line)).
Proof. intros Hs l. simpl. now rewrite HasPrefix_dropCR. Qed.

(** Lines that are too long, and what the filters do to the length. *)
Lemma token_length_dropCR (l : string) :
  (script.token_length (script.dropCR l) <= script.token_length l)%N.
Proof.
  induction l as [|c cs IH]; [apply N.le_refl|].
  destruct cs as [|c' cs'].
  - simpl. destruct (Ascii.eqb c carriage_return); simpl; lia.
  - rewrite dropCR_cons2. cbn [script.token_length] in IH |- *. lia.
Qed.

Lemma short_dropCR (l : string) : short l -> short (script.dropCR l).
Proof.
  unfold short, script.too_long. intros H.
  apply N.leb_gt in H. apply N.leb_gt.
  pose proof (token_length_dropCR l). lia.
Qed.

Lemma short_dropCRs (n : nat) (l : string) : short l -> short (dropCRs n l).
Proof.
  revert l. induction n as [|n IH]; intros l H; simpl; [exact H|].
  apply IH, short_dropCR, H.
Qed.

Lemma Forall_map_short (n : nat) (ls : list string) :
  Forall short ls -> Forall short (map (dropCRs n) ls).
Proof.
  induction 1 as [|l ls Hl _ IH]; simpl; constructor; [|exact IH].
  apply short_dropCRs, Hl.
Qed.

(** What the scanner delivers is short, and a part of what it was given. *)
Lemma scan_tokens_short (ls : list string) : Forall short (script.scan_tokens ls).
Proof.
  induction ls as [|l ls IH]; simpl; [constructor|].
  destruct (script.too_long l) eqn:Hl; constructor; assumption.
Qed.

Lemma scan_tokens_Forall (P : string -> Prop) (ls : list string) :
  Forall P ls -> Forall P (script.scan_tokens ls).
Proof.
  induction 1 as [|l ls Hl _ IH]; simpl; [constructor|].
  destruct (script.too_long l); constructor; assumption.
Qed.

(** The scanner stops at the first line that is too long. *)
Lemma scan_tokens_stop (before : list string) (long : string) (rest : list string) :
  Forall short before -> script.too_long long = true ->
  script.scan_tokens (before ++ long :: rest) = before.
Proof.
  intros Hbefore Hlong.
  induction Hbefore as [|l ls Hl _ IH]; simpl; [now rewrite Hlong|].
  unfold short in Hl. now rewrite Hl, IH.
Qed.

Lemma letters_succ (n : N) :
  Sample.letters (N.succ n) = String "x"%char (Sample.letters n).
Proof. unfold Sample.letters. apply N.iter_succ. Qed.

Lemma letters_facts (n : N) :
  script.token_length (Sample.letters n) = n /\
  lf_free (Sample.letters n) /\
  script.dropCR (Sample.letters n) = Sample.letters n.
Proof.
  induction n as [|n (IHlen & IHlf & IHcr)] using N.peano_ind.
  - repeat split.
  - rewrite letters_succ. split; [|split].
    + cbn [script.token_length]. now rewrite IHlen.
    + unfold lf_free in *. cbn [has_byte]. rewrite IHlf. reflexivity.
    + destruct (Sample.letters n) as [|c cs] eqn:Hn; [reflexivity|].
      rewrite dropCR_cons2, IHcr. reflexivity.
Qed.

(** A scan of three lines, the second of which may be too long. *)
Lemma ScanLines_around (l : string) :
  lf_free l ->
  script.ScanLines ("a" ++ newline ++ l ++ newline ++ "b") =
  if script.too_long l then ["a"] else ["a"; script.dropCR l; "b"].
Proof.
  intros Hlf. unfold script.ScanLines.
  rewrite (split_lines_line "a" _ eq_refl), (split_lines_line _ _ Hlf).
  cbn [script.split_lines script.scan_tokens].
  change (script.too_long "a") with false. cbv iota.
  destruct (script.too_long l); reflexivity.
Qed.

(** A line of 65535 bytes is delivered, a line of 65536 bytes is not, and
    nothing after it is; [Sample.letters] gives lines of either length. *)
Lemma ScanLines_long_line (l : string) :
  lf_free l ->
  (script.token_length l = 65535%N -> script.dropCR l = l ->
   script.ScanLines ("a" ++ newline ++ l ++ newline ++ "b") = ["a"; l; "b"]) /\
  (script.token_length l = 65536%N ->
   script.ScanLines ("a" ++ newline ++ l ++ newline ++ "b") = ["a"]).
Proof.
  intros Hlf. rewrite (ScanLines_around l Hlf). unfold script.too_long. split.
  - intros -> ->. reflexivity.
  - intros ->. reflexivity.
Qed.

(** Short lines are all delivered. *)
Lemma scan_tokens_all (ls : list string) :
  Forall short ls -> script.scan_tokens ls = ls.
Proof.
  induction 1 as [|l ls Hl _ IH]; [reflexivity|].
  simpl. unfold short in Hl. now rewrite Hl, IH.
Qed.

(** The first filter scans the output of [run]. *)
Lemma EachLine_keep_first (k : string -> bool) (out : string) :
  script.EachLine_keep k (Echo out) =
  Echo (script.write_lines (map (dropCRs 0) (filter k (script.ScanLines out)))).
Proof.
  unfold script.EachLine_keep. simpl. now rewrite map_id.
Qed.

(** Every later filter scans what the filter before it wrote: the lines
    lose one more trailing carriage return, and those that pass both
    tests remain. *)
Lemma EachLine_keep_next (k K : string -> bool) (n : nat) (ls : list string) :
  cr_blind k -> Forall lf_free ls -> Forall short ls ->
  script.EachLine_keep k (Echo (script.write_lines (map (dropCRs n) (filter K ls)))) =
  Echo (script.write_lines (map (dropCRs (S n)) (filter (fun l => K l && k l) ls))).
Proof.
  intros Hk Hls Hshort.
  unfold script.EachLine_keep, script.ScanLines. cbn [Error_ Reader Echo].
  rewrite split_write_lines by (apply Forall_map_lf_free, Forall_filter, Hls).
  rewrite scan_tokens_all by (apply Forall_map_short, Forall_filter, Hshort).
  rewrite map_map.
  rewrite (map_ext (fun x => script.dropCR (dropCRs n x)) (dropCRs (S n)))
    by (intros; apply dropCR_dropCRs).
  rewrite filter_map_comm.
  rewrite (filter_ext (fun x => k (dropCRs (S n) x)) k)
    by (intros; now apply cr_blind_dropCRs).
  now rewrite filter_twice.
Qed.

Lemma ScanLines_lf_free (s : string) : Forall lf_free (script.ScanLines s).
Proof.
  unfold script.ScanLines.
  pose proof (scan_tokens_Forall _ _ (split_lines_lf_free s)) as H.
  induction H as [|l ls Hl _ IH]; simpl; constructor; [|exact IH].
  apply dropCR_lf_free, Hl.
Qed.

Lemma ScanLines_short (s : string) : Forall short (script.ScanLines s).
Proof.
  unfold script.ScanLines.
  pose proof (scan_tokens_short (script.split_lines s)) as H.
  induction H as [|l ls Hl _ IH]; simpl; constructor; [|exact IH].
  apply short_dropCR, Hl.
Qed.

(** What the seven filters hand to [cat -s]. *)
Lemma dump_filters_lines (out : string) :
  dump_filters out =
  Echo (script.write_lines
          (map (dropCRs 6)
               (filter (fun l => negb (rejected l)) (script.ScanLines out)))).
Proof.
  unfold dump_filters, script.Reject, script.RejectRegexp.
  rewrite EachLine_keep_first.
  pose proof (ScanLines_lf_free out) as Hls.
  pose proof (ScanLines_short out) as Hsh.
  rewrite (EachLine_keep_next _ _ 0 _ (Reject_cr_blind "OWNER TO" eq_refl) Hls Hsh).
  rewrite (EachLine_keep_next _ _ 1 _ (RejectRegexp_cr_blind "--" eq_refl) Hls Hsh).
  rewrite (EachLine_keep_next _ _ 2 _ (RejectRegexp_cr_blind "REVOKE" eq_refl) Hls Hsh).
  rewrite (EachLine_keep_next _ _ 3 _ (RejectRegexp_cr_blind "COMMENT ON" eq_refl) Hls Hsh).
  rewrite (EachLine_keep_next _ _ 4 _ (RejectRegexp_cr_blind "SET" eq_refl) Hls Hsh).
  rewrite (EachLine_keep_next _ _ 5 _ (RejectRegexp_cr_blind "GRANT" eq_refl) Hls Hsh).
  do 3 f_equal. apply filter_ext. intros l.
  unfold rejected. cbn [script.MatchString].
  rewrite !negb_orb. reflexivity.
Qed.

Lemma collapse_cons2 (a b : string) (rest : list string) :
  collapse_blank_runs (a :: b :: rest) =
  if is_blank a && is_blank b then collapse_blank_runs (b :: rest)
  else a :: collapse_blank_runs (b :: rest).
Proof. reflexivity. Qed.

(** [cat -s] keeps the first line of a blank run, the specification's
    collapse keeps its last: the lines that remain are the same. *)
Lemma squeeze_collapse (ls : list string) :
  script.squeeze false ls = collapse_blank_runs ls /\
  EmptyString :: script.squeeze true ls = collapse_blank_runs (EmptyString :: ls).
Proof.
  induction ls as [|l rest [IHf IHt]]; [split; reflexivity|].
  assert (Hcons : is_blank l = false ->
                  collapse_blank_runs (l :: rest) = l :: collapse_blank_runs rest).
  { intros Hl. simpl. destruct rest; [reflexivity|]. now rewrite Hl. }
  split.
  - cbn [script.squeeze]. fold (is_blank l).
    destruct (is_blank l) eqn:Hl.
    + apply String.eqb_eq in Hl. subst l. exact IHt.
    + now rewrite Hcons, IHf.
  - cbn [script.squeeze]. fold (is_blank l).
    destruct (is_blank l) eqn:Hl.
    + apply String.eqb_eq in Hl. subst l. rewrite IHt. reflexivity.
    + rewrite collapse_cons2, Hl, andb_false_r.
      now rewrite IHf, Hcons.
Qed.

Lemma squeeze_no_blank_run (b : bool) (ls : list string) :
  no_blank_run (script.squeeze b ls) /\
  (b = true -> forall l rest, script.squeeze b ls = l :: rest -> l <> EmptyString).
Proof.
  revert b. induction ls as [|l ls IH]; intros b.
  - split; [exact I | discriminate].
  - cbn [script.squeeze]. destruct (String.eqb l EmptyString) eqn:Hl.
    + destruct b.
      * exact (IH true).
      * split; [|discriminate].
        destruct (IH true) as [Hrun Hhead].
        cbn [no_blank_run]. split; [|exact Hrun].
        destruct (script.squeeze true ls) as [|l' rest'] eqn:Hs; [exact I|].
        intros [_ Hl']. exact (Hhead eq_refl l' rest' eq_refl Hl').
    + apply String.eqb_neq in Hl. destruct (IH false) as [Hrun _]. split.
      * cbn [no_blank_run]. split; [|exact Hrun].
        destruct (script.squeeze false ls); [exact I|]. intros [H _]. exact (Hl H).
      * intros _ l0 rest0 H0. injection H0 as <- _. exact Hl.
Qed.

Lemma squeeze_incl (b : bool) (ls : list string) (l : string) :
  In l (script.squeeze b ls) -> In l ls.
Proof.
  revert b. induction ls as [|x ls IH]; intros b; [trivial|].
  cbn [script.squeeze].
  destruct (String.eqb x EmptyString); [destruct b|]; simpl; intros H.
  - right. exact (IH _ H).
  - destruct H as [H|H]; [now left | right; exact (IH _ H)].
  - destruct H as [H|H]; [now left | right; exact (IH _ H)].
Qed.

(** [cat -s] removes nothing but empty lines. *)
Lemma squeeze_keeps_text (b : bool) (ls : list string) :
  filter (fun l => negb (is_blank l)) (script.squeeze b ls) =
  filter (fun l => negb (is_blank l)) ls.
Proof.
  revert b. induction ls as [|x ls IH]; intros b; [reflexivity|].
  cbn [script.squeeze]. fold (is_blank x).
  destruct (is_blank x) eqn:Hx; [destruct b|]; cbn [filter]; rewrite Hx; simpl;
    now rewrite IH.
Qed.

Lemma dropCR_no_cr (l : string) :
  has_byte carriage_return l = false -> script.dropCR l = l.
Proof.
  induction l as [|c cs IH]; [reflexivity|].
  intros H. simpl in H. apply orb_false_iff in H as [Hc H].
  destruct cs as [|c' cs'].
  - simpl. now rewrite Hc.
  - rewrite dropCR_cons2, (IH H). reflexivity.
Qed.

Lemma dropCRs_no_cr (n : nat) (l : string) :
  has_byte carriage_return l = false -> dropCRs n l = l.
Proof.
  intros H. induction n as [|n IH]; [reflexivity|].
  simpl. now rewrite (dropCR_no_cr l H).
Qed.

Lemma split_lines_no_cr (s : string) :
  has_byte carriage_return s = false ->
  Forall (fun l => has_byte carriage_return l = false) (script.split_lines s).
Proof.
  induction s as [|c cs IH]; intros H; [constructor|].
  simpl in H. apply orb_false_iff in H as [Hc H]. specialize (IH H).
  rewrite split_lines_cons. destruct (Ascii.eqb c line_feed).
  - constructor; [reflexivity | exact IH].
  - destruct (script.split_lines cs) as [|l ls].
    + constructor; [|constructor]. simpl. now rewrite Hc.
    + inversion IH as [|? ? Hl Hls]; subst.
      constructor; [|exact Hls]. simpl. now rewrite Hc, Hl.
Qed.

Lemma map_id_on {A : Type} (P : A -> Prop) (f : A -> A) (xs : list A) :
  (forall x, P x -> f x = x) -> Forall P xs -> map f xs = xs.
Proof.
  intros Hf. induction 1 as [|x xs Hx _ IH]; [reflexivity|].
  simpl. now rewrite (Hf x Hx), IH.
Qed.

(** The lines that pass the filters, when the output holds no carriage
    return and no line that is too long: the lines of the output that no
    rule excludes. *)
Lemma kept_lines_no_cr (out : string) :
  has_byte carriage_return out = false ->
  Forall short (script.split_lines out) ->
  map (dropCRs 6) (filter (fun l => negb (rejected l)) (script.ScanLines out)) =
  filter (fun l => negb (rejected l)) (script.split_lines out).
Proof.
  intros H Hshort. pose proof (split_lines_no_cr out H) as Hls.
  unfold script.ScanLines. rewrite (scan_tokens_all _ Hshort).
  rewrite (map_id_on _ script.dropCR _ dropCR_no_cr Hls).
  apply (map_id_on (fun l => has_byte carriage_return l = false)).
  - intros x. apply dropCRs_no_cr.
  - apply Forall_filter, Hls.
Qed.

(** [cat -s] copies a line with its line feed, and is then at the start
    of a line. *)
Lemma cat_squeeze_in_line (l rest : string) :
  lf_free l ->
  script.cat_squeeze script.InLine (l ++ newline ++ rest) =
  l ++ newline ++ script.cat_squeeze script.AtLineStart rest.
Proof.
  unfold lf_free. induction l as [|c cs IH]; intros H; [reflexivity|].
  simpl in H. apply orb_false_iff in H as [Hc H].
  change (String c cs ++ newline ++ rest) with (String c (cs ++ newline ++ rest)).
  cbn [script.cat_squeeze]. change (ascii_of_nat 10) with line_feed.
  rewrite Hc, (IH H). reflexivity.
Qed.

(** [cat -s] on the lines that [EachLine] wrote: the bytes it copies are
    those of the lines that the squeeze keeps. *)
Lemma cat_squeeze_lines (ls : list string) :
  Forall lf_free ls ->
  script.cat_squeeze script.AtLineStart (script.write_lines ls) =
  script.write_lines (script.squeeze false ls) /\
  script.cat_squeeze script.AfterBlank (script.write_lines ls) =
  script.write_lines (script.squeeze true ls).
Proof.
  induction 1 as [|l ls Hl _ [IHstart IHblank]]; [split; reflexivity|].
  destruct l as [|c cs].
  - change (script.write_lines (EmptyString :: ls))
      with (String line_feed (script.write_lines ls)).
    cbn [script.cat_squeeze script.squeeze String.eqb].
    change (Ascii.eqb line_feed (ascii_of_nat 10)) with true. cbv iota.
    rewrite IHblank. split; reflexivity.
  - assert (Hc : Ascii.eqb c line_feed = false /\ lf_free cs).
    { unfold lf_free in Hl |- *. simpl in Hl. now apply orb_false_iff in Hl. }
    destruct Hc as [Hc Hcs].
    change (script.write_lines (String c cs :: ls))
      with (String c (cs ++ newline ++ script.write_lines ls)).
    cbn [script.cat_squeeze script.squeeze String.eqb].
    change (ascii_of_nat 10) with line_feed. rewrite Hc.
    rewrite (cat_squeeze_in_line cs _ Hcs), IHstart. split; reflexivity.
Qed.

Lemma cat_s_lines (ls : list string) :
  Forall lf_free ls ->
  script.cat_s (script.write_lines ls) = script.write_lines (script.squeeze false ls).
Proof. intros H. apply (cat_squeeze_lines ls H). Qed.

Lemma kept_lines_not_rejected (n : nat) (ls : list string) :
  Forall (fun l => rejected l = false)
         (map (dropCRs n) (filter (fun l => negb (rejected l)) ls)).
Proof.
  induction ls as [|l ls IH]; [constructor|].
  simpl. destruct (rejected l) eqn:Hl; simpl; [exact IH|].
  constructor; [|exact IH]. now rewrite rejected_dropCRs.
Qed.

(** C5: on a run where the schema extraction and [cat -s] succeed (and
    the output file, if one is named, can be written), [SchemaDump]
    returns the lines of the extraction output from which every line that
    contains "ALTER DEFAULT PRIVILEGES" or "OWNER TO", or starts with
    "--", "REVOKE", "COMMENT ON", "SET" or "GRANT", has been removed, and
    in which every run of empty lines has then been collapsed into one
    empty line: no excluded line and no two adjacent empty lines remain,
    and the collapse removes empty lines only.  The text returned is
    these lines, each followed by a line feed; read back line by line it
    gives them again.  The lines are those that the scanner of the first
    filter delivers: it stops at a line of 65536 bytes or more, and that
    line and the lines after it are not in the result.  Each of the seven
    filters scans its input anew, which drops one trailing carriage
    return per line and scan; on an output without carriage returns and
    without such a long line, every line is read and kept as it is. *)
Theorem SchemaDump_filters
    (Quote : string -> string) (dbName outputFile : string) (opt : Options)
    (env : Env) (t : Trace) (out : string) (t1 : Trace) :
  isValid opt dbName = None ->
  run Quote (pg_dump dbName (defaultPort opt)) (defaultPort opt) env t =
  ((out, None), t1) ->
  env_exec env t1 (Some (Reader (dump_filters out))) "cat -s" =
  mkPipe 0 (script.cat_s (Reader (dump_filters out))) None ->
  (forall tr, env_open env tr outputFile = None) ->
  (forall tr data, env_write env tr outputFile data = None) ->
  let kept :=
    map (dropCRs 6) (filter (fun l => negb (rejected l)) (script.ScanLines out)) in
  fst (SchemaDump Quote dbName outputFile opt env t) =
  (script.write_lines (collapse_blank_runs kept), None) /\
  script.split_lines (fst (fst (SchemaDump Quote dbName outputFile opt env t))) =
  collapse_blank_runs kept /\
  Forall (fun l => rejected l = false) (collapse_blank_runs kept) /\
  no_blank_run (collapse_blank_runs kept) /\
  filter (fun l => negb (is_blank l)) (collapse_blank_runs kept) =
  filter (fun l => negb (is_blank l)) kept /\
  (forall before long rest,
      script.split_lines out = (before ++ long :: rest)%list ->
      Forall short before -> script.too_long long = true ->
      kept = map (dropCRs 7) (filter (fun l => negb (rejected l)) before)) /\
  (has_byte carriage_return out = false -> Forall short (script.split_lines out) ->
   kept = filter (fun l => negb (rejected l)) (script.split_lines out)).
Proof.
  intros Hvalid Hrun Hcat Hopen Hwrite kept.
  assert (Hlf : Forall lf_free kept).
  { apply Forall_map_lf_free, Forall_filter, ScanLines_lf_free. }
  assert (Hinput : Reader (dump_filters out) = script.write_lines kept).
  { now rewrite dump_filters_lines. }
  destruct (squeeze_collapse kept) as [Hsq _]. rewrite <- Hsq.
  assert (Hdump : fst (SchemaDump Quote dbName outputFile opt env t) =
                  (script.write_lines (script.squeeze false kept), None)).
  { rewrite dump_filters_lines in Hcat. fold kept in Hcat.
    cbn [Reader Echo] in Hcat.
    unfold SchemaDump. rewrite Hvalid. cbv [bind]. rewrite Hrun. cbv beta iota.
    rewrite dump_filters_lines. fold kept.
    unfold Pipe_Exec. cbn [Error_ Reader Echo].
    rewrite Hcat. cbn [ExitStatus String_ Error_ Reader].
    change (0 <? 0)%N with false. cbv iota.
    rewrite (cat_s_lines _ Hlf).
    destruct (is_empty outputFile); cbn [negb]; cbv iota.
    + reflexivity.
    + unfold os_OpenFile, File_WriteString, ret.
      rewrite Hopen. cbn [option_map]. rewrite Hwrite. reflexivity. }
  split; [exact Hdump|].
  split; [|split; [|split; [|split; [|split]]]].
  - rewrite Hdump. cbn [fst]. apply split_write_lines.
    apply Forall_forall. intros l Hl. apply squeeze_incl in Hl.
    rewrite Forall_forall in Hlf. exact (Hlf l Hl).
  - apply Forall_forall. intros l Hl. apply squeeze_incl in Hl.
    pose proof (kept_lines_not_rejected 6 (script.ScanLines out)) as Hk.
    rewrite Forall_forall in Hk. exact (Hk l Hl).
  - apply squeeze_no_blank_run.
  - apply squeeze_keeps_text.
  - intros before long rest Hsplit Hbefore Hlong.
    unfold kept, script.ScanLines. rewrite Hsplit.
    rewrite (scan_tokens_stop before long rest Hbefore Hlong).
    rewrite filter_map_comm, map_map.
    rewrite (filter_ext (fun x => negb (rejected (script.dropCR x)))
                        (fun l => negb (rejected l)))
      by (intros; now rewrite rejected_dropCR).
    reflexivity.
  - apply kept_lines_no_cr.
Qed.

Lemma SchemaDump_filters_witness :
  Sample.raw_dump =
  "-- comment" ++ String line_feed
  ("GRANT x" ++ String line_feed
  ("CREATE TABLE t();" ++ String line_feed (String line_feed (String line_feed
   "SET x=y;")))) /\
  fst (SchemaDump strconv.QuoteASCII "app" "" Sample.opts
                  (Sample.scripted true [Sample.ok_pipe Sample.raw_dump]) []) =
  ("CREATE TABLE t();" ++ String line_feed (String line_feed EmptyString), None) /\
  script.split_lines
    (fst (fst (SchemaDump strconv.QuoteASCII "app" "" Sample.opts
                          (Sample.scripted true [Sample.ok_pipe Sample.raw_dump]) []))) =
  ["CREATE TABLE t();"; ""].
Proof.
  split; [reflexivity|].
  destruct (SchemaDump_filters strconv.QuoteASCII "app" "" Sample.opts
              (Sample.scripted true [Sample.ok_pipe Sample.raw_dump]) []
              Sample.raw_dump
              [EvExec None (pg_dump "app" (defaultPort Sample.opts))]
              eq_refl eq_refl eq_refl (fun _ => eq_refl) (fun _ _ => eq_refl))
    as (Htext & Hlines & _).
  split.
  - rewrite Htext. reflexivity.
  - rewrite Hlines. reflexivity.
Defined.

(* ===================================================================== *)
(** ** Validation, once more                                              *)
(* ===================================================================== *)

(** X1: [isValid] accepts the options exactly when the database name,
    the host, the user, the password and the image are all non-empty;
    the network, the mount, the port, the field [DBName] and the debug
    flag play no part. *)
Theorem isValid_none_iff (o : Options) (dbName : string) :
  isValid o dbName = None <->
  dbName <> EmptyString /\ DBHost o <> EmptyString /\ DBUser o <> EmptyString /\
  DBPassword o <> EmptyString /\ DockerImage o <> EmptyString.
Proof.
  unfold isValid.
  destruct (is_empty dbName) eqn:H1;
    [apply is_empty_true in H1 | apply is_empty_false in H1].
  { split; [discriminate | tauto]. }
  destruct (is_empty (DBHost o)) eqn:H2;
    [apply is_empty_true in H2 | apply is_empty_false in H2].
  { split; [discriminate | tauto]. }
  destruct (is_empty (DBUser o)) eqn:H3;
    [apply is_empty_true in H3 | apply is_empty_false in H3].
  { split; [discriminate | tauto]. }
  destruct (is_empty (DBPassword o)) eqn:H4;
    [apply is_empty_true in H4 | apply is_empty_false in H4].
  { split; [discriminate | tauto]. }
  destruct (is_empty (DockerImage o)) eqn:H5;
    [apply is_empty_true in H5 | apply is_empty_false in H5].
  { split; [discriminate | tauto]. }
  tauto.
Qed.

Lemma isValid_none_iff_witness :
  isValid (set_DockerNetwork "backend" (set_DBPort (-1) Sample.opts)) "app" = None.
Proof.
  apply (proj2 (isValid_none_iff
                  (set_DockerNetwork "backend" (set_DBPort (-1) Sample.opts)) "app")).
  repeat split; discriminate.
Defined.

(* ===================================================================== *)
(** ** Terminate and Drop                                                 *)
(* ===================================================================== *)

Section TerminateDrop.

Variable Quote : string -> string.
Variables (dbName : string) (opt : Options) (env : Env) (t : Trace).
Hypothesis Hvalid : isValid opt dbName = None.

Lemma Terminate_valid :
  Terminate Quote dbName opt env t =
  let r := run Quote (psql Quote "postgres" (terminate_query dbName) opt) opt env t in
  match fst r with
  | (_, Some err) => (Some err, snd r)
  | (out, None) =>
      (None,
       (snd r ++ debug_log opt ("[" ++ out ++ "]: terminate db:" ++ dbName ++
                                " errors:<nil>"))%list)
  end.
Proof.
  unfold Terminate. rewrite Hvalid. cbv [bind ret log_Printf debug_log].
  fold (terminate_query dbName). cbv zeta.
  destruct (run _ _ _ _ _) as [[out [e|]] t1]; cbn [fst snd]; [reflexivity|].
  destruct (Debug opt); [reflexivity|]. now rewrite app_nil_r.
Qed.

Lemma Drop_terminated (t1 : Trace) :
  Terminate Quote dbName opt env t = (None, t1) ->
  Drop Quote dbName opt env t =
  let r := run Quote (psql Quote "postgres" (drop_query dbName) opt) opt env t1 in
  match fst r with
  | (_, Some err) => (Some err, snd r)
  | (out, None) =>
      (None, (snd r ++ debug_log opt ("[" ++ out ++ "]: drop db:" ++ dbName))%list)
  end.
Proof.
  intros Ht. unfold Drop. unfold bind at 1. rewrite Ht.
  cbv [bind ret log_Printf debug_log]. fold (drop_query dbName). cbv zeta.
  destruct (run _ _ _ _ _) as [[out [e|]] t2]; cbn [fst snd]; [reflexivity|].
  destruct (Debug opt); [reflexivity|]. now rewrite app_nil_r.
Qed.

End TerminateDrop.

Lemma Drop_not_terminated (Quote : string -> string) (dbName : string)
      (opt : Options) (env : Env) (t : Trace) (e : error) :
  fst (Terminate Quote dbName opt env t) = Some e ->
  Drop Quote dbName opt env t = (Some e, snd (Terminate Quote dbName opt env t)).
Proof.
  unfold Drop, bind.
  destruct (Terminate Quote dbName opt env t) as [[e'|] t1]; cbn [fst snd];
    [|discriminate].
  intros H. now injection H as <-.
Qed.

(** X2: [Terminate] does not look at what the query printed: with valid
    options its error is the error of the one [run] it makes, and it
    returns no error whenever that [run] returns none, whatever the
    output. *)
Theorem Terminate_result_is_run_error
    (Quote : string -> string) (dbName : string) (opt : Options)
    (env : Env) (t : Trace) :
  isValid opt dbName = None ->
  fst (Terminate Quote dbName opt env t) =
  snd (fst (run Quote (psql Quote "postgres" (terminate_query dbName) opt) opt env t)).
Proof.
  intros Hvalid. rewrite (Terminate_valid Quote _ _ _ _ Hvalid). cbv zeta.
  destruct (run _ _ _ _ _) as [[out [e|]] t1]; reflexivity.
Qed.

Lemma Terminate_result_is_run_error_witness :
  fst (Terminate strconv.QuoteASCII "app" Sample.opts
                 (Sample.scripted true [Sample.ok_pipe "ERROR: no such database"]) []) =
  None.
Proof.
  rewrite (Terminate_result_is_run_error strconv.QuoteASCII "app" Sample.opts
             (Sample.scripted true [Sample.ok_pipe "ERROR: no such database"]) []
             eq_refl).
  reflexivity.
Defined.

(** X3: when [Terminate] fails, [Drop] returns its error and does nothing
    more: the trace is the one [Terminate] left, so DROP DATABASE is not
    issued.  When [Terminate] succeeds, the result of [Drop] is the error
    of the [run] of "DROP DATABASE IF EXISTS <dbName>;", made on the
    trace that [Terminate] left. *)
Theorem Drop_terminates_first
    (Quote : string -> string) (dbName : string) (opt : Options)
    (env : Env) (t : Trace) :
  isValid opt dbName = None ->
  let terminated := Terminate Quote dbName opt env t in
  (forall e, fst terminated = Some e ->
             Drop Quote dbName opt env t = (Some e, snd terminated)) /\
  (fst terminated = None ->
   let dropped :=
     run Quote (psql Quote "postgres" ("DROP DATABASE IF EXISTS " ++ dbName ++ ";") opt)
         opt env (snd terminated) in
   fst (Drop Quote dbName opt env t) = snd (fst dropped) /\
   exists log, snd (Drop Quote dbName opt env t) = (snd dropped ++ log)%list /\
               forall ev, In ev log -> exists msg, ev = EvLog msg).
Proof.
  intros Hvalid. cbv zeta. split.
  - intros e He. apply Drop_not_terminated, He.
  - intros Hnone.
    destruct (Terminate Quote dbName opt env t) as [r t1] eqn:Ht.
    cbn [fst snd] in *. subst r.
    rewrite (Drop_terminated Quote _ _ _ _ t1 Ht). cbv zeta.
    fold (drop_query dbName).
    destruct (run _ _ _ _ _) as [[out [e|]] t2]; cbn [fst snd].
    + split; [reflexivity|]. exists []. split; [now rewrite app_nil_r|].
      intros ev [].
    + split; [reflexivity|]. eexists. split; [reflexivity|].
      unfold debug_log. destruct (Debug opt); intros ev Hev.
      * destruct Hev as [<-|[]]. eexists. reflexivity.
      * destruct Hev.
Qed.

Lemma Drop_terminates_first_witness :
  Drop strconv.QuoteASCII "app" Sample.opts
       (Sample.scripted true [Sample.failed_pipe 2 "connection refused"]) [] =
  (Some (errorString "raw error: connection refused"),
   [EvExec None (psql strconv.QuoteASCII "postgres" (terminate_query "app") Sample.opts)]).
Proof.
  apply (proj1 (Drop_terminates_first strconv.QuoteASCII "app" Sample.opts
                  (Sample.scripted true [Sample.failed_pipe 2 "connection refused"]) []
                  eq_refl)).
  reflexivity.
Defined.

(* ===================================================================== *)
(** ** The execution engine, once more                                    *)
(* ===================================================================== *)

Lemma pipe_result_error_empty (p : Pipe) (s : string) (e : error) :
  pipe_result p = (s, Some e) -> s = EmptyString.
Proof.
  unfold pipe_result.
  destruct (0 <? ExitStatus p)%N; [intros H; now injection H as <- _|].
  destruct (Error_ p); intros H; [now injection H as <- _ | discriminate].
Qed.

(** The three ways [run] can go, by the pipe whose result it returns. *)
Lemma run_cases (Quote : string -> string) (cmd : string) (o : Options)
      (env : Env) (t : Trace) :
  (exists p, fst (run Quote cmd o env t) = pipe_result p) \/
  (exists out, fst (run Quote cmd o env t) =
               (EmptyString, Some (errorString ("raw error: " ++ out)))).
Proof.
  destruct (env_dockerenv env t) eqn:Hd.
  - left. rewrite (run_inside Quote cmd o env t Hd). eexists. reflexivity.
  - destruct (N.eq_0_gt_0_cases
                (ExitStatus (env_exec env t None ("docker pull -q " ++ DockerImage o))))
      as [H0|Hpos].
    + left. rewrite (run_outside_pulled Quote cmd o env t Hd H0). eexists. reflexivity.
    + right. rewrite (run_outside_pull_failed Quote cmd o env t Hd Hpos).
      eexists. reflexivity.
Qed.

Lemma run_error_empty (Quote : string -> string) (cmd : string) (o : Options)
      (env : Env) (t : Trace) (s : string) (e : error) :
  fst (run Quote cmd o env t) = (s, Some e) -> s = EmptyString.
Proof.
  destruct (run_cases Quote cmd o env t) as [[p ->]|[out ->]].
  - apply pipe_result_error_empty.
  - intros H. now injection H as <- _.
Qed.

(** X4: outside a container [dockerPull] looks at the exit status of the
    pull only.  A pull whose pipe carries an error but reports exit
    status 0 (the docker binary cannot be started, say) counts as a
    success: [run] goes on to start the container, and its result is the
    result of the container's pipe. *)
Theorem pull_error_without_status_is_ignored
    (Quote : string -> string) (cmd : string) (o : Options)
    (env : Env) (t : Trace) (msg : string) :
  env_dockerenv env t = false ->
  Error_ (env_exec env t None ("docker pull -q " ++ DockerImage o)) = Some msg ->
  ExitStatus (env_exec env t None ("docker pull -q " ++ DockerImage o)) = 0%N ->
  fst (run Quote cmd o env t) =
  pipe_result (env_exec env (after_pull Quote cmd o t) None (docker_run Quote cmd o)) /\
  In (EvExec None (docker_run Quote cmd o)) (snd (run Quote cmd o env t)).
Proof.
  intros Hd _ H0. rewrite (run_outside_pulled Quote cmd o env t Hd H0).
  split; [reflexivity|]. cbn [snd]. apply in_or_app. right. now left.
Qed.

Lemma pull_error_without_status_is_ignored_witness :
  fst (run strconv.QuoteASCII "psql" Sample.opts Sample.env_no_docker []) = ("ok", None).
Proof.
  rewrite (proj1 (pull_error_without_status_is_ignored strconv.QuoteASCII "psql"
                    Sample.opts Sample.env_no_docker [] "exec: docker: not found"
                    eq_refl eq_refl eq_refl)).
  reflexivity.
Defined.

(* ===================================================================== *)
(** ** SchemaDump, step by step                                           *)
(* ===================================================================== *)

Section SchemaDumpSteps.

Variable Quote : string -> string.
Variables (dbName outputFile : string) (opt : Options) (env : Env) (t : Trace).
Hypothesis Hvalid : isValid opt dbName = None.

(** The extraction failed: nothing else happens. *)
Lemma SchemaDump_run_failed (s : string) (e : error) (t1 : Trace) :
  run Quote (pg_dump dbName (defaultPort opt)) (defaultPort opt) env t =
  ((s, Some e), t1) ->
  SchemaDump Quote dbName outputFile opt env t = ((EmptyString, Some e), t1).
Proof.
  intros Hrun. unfold SchemaDump. rewrite Hvalid. cbv [bind]. now rewrite Hrun.
Qed.

(** The extraction succeeded: what follows, by the answer of [cat -s]
    and of the file system. *)
Lemma SchemaDump_run_ok (out : string) (t1 : Trace) :
  run Quote (pg_dump dbName (defaultPort opt)) (defaultPort opt) env t =
  ((out, None), t1) ->
  SchemaDump Quote dbName outputFile opt env t =
  let input := Reader (dump_filters out) in
  let p := env_exec env t1 (Some input) "cat -s" in
  let t2 := (t1 ++ [EvExec (Some input) "cat -s"])%list in
  if (0 <? ExitStatus p)%N
  then ((EmptyString, Some (errorString ("raw error: " ++ Reader p))), t2)
  else match Error_ p with
       | Some msg => ((EmptyString, Some (foreignError msg)), t2)
       | None =>
           if is_empty outputFile then ((Reader p, None), t2)
           else
             match env_open env t2 outputFile with
             | Some msg =>
                 ((EmptyString, Some (foreignError msg)),
                  (t2 ++ [EvOpenFile outputFile])%list)
             | None =>
                 match env_write env (t2 ++ [EvOpenFile outputFile])%list
                                 outputFile (Reader p) with
                 | Some msg =>
                     ((EmptyString, Some (foreignError msg)),
                      ((t2 ++ [EvOpenFile outputFile]) ++
                       [EvWriteString outputFile (Reader p)])%list)
                 | None =>
                     ((Reader p, None),
                      ((t2 ++ [EvOpenFile outputFile]) ++
                       [EvWriteString outputFile (Reader p)])%list)
                 end
             end
       end.
Proof.
  intros Hrun. unfold SchemaDump. rewrite Hvalid. cbv [bind]. rewrite Hrun.
  cbv beta iota zeta.
  rewrite dump_filters_lines. unfold Pipe_Exec. cbn [Error_ Reader Echo].
  set (input := script.write_lines _).
  destruct (0 <? ExitStatus (env_exec env t1 (Some input) "cat -s"))%N; [reflexivity|].
  unfold String_.
  destruct (Error_ (env_exec env t1 (Some input) "cat -s")); [reflexivity|].
  destruct (is_empty outputFile); cbn [negb]; [reflexivity|].
  cbv [os_OpenFile File_WriteString ret].
  set (t2 := (t1 ++ _)%list).
  destruct (env_open env t2 outputFile); cbn [option_map]; [reflexivity|].
  destruct (env_write env (t2 ++ [EvOpenFile outputFile])%list outputFile _);
    reflexivity.
Qed.

End SchemaDumpSteps.

(** X5: [run] and [SchemaDump] never return text together with an
    error: whenever the error is not nil the text is empty.  For
    [SchemaDump] this covers a failure at any step, the opening and the
    writing of the output file included, where the dump that was built in
    memory is not returned. *)
Theorem error_comes_without_output
    (Quote : string -> string) (cmd dbName outputFile : string) (o : Options)
    (env : Env) (t : Trace) (s : string) (e : error) :
  (fst (run Quote cmd o env t) = (s, Some e) -> s = EmptyString) /\
  (fst (SchemaDump Quote dbName outputFile o env t) = (s, Some e) -> s = EmptyString).
Proof.
  split; [apply run_error_empty|].
  destruct (isValid o dbName) as [e0|] eqn:Hvalid.
  { rewrite (SchemaDump_invalid Quote _ _ _ Hvalid). cbn [fst snd]. intros H. now injection H as <- _. }
  destruct (run Quote (pg_dump dbName (defaultPort o)) (defaultPort o) env t)
    as [[out [e1|]] t1] eqn:Hrun.
  { rewrite (SchemaDump_run_failed Quote _ _ _ _ _ Hvalid _ _ _ Hrun) . cbn [fst snd].
    intros H. now injection H as <- _. }
  rewrite (SchemaDump_run_ok Quote _ outputFile _ _ _ Hvalid _ _ Hrun). cbv zeta.
  set (p := env_exec env t1 _ "cat -s"). set (t2 := (t1 ++ _)%list).
  destruct (0 <? ExitStatus p)%N; [cbn [fst snd]; intros H; now injection H as <- _|].
  destruct (Error_ p); [cbn [fst snd]; intros H; now injection H as <- _|].
  destruct (is_empty outputFile); [cbn [fst snd]; discriminate|].
  destruct (env_open env t2 outputFile);
    [cbn [fst snd]; intros H; now injection H as <- _|].
  destruct (env_write env (t2 ++ [EvOpenFile outputFile])%list outputFile (Reader p));
    cbn [fst snd]; [intros H; now injection H as <- _|].
  discriminate.
Qed.

Lemma error_comes_without_output_witness :
  fst (fst (SchemaDump strconv.QuoteASCII "app" "dump.sql" Sample.opts
                       Sample.env_disk_full [])) = EmptyString.
Proof.
  refine (proj2 (error_comes_without_output strconv.QuoteASCII "psql" "app" "dump.sql"
                   Sample.opts Sample.env_disk_full []
                   (fst (fst (SchemaDump strconv.QuoteASCII "app" "dump.sql" Sample.opts
                                         Sample.env_disk_full [])))
                   (foreignError "no space left on device")) _).
  vm_compute. reflexivity.
Defined.

(** [run] adds processes and log lines to the trace, nothing else. *)
Lemma run_trace (Quote : string -> string) (cmd : string) (o : Options)
      (env : Env) (t : Trace) :
  exists added : Trace,
    snd (run Quote cmd o env t) = (t ++ added)%list /\
    Forall (fun ev => is_file_event ev = false) added.
Proof.
  destruct (env_dockerenv env t) eqn:Hd.
  - rewrite (run_inside Quote cmd o env t Hd). eexists. split; [reflexivity|].
    repeat constructor.
  - destruct (N.eq_0_gt_0_cases
                (ExitStatus (env_exec env t None ("docker pull -q " ++ DockerImage o))))
      as [H0|Hpos].
    + rewrite (run_outside_pulled Quote cmd o env t Hd H0). cbn [snd].
      unfold after_pull. rewrite <- !app_assoc. eexists. split; [reflexivity|].
      destruct (Debug o); repeat constructor.
    + rewrite (run_outside_pull_failed Quote cmd o env t Hd Hpos).
      eexists. split; [reflexivity|]. repeat constructor.
Qed.

(** X6: [SchemaDump] without an output file name does not touch the file
    system, in any environment and whatever the outcome: every event it
    adds to the trace is a process or a log line. *)
Theorem SchemaDump_without_file_name
    (Quote : string -> string) (dbName : string) (opt : Options)
    (env : Env) (t : Trace) :
  exists added : Trace,
    snd (SchemaDump Quote dbName EmptyString opt env t) = (t ++ added)%list /\
    Forall (fun ev => is_file_event ev = false) added.
Proof.
  destruct (isValid opt dbName) as [e0|] eqn:Hvalid.
  { rewrite (SchemaDump_invalid Quote _ _ _ Hvalid). exists [].
    split; [cbn [fst snd ret]; now rewrite app_nil_r | constructor]. }
  destruct (run_trace Quote (pg_dump dbName (defaultPort opt)) (defaultPort opt) env t)
    as (added & Hadded & Hfile).
  destruct (run Quote (pg_dump dbName (defaultPort opt)) (defaultPort opt) env t)
    as [[out [e1|]] t1] eqn:Hrun; cbn [snd] in Hadded; subst t1.
  { rewrite (SchemaDump_run_failed Quote _ _ _ _ _ Hvalid _ _ _ Hrun).
    exists added. split; [reflexivity | exact Hfile]. }
  rewrite (SchemaDump_run_ok Quote _ EmptyString _ _ _ Hvalid _ _ Hrun). cbv zeta.
  change (is_empty EmptyString) with true. cbv iota.
  exists (added ++ [EvExec (Some (Reader (dump_filters out))) "cat -s"])%list.
  split.
  - set (p := env_exec env (t ++ added)%list _ "cat -s").
    destruct (0 <? ExitStatus p)%N; [|destruct (Error_ p)];
      cbn [snd]; now rewrite app_assoc.
  - apply Forall_app. split; [exact Hfile | repeat constructor].
Qed.

(** X7: when [SchemaDump] with an output file name returns a dump and no
    error, the last two things it did were to open that file and to write
    the returned dump to it, the whole of it in one write. *)
Theorem SchemaDump_writes_what_it_returns
    (Quote : string -> string) (dbName outputFile : string) (opt : Options)
    (env : Env) (t : Trace) (dump : string) :
  outputFile <> EmptyString ->
  fst (SchemaDump Quote dbName outputFile opt env t) = (dump, None) ->
  exists before : Trace,
    snd (SchemaDump Quote dbName outputFile opt env t) =
    (before ++ [EvOpenFile outputFile; EvWriteString outputFile dump])%list.
Proof.
  intros Hfile. apply is_empty_false in Hfile.
  destruct (isValid opt dbName) as [e0|] eqn:Hvalid.
  { rewrite (SchemaDump_invalid Quote _ _ _ Hvalid). cbn [fst snd]. discriminate. }
  destruct (run Quote (pg_dump dbName (defaultPort opt)) (defaultPort opt) env t)
    as [[out [e1|]] t1] eqn:Hrun.
  { rewrite (SchemaDump_run_failed Quote _ _ _ _ _ Hvalid _ _ _ Hrun). cbn [fst snd]. discriminate. }
  rewrite (SchemaDump_run_ok Quote _ outputFile _ _ _ Hvalid _ _ Hrun). cbv zeta.
  rewrite Hfile.
  set (p := env_exec env t1 _ "cat -s"). set (t2 := (t1 ++ _)%list).
  destruct (0 <? ExitStatus p)%N; [cbn [fst snd]; discriminate|].
  destruct (Error_ p); [cbn [fst snd]; discriminate|].
  destruct (env_open env t2 outputFile); [cbn [fst snd]; discriminate|].
  destruct (env_write env (t2 ++ [EvOpenFile outputFile])%list outputFile (Reader p));
    cbn [fst snd]; [discriminate|].
  intros H. injection H as <-.
  eexists. rewrite <- app_assoc. reflexivity.
Qed.

Lemma SchemaDump_writes_what_it_returns_witness :
  exists before : Trace,
    snd (SchemaDump strconv.QuoteASCII "app" "dump.sql" Sample.opts
                    (Sample.scripted true [Sample.ok_pipe Sample.raw_dump]) []) =
    (before ++ [EvOpenFile "dump.sql";
                EvWriteString "dump.sql" (script.write_lines ["CREATE TABLE t();"; ""])])%list.
Proof.
  apply (SchemaDump_writes_what_it_returns strconv.QuoteASCII "app" "dump.sql"
           Sample.opts (Sample.scripted true [Sample.ok_pipe Sample.raw_dump]) []).
  - discriminate.
  - vm_compute. reflexivity.
Defined.

(** X8: a [cat -s] that exits with a positive status ends [SchemaDump]
    with the error "raw error: " followed by what [cat] printed; the
    output file, named or not, is neither opened nor written, and the
    output of the extraction is not returned. *)
Theorem SchemaDump_filter_stage_failed
    (Quote : string -> string) (dbName outputFile : string) (opt : Options)
    (env : Env) (t : Trace) (out : string) (t1 : Trace) :
  isValid opt dbName = None ->
  run Quote (pg_dump dbName (defaultPort opt)) (defaultPort opt) env t =
  ((out, None), t1) ->
  let cat := env_exec env t1 (Some (Reader (dump_filters out))) "cat -s" in
  (0 < ExitStatus cat)%N ->
  SchemaDump Quote dbName outputFile opt env t =
  ((EmptyString, Some (errorString ("raw error: " ++ Reader cat))),
   (t1 ++ [EvExec (Some (Reader (dump_filters out))) "cat -s"])%list).
Proof.
  intros Hvalid Hrun cat Hpos. apply N.ltb_lt in Hpos.
  rewrite (SchemaDump_run_ok Quote _ outputFile _ _ _ Hvalid _ _ Hrun). cbv zeta.
  fold cat. now rewrite Hpos.
Qed.

Lemma SchemaDump_filter_stage_failed_witness :
  SchemaDump strconv.QuoteASCII "app" "dump.sql" Sample.opts Sample.env_no_cat [] =
  ((EmptyString, Some (errorString "raw error: cat: not found")),
   [EvExec None (pg_dump "app" (defaultPort Sample.opts));
    EvExec (Some (script.write_lines ["CREATE TABLE t();"])) "cat -s"]).
Proof.
  apply (SchemaDump_filter_stage_failed strconv.QuoteASCII "app" "dump.sql"
           Sample.opts Sample.env_no_cat [] "CREATE TABLE t();"
           [EvExec None (pg_dump "app" (defaultPort Sample.opts))] eq_refl eq_refl).
  reflexivity.
Defined.

(* ===================================================================== *)
(** ** Create, step by step                                               *)
(* ===================================================================== *)

Section CreateSteps.

Variable Quote : string -> string.
Variables (dbName : string) (opt : Options) (env : Env) (t : Trace).
Hypothesis Hvalid : isValid opt dbName = None.

(** [Create] up to the answer of the user query. *)
Lemma Create_after_user_query :
  Create Quote dbName opt env t =
  let asked := run Quote (psql Quote "postgres" (user_query opt) opt) opt env t in
  match fst asked with
  | (_, Some err) => (Some err, snd asked)
  | (out, None) =>
      match strconv.ParseBool out with
      | (_, Some err) => (Some err, snd asked)
      | (exists_, None) =>
          let made :=
            (if negb exists_ then Create_user Quote opt else ret None) env (snd asked) in
          match fst made with
          | Some err => (Some err, snd made)
          | None =>
              let found := Exists Quote dbName opt env (snd made) in
              match fst found with
              | None =>
                  (None,
                   (snd found ++
                    debug_log opt ("skipping creating existing database:" ++ dbName))%list)
              | Some _ =>
                  let created :=
                    run Quote (psql Quote "postgres" (create_database_query dbName opt) opt)
                        opt env (snd found) in
                  match fst created with
                  | (_, Some err) => (Some err, snd created)
                  | (out2, None) =>
                      let granted :=
                        run Quote
                            (psql Quote dbName
                                  (strings.Join (privilege_queries (DBUser opt)) "; ") opt)
                            opt env
                            (snd created ++
                             debug_log opt ("[" ++ out2 ++
                                            "]: successfully created database:" ++
                                            dbName))%list in
                      match fst granted with
                      | (_, Some err) => (Some err, snd granted)
                      | (_, None) =>
                          (None,
                           (snd granted ++
                            debug_log opt ("successfully applied PRIVILEGES to user:" ++
                                           DBUser opt ++ " on db:" ++ dbName))%list)
                      end
                  end
              end
          end
      end
  end.
Proof.
  unfold Create. rewrite Hvalid.
  fold (user_query opt). fold (create_database_query dbName opt).
  cbv [bind ret log_Printf debug_log]. cbv zeta.
  set (userq := psql Quote "postgres" (user_query opt) opt).
  destruct (run Quote userq opt env t) as [[out [e|]] t1]; cbn [fst snd]; [reflexivity|].
  destruct (strconv.ParseBool out) as [b [e|]]; [reflexivity|].
  set (made := (if negb b then Create_user Quote opt else fun _ t0 => (None, t0)) env t1).
  destruct made as [[e|] t2]; cbn [fst snd]; [reflexivity|].
  destruct (Exists Quote dbName opt env t2) as [[e0|] t3]; cbn [fst snd].
  - set (createq := psql Quote "postgres" (create_database_query dbName opt) opt).
    destruct (run Quote createq opt env t3) as [[out2 [e|]] t4]; cbn [fst snd];
      [reflexivity|].
    set (grantq := psql Quote dbName _ opt).
    destruct (Debug opt); cbn [app].
    + destruct (run Quote grantq opt env (t4 ++ _)%list) as [[out3 [e|]] t5];
        reflexivity.
    + rewrite app_nil_r.
      destruct (run Quote grantq opt env t4) as [[out3 [e|]] t5]; cbn [fst snd];
        [reflexivity|]. now rewrite app_nil_r.
  - destruct (Debug opt); [reflexivity|]. now rewrite app_nil_r.
Qed.

(** [Create] from the moment the user is there. *)
Lemma Create_user_ready (t2 : Trace) :
  user_ready Quote opt env t t2 ->
  Create Quote dbName opt env t =
  let found := Exists Quote dbName opt env t2 in
  match fst found with
  | None =>
      (None,
       (snd found ++ debug_log opt ("skipping creating existing database:" ++ dbName))%list)
  | Some _ =>
      let created :=
        run Quote (psql Quote "postgres" (create_database_query dbName opt) opt)
            opt env (snd found) in
      match fst created with
      | (_, Some err) => (Some err, snd created)
      | (out2, None) =>
          let granted :=
            run Quote
                (psql Quote dbName (strings.Join (privilege_queries (DBUser opt)) "; ") opt)
                opt env
                (snd created ++
                 debug_log opt ("[" ++ out2 ++ "]: successfully created database:" ++
                                dbName))%list in
          match fst granted with
          | (_, Some err) => (Some err, snd granted)
          | (_, None) =>
              (None,
               (snd granted ++
                debug_log opt ("successfully applied PRIVILEGES to user:" ++
                               DBUser opt ++ " on db:" ++ dbName))%list)
          end
      end
  end.
Proof.
  intros (out & t1 & Hask & Hready).
  rewrite Create_after_user_query. cbv zeta. rewrite Hask. cbn [fst snd].
  destruct Hready as [[Hp ->]|[Hp Hmade]]; rewrite Hp; cbn [negb].
  - reflexivity.
  - rewrite Hmade. reflexivity.
Qed.

End CreateSteps.

(** X9: a user query that fails, or whose answer is no boolean, ends
    [Create] with that error before anything else is run: the error of
    [run] as it is, or the syntax error of [strconv.ParseBool] for the
    answer. *)
Theorem Create_user_check_failed
    (Quote : string -> string) (dbName : string) (opt : Options)
    (env : Env) (t : Trace) :
  isValid opt dbName = None ->
  let asked := run Quote (psql Quote "postgres" (user_query opt) opt) opt env t in
  (forall s e, fst asked = (s, Some e) ->
               Create Quote dbName opt env t = (Some e, snd asked)) /\
  (forall out, fst asked = (out, None) -> snd (strconv.ParseBool out) <> None ->
               Create Quote dbName opt env t =
               (Some (NumError "ParseBool" out), snd asked)).
Proof.
  intros Hvalid. cbv zeta.
  rewrite (Create_after_user_query Quote _ _ _ _ Hvalid). cbv zeta.
  set (userq := psql Quote "postgres" (user_query opt) opt).
  destruct (run Quote userq opt env t) as [r t1]. cbn [fst snd]. split.
  - intros s e ->. reflexivity.
  - intros out -> Hbad.
    destruct (ParseBool_cases out) as [Hp|[Hp|Hp]]; rewrite Hp in Hbad |- *;
      [now elim Hbad | now elim Hbad | reflexivity].
Qed.

Lemma Create_user_check_failed_witness :
  Create strconv.QuoteASCII "app" Sample.opts
         (Sample.scripted true [Sample.ok_pipe "psql: warning"]) [] =
  (Some (NumError "ParseBool" "psql: warning"),
   [EvExec None (psql strconv.QuoteASCII "postgres" (user_query Sample.opts) Sample.opts)]).
Proof.
  apply (proj2 (Create_user_check_failed strconv.QuoteASCII "app" Sample.opts
                  (Sample.scripted true [Sample.ok_pipe "psql: warning"]) [] eq_refl)).
  - reflexivity.
  - discriminate.
Defined.

(** X10: when the user query parses to false, [Create] issues CREATE USER
    next, before it looks for the database; if that fails, [Create]
    returns its error and neither the existence query nor CREATE DATABASE
    is run. *)
Theorem Create_user_creation_failed
    (Quote : string -> string) (dbName : string) (opt : Options)
    (env : Env) (t : Trace) (out : string) (t1 : Trace) (s : string) (e : error)
    (t2 : Trace) :
  isValid opt dbName = None ->
  run Quote (psql Quote "postgres" (user_query opt) opt) opt env t = ((out, None), t1) ->
  strconv.ParseBool out = (false, None) ->
  run Quote
      (psql Quote "postgres"
            ("CREATE USER " ++ DBUser opt ++ " WITH PASSWORD '" ++ DBPassword opt ++ "';")
            opt)
      opt env t1 = ((s, Some e), t2) ->
  Create Quote dbName opt env t = (Some e, t2).
Proof.
  intros Hvalid Hask Hp Hmake.
  rewrite (Create_after_user_query Quote _ _ _ _ Hvalid). cbv zeta.
  rewrite Hask. cbn [fst snd]. rewrite Hp. cbn [negb].
  unfold Create_user. cbv [bind]. rewrite Hmake. reflexivity.
Qed.

Lemma Create_user_creation_failed_witness :
  Create strconv.QuoteASCII "app" Sample.opts Sample.env_no_user [] =
  (Some (errorString "raw error: ERROR:  permission denied to create role"),
   [EvExec None (psql strconv.QuoteASCII "postgres" (user_query Sample.opts) Sample.opts);
    EvExec None (psql strconv.QuoteASCII "postgres" (create_user_query Sample.opts)
                      Sample.opts)]).
Proof.
  apply (Create_user_creation_failed strconv.QuoteASCII "app" Sample.opts
           Sample.env_no_user [] "f"
           [EvExec None (psql strconv.QuoteASCII "postgres" (user_query Sample.opts)
                              Sample.opts)]
           EmptyString).
  - reflexivity.
  - reflexivity.
  - reflexivity.
  - reflexivity.
Defined.

(** X11: [Create] on a database that exists is a no-op.  Once the user is
    there and [Exists] returns no error, [Create] returns no error and
    stops: neither CREATE DATABASE nor the privilege statements are
    issued, and beyond what [Exists] did it only logs. *)
Theorem Create_existing_database
    (Quote : string -> string) (dbName : string) (opt : Options)
    (env : Env) (t t2 : Trace) :
  isValid opt dbName = None ->
  user_ready Quote opt env t t2 ->
  fst (Exists Quote dbName opt env t2) = None ->
  Create Quote dbName opt env t =
  (None,
   (snd (Exists Quote dbName opt env t2) ++
    debug_log opt ("skipping creating existing database:" ++ dbName))%list).
Proof.
  intros Hvalid Hready Hfound.
  rewrite (Create_user_ready Quote _ _ _ _ Hvalid t2 Hready). cbv zeta.
  now rewrite Hfound.
Qed.

Lemma Create_existing_database_witness :
  Create strconv.QuoteASCII "app" Sample.opts Sample.env_all_there [] =
  (None,
   [EvExec None (psql strconv.QuoteASCII "postgres" (user_query Sample.opts) Sample.opts);
    EvExec None (psql strconv.QuoteASCII "postgres" (exists_query "app") Sample.opts)]).
Proof.
  rewrite (Create_existing_database strconv.QuoteASCII "app" Sample.opts
             Sample.env_all_there []
             [EvExec None (psql strconv.QuoteASCII "postgres" (user_query Sample.opts)
                                Sample.opts)]).
  - reflexivity.
  - reflexivity.
  - exists "t", [EvExec None (psql strconv.QuoteASCII "postgres" (user_query Sample.opts)
                                   Sample.opts)].
    split; [reflexivity|]. left. split; reflexivity.
  - reflexivity.
Defined.

(** X12: once the user is there and [Exists] returns an error, of
    whatever kind, [Create] issues CREATE DATABASE against the database
    "postgres".  If that fails, [Create] returns its error and the
    privilege statements are not issued.  If it succeeds, the four
    privilege statements are sent as one command against the new
    database, and the error of that command is the result of [Create]. *)
Theorem Create_missing_database
    (Quote : string -> string) (dbName : string) (opt : Options)
    (env : Env) (t t2 : Trace) (e0 : error) :
  isValid opt dbName = None ->
  user_ready Quote opt env t t2 ->
  fst (Exists Quote dbName opt env t2) = Some e0 ->
  let created :=
    run Quote (psql Quote "postgres" (create_database_query dbName opt) opt)
        opt env (snd (Exists Quote dbName opt env t2)) in
  (forall s e, fst created = (s, Some e) ->
               Create Quote dbName opt env t = (Some e, snd created)) /\
  (forall out, fst created = (out, None) ->
     let granted :=
       run Quote
           (psql Quote dbName (strings.Join (privilege_queries (DBUser opt)) "; ") opt)
           opt env
           (snd created ++
            debug_log opt ("[" ++ out ++ "]: successfully created database:" ++ dbName))%list in
     fst (Create Quote dbName opt env t) = snd (fst granted) /\
     exists log, snd (Create Quote dbName opt env t) = (snd granted ++ log)%list /\
                 forall ev, In ev log -> exists msg, ev = EvLog msg).
Proof.
  intros Hvalid Hready Hfound. cbv zeta.
  rewrite (Create_user_ready Quote _ _ _ _ Hvalid t2 Hready). cbv zeta.
  rewrite Hfound.
  set (createq := psql Quote "postgres" (create_database_query dbName opt) opt).
  destruct (run Quote createq opt env (snd (Exists Quote dbName opt env t2)))
    as [r t4]. cbn [fst snd]. split.
  - intros s e ->. reflexivity.
  - intros out ->.
    set (grantq := psql Quote dbName _ opt).
    destruct (run Quote grantq opt env _) as [[out3 [e|]] t5]; cbn [fst snd].
    + split; [reflexivity|]. exists []. split; [now rewrite app_nil_r|]. intros ev [].
    + split; [reflexivity|]. eexists. split; [reflexivity|].
      unfold debug_log. destruct (Debug opt); intros ev Hev.
      * destruct Hev as [<-|[]]. eexists. reflexivity.
      * destruct Hev.
Qed.

Lemma Create_missing_database_witness :
  Create strconv.QuoteASCII "app" Sample.opts Sample.env_no_database [] =
  (Some (errorString "raw error: ERROR:  permission denied to create database"),
   [EvExec None (psql strconv.QuoteASCII "postgres" (user_query Sample.opts) Sample.opts);
    EvExec None (psql strconv.QuoteASCII "postgres" (exists_query "app") Sample.opts);
    EvExec None (psql strconv.QuoteASCII "postgres"
                      (create_database_query "app" Sample.opts) Sample.opts)]).
Proof.
  apply (proj1 (Create_missing_database strconv.QuoteASCII "app" Sample.opts
                  Sample.env_no_database []
                  [EvExec None (psql strconv.QuoteASCII "postgres"
                                     (user_query Sample.opts) Sample.opts)]
                  (wrapError "app: db does not exists" ErrDBNotExist)
                  eq_refl
                  (ex_intro _ "t" (ex_intro _ _ (conj eq_refl (or_introl (conj eq_refl eq_refl)))))
                  eq_refl) EmptyString).
  reflexivity.
Defined.

(* ===================================================================== *)
(** ** The directory that Import mounts                                   *)
(* ===================================================================== *)

Lemma import_dir_eq (sqlFile : string) :
  import_dir sqlFile =
  fst (filepath.Split (strings.TrimPrefix (strings.TrimPrefix sqlFile ".") "/")).
Proof. unfold import_dir. now destruct (filepath.Split _). Qed.

Lemma TrimPrefix_absent (s prefix : string) :
  strings.HasPrefix s prefix = false -> strings.TrimPrefix s prefix = s.
Proof. intros H. unfold strings.TrimPrefix. now rewrite H. Qed.

Lemma Split_cons (c : ascii) (rest : string) :
  filepath.Split (String c rest) =
  match fst (filepath.Split rest) with
  | String _ _ => (String c (fst (filepath.Split rest)), snd (filepath.Split rest))
  | EmptyString =>
      if Ascii.eqb c "/"%char
      then (String c EmptyString, snd (filepath.Split rest))
      else (EmptyString, String c (snd (filepath.Split rest)))
  end.
Proof. cbn [filepath.Split]. now destruct (filepath.Split rest) as [[|d ds] f]. Qed.

(** [filepath.Split] cuts after the last slash. *)
Lemma Split_spec (path : string) :
  fst (filepath.Split path) ++ snd (filepath.Split path) = path /\
  has_byte "/"%char (snd (filepath.Split path)) = false /\
  (fst (filepath.Split path) = EmptyString \/
   exists d, fst (filepath.Split path) = d ++ "/").
Proof.
  induction path as [|c rest (Hjoin & Hfile & Hdir)].
  - repeat split. now left.
  - rewrite Split_cons.
    destruct (fst (filepath.Split rest)) as [|d ds] eqn:Hd.
    + destruct (Ascii.eqb c "/"%char) eqn:Hc; cbn [fst snd].
      * apply Ascii.eqb_eq in Hc. subst c. split; [|split].
        -- simpl in Hjoin |- *. now rewrite Hjoin.
        -- exact Hfile.
        -- right. exists EmptyString. reflexivity.
      * split; [|split].
        -- simpl in Hjoin |- *. now rewrite Hjoin.
        -- simpl. now rewrite Hc, Hfile.
        -- now left.
    + cbn [fst snd]. split; [|split].
      * simpl in Hjoin |- *. now rewrite Hjoin.
      * exact Hfile.
      * right. destruct Hdir as [Hdir|[d' Hd']]; [discriminate|].
        exists (String c d'). simpl. now rewrite Hd'.
Qed.

Lemma Split_no_slash (path : string) :
  has_byte "/"%char path = false -> fst (filepath.Split path) = EmptyString.
Proof.
  induction path as [|c rest IH]; [reflexivity|].
  intros H. simpl in H. apply orb_false_iff in H as [Hc H].
  rewrite Split_cons, (IH H), Hc. reflexivity.
Qed.

(** X13: the three ways of writing the file that the comment of [Import]
    lists name the same directory: for every path, "./path" and "/path"
    give the directory of "path", and so does "path" itself when it
    starts with neither a dot nor a slash.  Only one dot and one slash
    are removed. *)
Theorem import_dir_forms (path : string) :
  import_dir ("./" ++ path) = fst (filepath.Split path) /\
  import_dir ("/" ++ path) = fst (filepath.Split path) /\
  (strings.HasPrefix path "." = false -> strings.HasPrefix path "/" = false ->
   import_dir path = fst (filepath.Split path)) /\
  import_dir ("//" ++ path) = fst (filepath.Split ("/" ++ path)).
Proof.
  rewrite !import_dir_eq. split; [reflexivity|]. split; [reflexivity|].
  split; [|reflexivity].
  intros Hdot Hslash. now rewrite (TrimPrefix_absent _ _ Hdot), (TrimPrefix_absent _ _ Hslash).
Qed.

Lemma import_dir_forms_witness :
  import_dir "data/schema/schema.sql" = "data/schema/" /\
  import_dir "/data/schema/schema.sql" = "data/schema/" /\
  import_dir "./data/schema/schema.sql" = "data/schema/".
Proof.
  destruct (import_dir_forms "data/schema/schema.sql") as (H1 & H2 & H3 & _).
  split; [|split].
  - rewrite (H3 eq_refl eq_refl). reflexivity.
  - exact H2.
  - exact H1.
Defined.

(** X14: the directory that [Import] mounts is a prefix of the file name
    after the trimming, it is empty or ends in a slash, and what follows
    it in the file name holds no slash.  For a file name without a
    directory it is empty: the mount is then "<absolute path>:/", which
    binds the resolved directory at the root of the container. *)
Theorem import_dir_shape (sqlFile : string) :
  let file := strings.TrimPrefix (strings.TrimPrefix sqlFile ".") "/" in
  (exists name, file = import_dir sqlFile ++ name /\ has_byte "/"%char name = false) /\
  (import_dir sqlFile = EmptyString \/ exists d, import_dir sqlFile = d ++ "/") /\
  (has_byte "/"%char file = false ->
   import_dir sqlFile = EmptyString /\
   forall (Quote : string -> string) (cmd absDir : string) (opt : Options),
     docker_run Quote cmd (set_dockerVolume (absDir ++ ":/" ++ import_dir sqlFile) opt) =
     "docker run --rm " ++
     (if negb (is_empty (DockerNetwork opt))
      then "--network=" ++ DockerNetwork opt else EmptyString) ++
     " " ++ ("--volume " ++ absDir ++ ":/") ++ " " ++
     DockerImage opt ++ " sh -c " ++ Quote cmd).
Proof.
  cbv zeta. rewrite import_dir_eq.
  set (file := strings.TrimPrefix (strings.TrimPrefix sqlFile ".") "/").
  destruct (Split_spec file) as (Hjoin & Hname & Hdir).
  split; [|split].
  - exists (snd (filepath.Split file)). split; [now rewrite Hjoin | exact Hname].
  - exact Hdir.
  - intros Hbare. rewrite (Split_no_slash file Hbare). split; [reflexivity|].
    intros Quote cmd absDir opt.
    apply (docker_run_mount Quote cmd absDir EmptyString opt).
Qed.

Lemma import_dir_shape_witness :
  import_dir "schema.sql" = EmptyString /\
  docker_run strconv.QuoteASCII "psql" (set_dockerVolume ("/srv" ++ ":/" ++ import_dir "schema.sql") Sample.opts) =
  "docker run --rm  --volume /srv:/ postgres:11.8-alpine sh -c " ++
  strconv.QuoteASCII "psql".
Proof.
  destruct (proj2 (proj2 (import_dir_shape "schema.sql")) eq_refl) as [Hdir Hrun].
  split; [exact Hdir|].
  rewrite (Hrun strconv.QuoteASCII "psql" "/srv" Sample.opts). reflexivity.
Defined.

(* ===================================================================== *)
(** ** The debug flag                                                     *)
(* ===================================================================== *)

Lemma quiet_app (t1 t2 : Trace) : quiet (t1 ++ t2)%list = (quiet t1 ++ quiet t2)%list.
Proof. apply filter_app. Qed.

Lemma same_but_logs_ret {A : Type} (a : A) : same_but_logs (ret a) (ret a).
Proof. intros env t1 t2 _ Ht. split; [reflexivity | exact Ht]. Qed.

Lemma same_but_logs_bind {A B : Type} (c1 c2 : M A) (k1 k2 : A -> M B) :
  same_but_logs c1 c2 ->
  (forall a, same_but_logs (k1 a) (k2 a)) ->
  same_but_logs (bind c1 k1) (bind c2 k2).
Proof.
  intros Hc Hk env t1 t2 Henv Ht. unfold bind.
  destruct (Hc env t1 t2 Henv Ht) as [Hfst Hsnd].
  destruct (c1 env t1) as [a1 t1'], (c2 env t2) as [a2 t2'].
  cbn [fst snd] in Hfst, Hsnd. subst a2.
  exact (Hk a1 env t1' t2' Henv Hsnd).
Qed.

Lemma same_but_logs_Exec (cmd : string) :
  same_but_logs (script_Exec cmd) (script_Exec cmd).
Proof.
  intros env t1 t2 Henv Ht. unfold script_Exec. cbn [fst snd]. split.
  - destruct (Henv t1) as (_ & H1 & _), (Henv t2) as (_ & H2 & _).
    now rewrite H1, H2, Ht.
  - now rewrite !quiet_app, Ht.
Qed.

Lemma same_but_logs_Pipe_Exec (p : Pipe) (cmd : string) :
  same_but_logs (Pipe_Exec p cmd) (Pipe_Exec p cmd).
Proof.
  unfold Pipe_Exec. destruct (Error_ p); [apply same_but_logs_ret|].
  intros env t1 t2 Henv Ht. cbn [fst snd]. split.
  - destruct (Henv t1) as (_ & H1 & _), (Henv t2) as (_ & H2 & _).
    now rewrite H1, H2, Ht.
  - now rewrite !quiet_app, Ht.
Qed.

Lemma same_but_logs_inDocker : same_but_logs inDocker inDocker.
Proof.
  intros env t1 t2 Henv Ht. unfold inDocker, os_Stat_dockerenv. cbn [fst snd].
  split; [|exact Ht].
  destruct (Henv t1) as (H1 & _), (Henv t2) as (H2 & _). now rewrite H1, H2, Ht.
Qed.

Lemma same_but_logs_Abs (path : string) :
  same_but_logs (filepath_Abs path) (filepath_Abs path).
Proof. intros env t1 t2 _ Ht. unfold filepath_Abs. split; [reflexivity | exact Ht]. Qed.

Lemma same_but_logs_OpenFile (name : string) :
  same_but_logs (os_OpenFile name) (os_OpenFile name).
Proof.
  intros env t1 t2 Henv Ht. unfold os_OpenFile. cbn [fst snd]. split.
  - destruct (Henv t1) as (_ & _ & H1 & _), (Henv t2) as (_ & _ & H2 & _).
    now rewrite H1, H2, Ht.
  - now rewrite !quiet_app, Ht.
Qed.

Lemma same_but_logs_WriteString (name data : string) :
  same_but_logs (File_WriteString name data) (File_WriteString name data).
Proof.
  intros env t1 t2 Henv Ht. unfold File_WriteString. cbn [fst snd]. split.
  - destruct (Henv t1) as (_ & _ & _ & H1), (Henv t2) as (_ & _ & _ & H2).
    now rewrite H1, H2, Ht.
  - now rewrite !quiet_app, Ht.
Qed.

(** A log line that is written on one side only, or on both, or on none. *)
Lemma same_but_logs_log (b1 b2 : bool) (m1 m2 : string) :
  same_but_logs (if b1 then log_Printf m1 else ret tt)
                (if b2 then log_Printf m2 else ret tt).
Proof.
  intros env t1 t2 _ Ht.
  destruct b1, b2; unfold log_Printf, ret; cbn [fst snd];
    rewrite ?quiet_app, ?app_nil_r; cbn [quiet filter is_log negb];
    rewrite ?app_nil_r; split; auto.
Qed.

(** One step of a proof that two computations differ in log lines only. *)
Ltac logs_step :=
  first
    [ apply same_but_logs_ret
    | apply same_but_logs_log
    | apply same_but_logs_Exec
    | apply same_but_logs_Pipe_Exec
    | apply same_but_logs_inDocker
    | apply same_but_logs_Abs
    | apply same_but_logs_OpenFile
    | apply same_but_logs_WriteString
    | apply same_but_logs_bind; [|intros ?] ].

Ltac logs_case :=
  match goal with
  | |- same_but_logs (if ?b then _ else _) (if ?b then _ else _) => destruct b
  | |- same_but_logs (match ?x with Some _ => _ | None => _ end)
                     (match ?x with Some _ => _ | None => _ end) => destruct x
  | |- same_but_logs (match ?x with (_, _) => _ end)
                     (match ?x with (_, _) => _ end) => destruct x
  | |- same_but_logs (match ?x with (_, _) => _ end) _ => destruct x
  end.

Ltac logs_auto := repeat first [logs_step | logs_case].

Section DebugFacts.

Variable Quote : string -> string.
Variable b : bool.

Lemma psql_set_Debug (dbName query : string) (o : Options) :
  psql Quote dbName query (set_Debug b o) = psql Quote dbName query o.
Proof. unfold psql, defaultPort. simpl. destruct (DBPort o =? 0)%Z; reflexivity. Qed.

Lemma psqlFile_set_Debug (dbName file : string) (o : Options) :
  psqlFile dbName file (set_Debug b o) = psqlFile dbName file o.
Proof. unfold psqlFile, defaultPort. simpl. destruct (DBPort o =? 0)%Z; reflexivity. Qed.

Lemma run_set_Debug (cmd : string) (o : Options) :
  same_but_logs (run Quote cmd (set_Debug b o)) (run Quote cmd o).
Proof.
  unfold run, dockerPull.
  change (docker_run Quote cmd (set_Debug b o)) with (docker_run Quote cmd o).
  cbn [set_Debug DockerImage Debug].
  logs_auto.
Qed.

Lemma Exists_set_Debug (dbName : string) (o : Options) :
  same_but_logs (Exists Quote dbName (set_Debug b o)) (Exists Quote dbName o).
Proof.
  unfold Exists.
  change (isValid (set_Debug b o) dbName) with (isValid o dbName).
  rewrite psql_set_Debug. cbn [set_Debug Debug].
  destruct (isValid o dbName); [apply same_but_logs_ret|].
  apply same_but_logs_bind; [apply run_set_Debug|]. intros [out [e|]]; [logs_auto|].
  destruct (strconv.ParseBool out) as [[|] [e|]]; logs_auto.
Qed.

Lemma Create_user_set_Debug (o : Options) :
  same_but_logs (Create_user Quote (set_Debug b o)) (Create_user Quote o).
Proof.
  unfold Create_user. rewrite psql_set_Debug. cbn [set_Debug Debug DBUser DBPassword].
  apply same_but_logs_bind; [apply run_set_Debug|]. intros [out [e|]]; logs_auto.
Qed.

Lemma Create_set_Debug (dbName : string) (o : Options) :
  same_but_logs (Create Quote dbName (set_Debug b o)) (Create Quote dbName o).
Proof.
  unfold Create.
  change (isValid (set_Debug b o) dbName) with (isValid o dbName).
  rewrite !psql_set_Debug. cbn [set_Debug Debug DBUser].
  destruct (isValid o dbName); [apply same_but_logs_ret|].
  apply same_but_logs_bind; [apply run_set_Debug|]. intros [out [e|]]; [logs_auto|].
  destruct (strconv.ParseBool out) as [ex [e|]]; [logs_auto|].
  apply same_but_logs_bind.
  { destruct (negb ex); [apply Create_user_set_Debug | apply same_but_logs_ret]. }
  intros [e|]; [logs_auto|].
  apply same_but_logs_bind; [apply Exists_set_Debug|]. intros [e0|]; [|logs_auto].
  apply same_but_logs_bind; [apply run_set_Debug|]. intros [out2 [e|]]; [logs_auto|].
  apply same_but_logs_bind; [apply same_but_logs_log|]. intros _.
  apply same_but_logs_bind; [apply run_set_Debug|]. intros [out3 [e|]]; logs_auto.
Qed.

Lemma Terminate_set_Debug (dbName : string) (o : Options) :
  same_but_logs (Terminate Quote dbName (set_Debug b o)) (Terminate Quote dbName o).
Proof.
  unfold Terminate.
  change (isValid (set_Debug b o) dbName) with (isValid o dbName).
  rewrite psql_set_Debug. cbn [set_Debug Debug].
  destruct (isValid o dbName); [apply same_but_logs_ret|].
  apply same_but_logs_bind; [apply run_set_Debug|]. intros [out [e|]]; logs_auto.
Qed.

Lemma Drop_set_Debug (dbName : string) (o : Options) :
  same_but_logs (Drop Quote dbName (set_Debug b o)) (Drop Quote dbName o).
Proof.
  unfold Drop. rewrite psql_set_Debug. cbn [set_Debug Debug].
  apply same_but_logs_bind; [apply Terminate_set_Debug|]. intros [e|]; [logs_auto|].
  apply same_but_logs_bind; [apply run_set_Debug|]. intros [out [e|]]; logs_auto.
Qed.

Lemma Import_set_Debug (dbName sqlFile : string) (o : Options) :
  same_but_logs (Import Quote dbName sqlFile (set_Debug b o))
                (Import Quote dbName sqlFile o).
Proof.
  unfold Import. destruct (is_empty sqlFile); [apply same_but_logs_ret|].
  apply same_but_logs_bind; [apply Drop_set_Debug|]. intros [e|]; [logs_auto|].
  apply same_but_logs_bind; [apply Create_set_Debug|]. intros [e|]; [logs_auto|].
  apply same_but_logs_bind; [apply same_but_logs_Abs|]. intros [absDir [e|]]; [logs_auto|].
  change (set_dockerVolume (absDir ++ ":/" ++ import_dir sqlFile) (set_Debug b o))
    with (set_Debug b (set_dockerVolume (absDir ++ ":/" ++ import_dir sqlFile) o)).
  rewrite psqlFile_set_Debug.
  apply same_but_logs_bind; [apply run_set_Debug|]. intros [out [e|]]; [logs_auto|].
  cbn [set_Debug set_dockerVolume Debug]. logs_auto.
Qed.

Lemma SchemaDump_set_Debug (dbName outputFile : string) (o : Options) :
  same_but_logs (SchemaDump Quote dbName outputFile (set_Debug b o))
                (SchemaDump Quote dbName outputFile o).
Proof.
  unfold SchemaDump.
  change (isValid (set_Debug b o) dbName) with (isValid o dbName).
  destruct (isValid o dbName); [apply same_but_logs_ret|].
  assert (Hport : defaultPort (set_Debug b o) = set_Debug b (defaultPort o)).
  { unfold defaultPort. simpl. destruct (DBPort o =? 0)%Z; reflexivity. }
  rewrite Hport.
  change (pg_dump dbName (set_Debug b (defaultPort o)))
    with (pg_dump dbName (defaultPort o)).
  apply same_but_logs_bind; [apply run_set_Debug|]. intros [out [e|]]; [logs_auto|].
  apply same_but_logs_bind; [apply same_but_logs_Pipe_Exec|]. intros p.
  destruct (0 <? ExitStatus p)%N; [logs_auto|].
  destruct (String_ p) as [dump [e|]]; [logs_auto|].
  destruct (negb (is_empty outputFile)); [|logs_auto].
  apply same_but_logs_bind; [apply same_but_logs_OpenFile|]. intros [e|]; [logs_auto|].
  apply same_but_logs_bind; [apply same_but_logs_WriteString|]. intros [e|]; logs_auto.
Qed.

End DebugFacts.

(** X15: the debug flag changes nothing but the log.  In a world whose
    answers do not depend on log lines, each of the six operations
    returns the same result with the flag set to any value as with the
    options as given, and the two traces are the same once the log lines
    are taken out: the same processes with the same command lines and
    the same file operations, in the same order. *)
Theorem Debug_only_logs
    (Quote : string -> string) (b : bool) (dbName file : string) (opt : Options)
    (env : Env) (t : Trace) :
  log_blind env ->
  same_outcome (Create Quote dbName (set_Debug b opt) env t)
               (Create Quote dbName opt env t) /\
  same_outcome (Exists Quote dbName (set_Debug b opt) env t)
               (Exists Quote dbName opt env t) /\
  same_outcome (Terminate Quote dbName (set_Debug b opt) env t)
               (Terminate Quote dbName opt env t) /\
  same_outcome (Drop Quote dbName (set_Debug b opt) env t)
               (Drop Quote dbName opt env t) /\
  same_outcome (Import Quote dbName file (set_Debug b opt) env t)
               (Import Quote dbName file opt env t) /\
  same_outcome (SchemaDump Quote dbName file (set_Debug b opt) env t)
               (SchemaDump Quote dbName file opt env t).
Proof.
  intros Henv. unfold same_outcome.
  split; [|split; [|split; [|split; [|split]]]].
  - exact (Create_set_Debug Quote b dbName opt env t t Henv eq_refl).
  - exact (Exists_set_Debug Quote b dbName opt env t t Henv eq_refl).
  - exact (Terminate_set_Debug Quote b dbName opt env t t Henv eq_refl).
  - exact (Drop_set_Debug Quote b dbName opt env t t Henv eq_refl).
  - exact (Import_set_Debug Quote b dbName file opt env t t Henv eq_refl).
  - exact (SchemaDump_set_Debug Quote b dbName file opt env t t Henv eq_refl).
Qed.

Lemma Debug_only_logs_witness :
  same_outcome
    (SchemaDump strconv.QuoteASCII "app" "dump.sql" (set_Debug true Sample.opts)
                Sample.env_no_cat [])
    (SchemaDump strconv.QuoteASCII "app" "dump.sql" Sample.opts Sample.env_no_cat []).
Proof.
  apply (Debug_only_logs strconv.QuoteASCII true "app" "dump.sql" Sample.opts
           Sample.env_no_cat []).
  intros t. repeat split.
Defined.

(* ===================================================================== *)
(** ** Inside a container                                                 *)
(* ===================================================================== *)

Lemma same_inside_refl {A : Type} (c : M A) : same_inside c c.
Proof. intros env t _. reflexivity. Qed.

Lemma same_inside_bind {A B : Type} (c1 c2 : M A) (k1 k2 : A -> M B) :
  same_inside c1 c2 ->
  (forall a, same_inside (k1 a) (k2 a)) ->
  same_inside (bind c1 k1) (bind c2 k2).
Proof.
  intros Hc Hk env t Henv. unfold bind. rewrite (Hc env t Henv).
  destruct (c2 env t) as [a t']. exact (Hk a env t' Henv).
Qed.

Section InsideFacts.

Variable Quote : string -> string.
Variables image network volume : string.

Lemma psql_relocate (dbName query : string) (o : Options) :
  psql Quote dbName query (relocate image network volume o) = psql Quote dbName query o.
Proof. unfold psql, defaultPort. simpl. destruct (DBPort o =? 0)%Z; reflexivity. Qed.

Lemma psqlFile_relocate (dbName file : string) (o : Options) :
  psqlFile dbName file (relocate image network volume o) = psqlFile dbName file o.
Proof. unfold psqlFile, defaultPort. simpl. destruct (DBPort o =? 0)%Z; reflexivity. Qed.

Lemma isValid_relocate (dbName : string) (o : Options) :
  is_empty image = is_empty (DockerImage o) ->
  isValid (relocate image network volume o) dbName = isValid o dbName.
Proof. intros H. unfold isValid. cbn [relocate DBHost DBUser DBPassword DockerImage].
       now rewrite H. Qed.

Lemma run_relocate (cmd : string) (o : Options) :
  same_inside (run Quote cmd (relocate image network volume o)) (run Quote cmd o).
Proof.
  intros env t Henv. now rewrite !(run_inside Quote cmd _ env t (Henv t)).
Qed.

Ltac inside_auto :=
  repeat first
    [ apply run_relocate
    | apply same_inside_refl
    | apply same_inside_bind; [|intros ?]
    | match goal with
      | |- same_inside (match ?x with Some _ => _ | None => _ end) _ => destruct x
      | |- same_inside (match ?x with (_, _) => _ end) _ => destruct x
      | |- same_inside (if ?c then _ else _) _ => destruct c
      end ].

Lemma Exists_relocate (dbName : string) (o : Options) :
  is_empty image = is_empty (DockerImage o) ->
  same_inside (Exists Quote dbName (relocate image network volume o))
              (Exists Quote dbName o).
Proof.
  intros Himage.
  unfold Exists. rewrite (isValid_relocate dbName o Himage), psql_relocate.
  cbn [relocate Debug]. inside_auto.
Qed.

Lemma Create_relocate (dbName : string) (o : Options) :
  is_empty image = is_empty (DockerImage o) ->
  same_inside (Create Quote dbName (relocate image network volume o))
              (Create Quote dbName o).
Proof.
  intros Himage.
  unfold Create, Create_user.
  rewrite (isValid_relocate dbName o Himage), !psql_relocate.
  cbn [relocate Debug DBUser DBPassword].
  destruct (isValid o dbName); [apply same_inside_refl|].
  apply same_inside_bind; [apply run_relocate|]. intros [out [e|]];
    [apply same_inside_refl|].
  destruct (strconv.ParseBool out) as [ex [e|]]; [apply same_inside_refl|].
  apply same_inside_bind.
  { destruct (negb ex); inside_auto. }
  intros [e|]; [apply same_inside_refl|].
  apply same_inside_bind; [apply (Exists_relocate dbName o Himage)|].
  intros [e0|]; inside_auto.
Qed.

Lemma Terminate_relocate (dbName : string) (o : Options) :
  is_empty image = is_empty (DockerImage o) ->
  same_inside (Terminate Quote dbName (relocate image network volume o))
              (Terminate Quote dbName o).
Proof.
  intros Himage.
  unfold Terminate. rewrite (isValid_relocate dbName o Himage), psql_relocate.
  cbn [relocate Debug]. inside_auto.
Qed.

Lemma Drop_relocate (dbName : string) (o : Options) :
  is_empty image = is_empty (DockerImage o) ->
  same_inside (Drop Quote dbName (relocate image network volume o))
              (Drop Quote dbName o).
Proof.
  intros Himage.
  unfold Drop. rewrite psql_relocate. cbn [relocate Debug].
  apply same_inside_bind; [apply (Terminate_relocate dbName o Himage)|].
  intros [e|]; inside_auto.
Qed.

Lemma Import_relocate (dbName sqlFile : string) (o : Options) :
  is_empty image = is_empty (DockerImage o) ->
  same_inside (Import Quote dbName sqlFile (relocate image network volume o))
              (Import Quote dbName sqlFile o).
Proof.
  intros Himage.
  unfold Import. destruct (is_empty sqlFile); [apply same_inside_refl|].
  apply same_inside_bind; [apply (Drop_relocate dbName o Himage)|].
  intros [e|]; [apply same_inside_refl|].
  apply same_inside_bind; [apply (Create_relocate dbName o Himage)|].
  intros [e|]; [apply same_inside_refl|].
  apply same_inside_bind; [apply same_inside_refl|].
  intros [absDir [e|]]; [apply same_inside_refl|].
  set (mount := absDir ++ ":/" ++ import_dir sqlFile).
  change (set_dockerVolume mount (relocate image network volume o))
    with (relocate image network mount (set_dockerVolume mount o)).
  intros env t Henv. unfold bind.
  rewrite !(run_inside Quote _ _ env t (Henv t)).
  unfold psqlFile, defaultPort. simpl.
  destruct (DBPort o =? 0)%Z; reflexivity.
Qed.

Lemma SchemaDump_relocate (dbName outputFile : string) (o : Options) :
  is_empty image = is_empty (DockerImage o) ->
  same_inside (SchemaDump Quote dbName outputFile (relocate image network volume o))
              (SchemaDump Quote dbName outputFile o).
Proof.
  intros Himage.
  unfold SchemaDump. rewrite (isValid_relocate dbName o Himage).
  destruct (isValid o dbName); [apply same_inside_refl|].
  assert (Hport : defaultPort (relocate image network volume o) =
                  relocate image network volume (defaultPort o)).
  { unfold defaultPort. simpl. destruct (DBPort o =? 0)%Z; reflexivity. }
  rewrite Hport.
  change (pg_dump dbName (relocate image network volume (defaultPort o)))
    with (pg_dump dbName (defaultPort o)).
  apply same_inside_bind; [apply run_relocate|]. intros r. apply same_inside_refl.
Qed.

End InsideFacts.

(** X16: inside a container the image, the network and the mount of the
    options are never used.  When the environment reports the inside of
    a container throughout, each of the six operations does the same and
    returns the same with any other network and mount, and with any
    other image that is empty or not as the one given is (validation
    asks for an image even there). *)
Theorem docker_options_unused_inside
    (Quote : string -> string) (image network volume dbName file : string)
    (opt : Options) (env : Env) (t : Trace) :
  always_inside env ->
  is_empty image = is_empty (DockerImage opt) ->
  Create Quote dbName (relocate image network volume opt) env t =
  Create Quote dbName opt env t /\
  Exists Quote dbName (relocate image network volume opt) env t =
  Exists Quote dbName opt env t /\
  Terminate Quote dbName (relocate image network volume opt) env t =
  Terminate Quote dbName opt env t /\
  Drop Quote dbName (relocate image network volume opt) env t =
  Drop Quote dbName opt env t /\
  Import Quote dbName file (relocate image network volume opt) env t =
  Import Quote dbName file opt env t /\
  SchemaDump Quote dbName file (relocate image network volume opt) env t =
  SchemaDump Quote dbName file opt env t.
Proof.
  intros Henv Himage.
  split; [|split; [|split; [|split; [|split]]]].
  - exact (Create_relocate Quote image network volume dbName opt Himage env t Henv).
  - exact (Exists_relocate Quote image network volume dbName opt Himage env t Henv).
  - exact (Terminate_relocate Quote image network volume dbName opt Himage env t Henv).
  - exact (Drop_relocate Quote image network volume dbName opt Himage env t Henv).
  - exact (Import_relocate Quote image network volume dbName file opt Himage env t Henv).
  - exact (SchemaDump_relocate Quote image network volume dbName file opt Himage env t Henv).
Qed.

Lemma docker_options_unused_inside_witness :
  Terminate strconv.QuoteASCII "app"
            (relocate "registry.local/pg:12" "backend" "/srv:/data" Sample.opts)
            Sample.env_disk_full [] =
  Terminate strconv.QuoteASCII "app" Sample.opts Sample.env_disk_full [].
Proof.
  apply (docker_options_unused_inside strconv.QuoteASCII "registry.local/pg:12"
           "backend" "/srv:/data" "app" "dump.sql" Sample.opts Sample.env_disk_full []).
  - intros t. reflexivity.
  - reflexivity.
Defined.

(* ===================================================================== *)
(** ** The dump pipeline, applied twice                                   *)
(* ===================================================================== *)

Lemma has_byte_app (c : ascii) (a b : string) :
  has_byte c (a ++ b) = has_byte c a || has_byte c b.
Proof.
  induction a as [|x a IH]; [reflexivity|].
  simpl. now rewrite IH, orb_assoc.
Qed.

Lemma write_lines_cons (l : string) (ls : list string) :
  script.write_lines (l :: ls) = l ++ newline ++ script.write_lines ls.
Proof. reflexivity. Qed.

Lemma write_lines_no_cr (ls : list string) :
  Forall (fun l => has_byte carriage_return l = false) ls ->
  has_byte carriage_return (script.write_lines ls) = false.
Proof.
  induction 1 as [|l ls Hl _ IH]; [reflexivity|].
  rewrite write_lines_cons, !has_byte_app, Hl, IH. reflexivity.
Qed.

Lemma filter_all {A : Type} (k : A -> bool) (xs : list A) :
  Forall (fun x => k x = true) xs -> filter k xs = xs.
Proof.
  induction 1 as [|x xs Hx _ IH]; [reflexivity|].
  simpl. now rewrite Hx, IH.
Qed.

(** [cat -s] leaves alone what holds no blank run. *)
Lemma squeeze_fixed (ls : list string) :
  no_blank_run ls ->
  script.squeeze false ls = ls /\
  ((forall l rest, ls = l :: rest -> l <> EmptyString) -> script.squeeze true ls = ls).
Proof.
  induction ls as [|l rest IH]; [split; reflexivity|].
  intros [Hhead Hrest]. destruct (IH Hrest) as [IHf IHt].
  cbn [script.squeeze]. destruct (String.eqb l EmptyString) eqn:Hl.
  - apply String.eqb_eq in Hl. subst l. split.
    + f_equal. apply IHt. intros l' rest' ->. intros ->. now apply Hhead.
    + intros Hnb. now elim (Hnb EmptyString rest eq_refl).
  - split; [now rewrite IHf | intros _; now rewrite IHf].
Qed.

(** The lines that the filters let through, on an output without
    carriage returns: the lines that the scanner delivers and no rule
    excludes, as they are. *)
Lemma kept_lines_scanned (out : string) :
  has_byte carriage_return out = false ->
  map (dropCRs 6) (filter (fun l => negb (rejected l)) (script.ScanLines out)) =
  filter (fun l => negb (rejected l)) (script.scan_tokens (script.split_lines out)).
Proof.
  intros H.
  pose proof (scan_tokens_Forall _ _ (split_lines_no_cr out H)) as Hls.
  unfold script.ScanLines.
  rewrite (map_id_on _ script.dropCR _ dropCR_no_cr Hls).
  apply (map_id_on (fun l => has_byte carriage_return l = false)).
  - intros x. apply dropCRs_no_cr.
  - apply Forall_filter, Hls.
Qed.

Lemma dump_filters_scanned (out : string) :
  has_byte carriage_return out = false ->
  dump_filters out =
  Echo (script.write_lines
          (filter (fun l => negb (rejected l))
                  (script.scan_tokens (script.split_lines out)))).
Proof. intros Hcr. now rewrite dump_filters_lines, (kept_lines_scanned out Hcr). Qed.

(** The pipeline on an output without carriage returns, by lines. *)
Lemma dump_pipeline_lines (out : string) :
  has_byte carriage_return out = false ->
  dump_pipeline out =
  script.write_lines
    (script.squeeze false
       (filter (fun l => negb (rejected l))
               (script.scan_tokens (script.split_lines out)))).
Proof.
  intros Hcr. unfold dump_pipeline.
  rewrite (dump_filters_scanned out Hcr). cbn [Reader Echo].
  apply cat_s_lines, Forall_filter, scan_tokens_Forall, split_lines_lf_free.
Qed.

Lemma Forall_squeeze (P : string -> Prop) (b : bool) (ls : list string) :
  Forall P ls -> Forall P (script.squeeze b ls).
Proof.
  intros H. apply Forall_forall. intros l Hl.
  rewrite Forall_forall in H. apply H. exact (squeeze_incl b ls l Hl).
Qed.

(** Lines that were delivered and kept are delivered and kept again. *)
Lemma rescan_kept (ls : list string) :
  Forall lf_free ls -> Forall short ls ->
  Forall (fun l => has_byte carriage_return l = false) ls ->
  Forall (fun l => negb (rejected l) = true) ls ->
  has_byte carriage_return (script.write_lines ls) = false /\
  filter (fun l => negb (rejected l))
         (script.scan_tokens (script.split_lines (script.write_lines ls))) = ls.
Proof.
  intros Hlf Hshort Hnocr Hkeep. split; [apply write_lines_no_cr, Hnocr|].
  now rewrite (split_write_lines _ Hlf), (scan_tokens_all _ Hshort), (filter_all _ _ Hkeep).
Qed.

(** X17: on an output without carriage returns the dump pipeline is
    idempotent.  The seven filters applied to what they have written
    give it again, and so do the filters followed by [cat -s] (a [cat]
    that copies its input but for the repeated empty lines): a dump that
    has been cleaned stays as it is when it is cleaned once more.  This
    holds with lines that are too long for the scanner as well, since
    what was written holds none. *)
Theorem dump_pipeline_idempotent (out : string) :
  has_byte carriage_return out = false ->
  dump_filters (Reader (dump_filters out)) = dump_filters out /\
  dump_pipeline (dump_pipeline out) = dump_pipeline out.
Proof.
  intros Hcr.
  set (kept := filter (fun l => negb (rejected l))
                      (script.scan_tokens (script.split_lines out))).
  assert (Hlf : Forall lf_free kept).
  { apply Forall_filter, scan_tokens_Forall, split_lines_lf_free. }
  assert (Hshort : Forall short kept).
  { apply Forall_filter, scan_tokens_short. }
  assert (Hnocr : Forall (fun l => has_byte carriage_return l = false) kept).
  { apply Forall_filter, scan_tokens_Forall, split_lines_no_cr, Hcr. }
  assert (Hkeep : Forall (fun l => negb (rejected l) = true) kept).
  { apply Forall_forall. intros l Hl. apply filter_In in Hl. apply Hl. }
  split.
  - rewrite (dump_filters_scanned out Hcr). fold kept. cbn [Reader Echo].
    destruct (rescan_kept kept Hlf Hshort Hnocr Hkeep) as [Hcr' Hsame].
    now rewrite (dump_filters_scanned _ Hcr'), Hsame.
  - rewrite (dump_pipeline_lines out Hcr). fold kept.
    destruct (rescan_kept (script.squeeze false kept)
                (Forall_squeeze _ _ _ Hlf) (Forall_squeeze _ _ _ Hshort)
                (Forall_squeeze _ _ _ Hnocr) (Forall_squeeze _ _ _ Hkeep))
      as [Hcr' Hsame].
    rewrite (dump_pipeline_lines _ Hcr'), Hsame.
    f_equal. apply squeeze_fixed, squeeze_no_blank_run.
Qed.

Lemma dump_pipeline_idempotent_witness :
  dump_pipeline Sample.raw_dump =
  "CREATE TABLE t();" ++ String line_feed (String line_feed EmptyString) /\
  dump_pipeline (dump_pipeline Sample.raw_dump) =
  "CREATE TABLE t();" ++ String line_feed (String line_feed EmptyString).
Proof.
  split; [reflexivity|].
  rewrite (proj2 (dump_pipeline_idempotent Sample.raw_dump eq_refl)). reflexivity.
Defined.

(** X18: outside a container every [run] begins by pulling the image,
    whatever the command and however often the image was pulled before:
    the first thing [run] adds to the trace is the process
    "docker pull -q <image>". *)
Theorem run_outside_pulls_first
    (Quote : string -> string) (cmd : string) (o : Options) (env : Env) (t : Trace) :
  env_dockerenv env t = false ->
  exists rest : Trace,
    snd (run Quote cmd o env t) =
    (t ++ EvExec None ("docker pull -q " ++ DockerImage o) :: rest)%list.
Proof.
  intros Hd.
  destruct (N.eq_0_gt_0_cases
              (ExitStatus (env_exec env t None ("docker pull -q " ++ DockerImage o))))
    as [H0|Hpos].
  - rewrite (run_outside_pulled Quote cmd o env t Hd H0). cbn [snd].
    unfold after_pull. rewrite <- !app_assoc. eexists. reflexivity.
  - rewrite (run_outside_pull_failed Quote cmd o env t Hd Hpos). cbn [snd].
    eexists. reflexivity.
Qed.

Lemma run_outside_pulls_first_witness :
  exists rest : Trace,
    snd (run strconv.QuoteASCII "psql" Sample.opts Sample.env_fresh_host
             [EvExec None "docker pull -q postgres:11.8-alpine"]) =
    ([EvExec None "docker pull -q postgres:11.8-alpine"] ++
     EvExec None "docker pull -q postgres:11.8-alpine" :: rest)%list.
Proof.
  apply (run_outside_pulls_first strconv.QuoteASCII "psql" Sample.opts
           Sample.env_fresh_host [EvExec None "docker pull -q postgres:11.8-alpine"]).
  reflexivity.
Defined.

(* ===================================================================== *)
(** ** The output of run is trimmed                                       *)
(* ===================================================================== *)

Lemma append_assoc_s (a b c : string) : (a ++ b) ++ c = a ++ b ++ c.
Proof. induction a as [|x a IH]; [reflexivity|]. simpl. now rewrite IH. Qed.

Lemma append_nil_s (a : string) : a ++ EmptyString = a.
Proof. induction a as [|x a IH]; [reflexivity|]. simpl. now rewrite IH. Qed.

Lemma rev_onto_app (s acc : string) :
  strings.rev_onto s acc = strings.rev s ++ acc.
Proof.
  unfold strings.rev. revert acc.
  induction s as [|c s IH]; intros acc; [reflexivity|].
  cbn [strings.rev_onto].
  rewrite (IH (String c acc)), (IH (String c EmptyString)), append_assoc_s.
  reflexivity.
Qed.

Lemma rev_app (a b : string) :
  strings.rev (a ++ b) = strings.rev b ++ strings.rev a.
Proof.
  induction a as [|c a IH].
  - cbn [append]. now rewrite append_nil_s.
  - change (String c a ++ b) with (String c (a ++ b)).
    unfold strings.rev at 1 3. cbn [strings.rev_onto].
    rewrite !rev_onto_app, IH, append_assoc_s. reflexivity.
Qed.

Lemma rev_involutive_s (s : string) : strings.rev (strings.rev s) = s.
Proof.
  induction s as [|c s IH]; [reflexivity|].
  unfold strings.rev at 2. cbn [strings.rev_onto].
  rewrite rev_onto_app, rev_app, IH. reflexivity.
Qed.

Lemma drop_suffix (n : nat) (s : string) : exists p, s = p ++ strings.drop n s.
Proof.
  revert s. induction n as [|n IH]; intros s.
  - exists EmptyString. reflexivity.
  - destruct s as [|c s]; [exists EmptyString; reflexivity|].
    destruct (IH s) as [p Hp]. exists (String c p). cbn [strings.drop append].
    now rewrite <- Hp.
Qed.

Lemma drop_length (n : nat) (s : string) :
  String.length (strings.drop n s) <= String.length s.
Proof.
  revert s. induction n as [|n IH]; intros s; [apply le_n|].
  destruct s as [|c s]; [apply le_n|]. cbn [strings.drop String.length].
  apply le_S, IH.
Qed.

Section TrimFront.

Variable width : string -> nat.
Hypothesis width_empty : width EmptyString = 0.

(** What [trim_front] returns is an end of its argument. *)
Lemma trim_front_suffix (fuel : nat) (s : string) :
  exists p, s = p ++ strings.trim_front width fuel s.
Proof.
  revert s. induction fuel as [|f IH]; intros s.
  - exists EmptyString. reflexivity.
  - cbn [strings.trim_front]. destruct (width s) as [|w].
    + exists EmptyString. reflexivity.
    + destruct (drop_suffix (S w) s) as [p Hp].
      destruct (IH (strings.drop (S w) s)) as [p' Hp'].
      exists (p ++ p'). rewrite append_assoc_s, <- Hp'. exact Hp.
Qed.

(** With fuel for every byte, nothing to trim is left. *)
Lemma trim_front_done (fuel : nat) (s : string) :
  String.length s <= fuel -> width (strings.trim_front width fuel s) = 0.
Proof.
  revert s. induction fuel as [|f IH]; intros s Hlen.
  - destruct s; [exact width_empty | inversion Hlen].
  - cbn [strings.trim_front]. destruct (width s) as [|w] eqn:Hw; [exact Hw|].
    apply IH. destruct s as [|c s]; [now rewrite width_empty in Hw|].
    cbn [strings.drop]. cbn [String.length] in Hlen.
    pose proof (drop_length w s). lia.
Qed.

End TrimFront.

(** A white-space rune at the start of a text is there whatever follows. *)
Lemma space_width_prefix (p q : string) :
  strings.space_width p <> 0 -> strings.space_width (p ++ q) = strings.space_width p.
Proof.
  destruct p as [|a [|b [|c p']]]; unfold strings.space_width; cbn [append]; cbv zeta;
    intros H;
    repeat match goal with
           | |- context [if ?c then _ else _] => destruct c
           end;
    try reflexivity; now elim H.
Qed.

(** X19: what [run] returns without error has been trimmed on both ends:
    it does not start and does not end with a white-space rune, ASCII or
    Unicode. *)
Theorem run_output_is_trimmed
    (Quote : string -> string) (cmd : string) (o : Options) (env : Env) (t : Trace)
    (out : string) :
  fst (run Quote cmd o env t) = (out, None) ->
  strings.space_width out = 0 /\
  strings.space_width_rev (strings.rev out) = 0.
Proof.
  intros Hrun.
  assert (Hout : exists raw, out = strings.TrimSpace raw).
  { destruct (run_cases Quote cmd o env t) as [[p Hp]|[msg Hmsg]].
    - rewrite Hp in Hrun. apply pipe_result_ok in Hrun as (_ & _ & ->). eauto.
    - rewrite Hmsg in Hrun. discriminate. }
  destruct Hout as [raw ->]. unfold strings.TrimSpace. cbv zeta.
  set (l := strings.trim_front strings.space_width (String.length raw) raw).
  set (r := strings.trim_front strings.space_width_rev (String.length l) (strings.rev l)).
  assert (Hl : strings.space_width l = 0).
  { apply trim_front_done; [reflexivity | apply le_n]. }
  assert (Hr : strings.space_width_rev r = 0).
  { apply trim_front_done; [reflexivity|].
    unfold strings.rev. clear.
    assert (H : forall s acc, String.length (strings.rev_onto s acc) =
                              String.length s + String.length acc).
    { induction s as [|c s IH]; intros acc; [reflexivity|].
      cbn [strings.rev_onto String.length]. rewrite IH. cbn [String.length]. lia. }
    rewrite H. cbn [String.length]. lia. }
  split.
  - destruct (trim_front_suffix strings.space_width_rev (String.length l) (strings.rev l))
      as [p Hp]. fold r in Hp.
    assert (Hlr : l = strings.rev r ++ strings.rev p).
    { rewrite <- rev_app, <- Hp. symmetry. apply rev_involutive_s. }
    destruct (strings.space_width (strings.rev r)) eqn:Hw; [reflexivity|].
    rewrite Hlr, space_width_prefix in Hl by (rewrite Hw; discriminate).
    rewrite Hw in Hl. discriminate.
  - now rewrite rev_involutive_s.
Qed.

Lemma run_output_is_trimmed_witness :
  strings.space_width
    (fst (fst (run strconv.QuoteASCII "psql" Sample.opts Sample.env_no_docker []))) = 0.
Proof.
  apply (run_output_is_trimmed strconv.QuoteASCII "psql" Sample.opts
           Sample.env_no_docker []).
  reflexivity.
Defined.

(* ===================================================================== *)
(** ** strings.TrimSpace removes the white space at both ends             *)
(* ===================================================================== *)

(** Case analysis on the comparisons of a white-space test, one at a
    time, pruning the test after each. *)
Ltac split_comparisons :=
  repeat (match goal with
          | |- context [if ?c then _ else _] =>
              match c with
              | context [N.eqb ?a ?b] => destruct (N.eqb a b)
              | context [N.leb ?a ?b] => destruct (N.leb a b)
              end
          end; cbn [andb orb]).

Lemma space_width_eq (s : string) :
  strings.space_width s =
  match s with
  | EmptyString => 0
  | String a r1 =>
      if space1 (N_of_ascii a) then 1
      else match r1 with
           | EmptyString => 0
           | String b r2 =>
               if space2 (N_of_ascii a) (N_of_ascii b) then 2
               else match r2 with
                    | EmptyString => 0
                    | String c _ =>
                        if space3 (N_of_ascii a) (N_of_ascii b) (N_of_ascii c)
                        then 3 else 0
                    end
           end
  end.
Proof.
  destruct s as [|a [|b [|c r]]]; unfold strings.space_width, space1, space2, space3;
    cbv zeta; try reflexivity;
    generalize (N_of_ascii a); intros x;
    try (generalize (N_of_ascii b); intros y);
    try (generalize (N_of_ascii c); intros z);
    split_comparisons; reflexivity.
Qed.

Lemma space_width_rev_eq (s : string) :
  strings.space_width_rev s =
  match s with
  | EmptyString => 0
  | String a r1 =>
      if space1 (N_of_ascii a) then 1
      else match r1 with
           | EmptyString => 0
           | String b r2 =>
               if space2 (N_of_ascii b) (N_of_ascii a) then 2
               else match r2 with
                    | EmptyString => 0
                    | String c _ =>
                        if space3 (N_of_ascii c) (N_of_ascii b) (N_of_ascii a)
                        then 3 else 0
                    end
           end
  end.
Proof.
  destruct s as [|a [|b [|c r]]]; unfold strings.space_width_rev, space1, space2, space3;
    cbv zeta; try reflexivity;
    generalize (N_of_ascii a); intros z;
    try (generalize (N_of_ascii b); intros y);
    try (generalize (N_of_ascii c); intros x);
    split_comparisons; reflexivity.
Qed.

(** The first byte of a rune of two or three bytes is no white space,
    and the first two bytes of a rune of three are no rune of two. *)
Lemma space2_lead (x y : N) : space2 x y = true -> space1 x = false.
Proof.
  unfold space2, space1. destruct (x =? 194)%N eqn:E; [|discriminate].
  apply N.eqb_eq in E. subst x. reflexivity.
Qed.

Lemma space3_lead (x y z : N) :
  space3 x y z = true -> space1 x = false /\ space2 x y = false.
Proof.
  unfold space3, space2, space1.
  destruct (x =? 225)%N eqn:E1; [apply N.eqb_eq in E1; subst x; split; reflexivity|].
  destruct (x =? 226)%N eqn:E2; [apply N.eqb_eq in E2; subst x; split; reflexivity|].
  destruct (x =? 227)%N eqn:E3; [apply N.eqb_eq in E3; subst x; split; reflexivity|].
  discriminate.
Qed.

Lemma take_drop (n : nat) (s : string) : s = strings.take n s ++ strings.drop n s.
Proof.
  revert s. induction n as [|n IH]; intros s; [reflexivity|].
  destruct s as [|c s]; [reflexivity|].
  cbn [strings.take strings.drop append]. now rewrite <- IH.
Qed.

(** The bytes that [space_width] counts are one white-space rune. *)
Lemma space_width_rune (s : string) (w : nat) :
  strings.space_width s = S w -> space_rune (strings.take (S w) s).
Proof.
  rewrite space_width_eq. unfold space_rune.
  destruct s as [|a [|b [|c r]]]; [discriminate|..].
  - destruct (space1 (N_of_ascii a)) eqn:H1; [|discriminate].
    intros H. injection H as <-. cbn [strings.take].
    split; [discriminate|]. rewrite space_width_eq, H1. reflexivity.
  - destruct (space1 (N_of_ascii a)) eqn:H1.
    + intros H. injection H as <-. cbn [strings.take].
      split; [discriminate|]. rewrite space_width_eq, H1. reflexivity.
    + destruct (space2 (N_of_ascii a) (N_of_ascii b)) eqn:H2; [|discriminate].
      intros H. injection H as <-. cbn [strings.take].
      split; [discriminate|]. rewrite space_width_eq, H1, H2. reflexivity.
  - destruct (space1 (N_of_ascii a)) eqn:H1.
    + intros H. injection H as <-. cbn [strings.take].
      split; [discriminate|]. rewrite space_width_eq, H1. reflexivity.
    + destruct (space2 (N_of_ascii a) (N_of_ascii b)) eqn:H2.
      * intros H. injection H as <-. cbn [strings.take].
        split; [discriminate|]. rewrite space_width_eq, H1, H2. reflexivity.
      * destruct (space3 (N_of_ascii a) (N_of_ascii b) (N_of_ascii c)) eqn:H3;
          [|discriminate].
        intros H. injection H as <-. cbn [strings.take].
        split; [discriminate|]. rewrite space_width_eq, H1, H2, H3. reflexivity.
Qed.

(** The bytes that [space_width_rev] counts are one white-space rune,
    last byte first. *)
Lemma space_width_rev_rune (s : string) (w : nat) :
  strings.space_width_rev s = S w -> space_rune (strings.rev (strings.take (S w) s)).
Proof.
  rewrite space_width_rev_eq. unfold space_rune.
  destruct s as [|a [|b [|c r]]]; [discriminate|..].
  - destruct (space1 (N_of_ascii a)) eqn:H1; [|discriminate].
    intros H. injection H as <-. cbn [strings.take strings.rev strings.rev_onto].
    split; [discriminate|]. rewrite space_width_eq, H1. reflexivity.
  - destruct (space1 (N_of_ascii a)) eqn:H1.
    + intros H. injection H as <-. cbn [strings.take strings.rev strings.rev_onto].
      split; [discriminate|]. rewrite space_width_eq, H1. reflexivity.
    + destruct (space2 (N_of_ascii b) (N_of_ascii a)) eqn:H2; [|discriminate].
      intros H. injection H as <-. cbn [strings.take strings.rev strings.rev_onto].
      split; [discriminate|].
      rewrite space_width_eq, (space2_lead _ _ H2), H2. reflexivity.
  - destruct (space1 (N_of_ascii a)) eqn:H1.
    + intros H. injection H as <-. cbn [strings.take strings.rev strings.rev_onto].
      split; [discriminate|]. rewrite space_width_eq, H1. reflexivity.
    + destruct (space2 (N_of_ascii b) (N_of_ascii a)) eqn:H2.
      * intros H. injection H as <-. cbn [strings.take strings.rev strings.rev_onto].
        split; [discriminate|].
        rewrite space_width_eq, (space2_lead _ _ H2), H2. reflexivity.
      * destruct (space3 (N_of_ascii c) (N_of_ascii b) (N_of_ascii a)) eqn:H3;
          [|discriminate].
        intros H. injection H as <-. cbn [strings.take strings.rev strings.rev_onto].
        split; [discriminate|].
        destruct (space3_lead _ _ _ H3) as [L1 L2].
        rewrite space_width_eq, L1, L2, H3. reflexivity.
Qed.

Lemma space_run_app (a b : string) : space_run a -> space_run b -> space_run (a ++ b).
Proof.
  induction 1 as [|u v Hu _ IH]; intros Hb; [exact Hb|].
  rewrite append_assoc_s. constructor; [exact Hu | exact (IH Hb)].
Qed.

Lemma space_run_one (u : string) : space_rune u -> space_run u.
Proof.
  intros Hu. rewrite <- (append_nil_s u). constructor; [exact Hu | constructor].
Qed.

(** What is trimmed from the front is white space. *)
Lemma trim_front_spaces (fuel : nat) (s : string) :
  exists p, s = p ++ strings.trim_front strings.space_width fuel s /\ space_run p.
Proof.
  revert s. induction fuel as [|f IH]; intros s.
  - exists EmptyString. split; [reflexivity | constructor].
  - cbn [strings.trim_front]. destruct (strings.space_width s) as [|w] eqn:Hw.
    + exists EmptyString. split; [reflexivity | constructor].
    + destruct (IH (strings.drop (S w) s)) as (p' & Hp' & Hrun).
      exists (strings.take (S w) s ++ p'). split.
      * rewrite append_assoc_s, <- Hp'. apply take_drop.
      * constructor; [exact (space_width_rune s w Hw) | exact Hrun].
Qed.

(** What is trimmed from the end, seen from the end, is white space. *)
Lemma trim_back_spaces (fuel : nat) (s : string) :
  exists q, s = q ++ strings.trim_front strings.space_width_rev fuel s /\
            space_run (strings.rev q).
Proof.
  revert s. induction fuel as [|f IH]; intros s.
  - exists EmptyString. split; [reflexivity | constructor].
  - cbn [strings.trim_front]. destruct (strings.space_width_rev s) as [|w] eqn:Hw.
    + exists EmptyString. split; [reflexivity | constructor].
    + destruct (IH (strings.drop (S w) s)) as (q' & Hq' & Hrun).
      exists (strings.take (S w) s ++ q'). split.
      * rewrite append_assoc_s, <- Hq'. apply take_drop.
      * rewrite rev_app. apply space_run_app; [exact Hrun|].
        apply space_run_one, (space_width_rev_rune s w Hw).
Qed.

Lemma rev_length_s (s : string) : String.length (strings.rev s) = String.length s.
Proof.
  unfold strings.rev.
  assert (H : forall u acc, String.length (strings.rev_onto u acc) =
                            String.length u + String.length acc).
  { induction u as [|c u IH]; intros acc; [reflexivity|].
    cbn [strings.rev_onto String.length]. rewrite IH. cbn [String.length]. lia. }
  rewrite H. cbn [String.length]. lia.
Qed.

(** [strings.TrimSpace] returns its argument without the white space at
    its two ends. *)
Lemma TrimSpace_trimmed (raw : string) : trimmed_of raw (strings.TrimSpace raw).
Proof.
  unfold strings.TrimSpace. cbv zeta.
  set (l := strings.trim_front strings.space_width (String.length raw) raw).
  set (r := strings.trim_front strings.space_width_rev (String.length l) (strings.rev l)).
  destruct (trim_front_spaces (String.length raw) raw) as (pre & Hpre & Hrun_pre).
  fold l in Hpre.
  destruct (trim_back_spaces (String.length l) (strings.rev l)) as (q & Hq & Hrun_post).
  fold r in Hq.
  assert (Hl : l = strings.rev r ++ strings.rev q).
  { rewrite <- rev_app, <- Hq. symmetry. apply rev_involutive_s. }
  assert (Hwl : strings.space_width l = 0).
  { apply trim_front_done; [reflexivity | apply le_n]. }
  assert (Hwr : strings.space_width_rev r = 0).
  { apply trim_front_done; [reflexivity|]. rewrite rev_length_s. apply le_n. }
  exists pre, (strings.rev q).
  split; [now rewrite <- Hl|]. split; [exact Hrun_pre|]. split; [exact Hrun_post|].
  split.
  - destruct (strings.space_width (strings.rev r)) eqn:Hw; [reflexivity|].
    rewrite Hl, space_width_prefix in Hwl by (rewrite Hw; discriminate).
    rewrite Hw in Hwl. discriminate.
  - now rewrite rev_involutive_s.
Qed.

(* ===================================================================== *)
(** ** The result of run                                                  *)
(* ===================================================================== *)

(** C2: [run] returns the trimmed output and no error exactly when the
    process that carries the command exits with status 0 and its output
    is read without error.  Trimmed means: what [run] returns is the
    output of the process without the white space at its two ends; what
    was cut off before and after it is white space, and what is returned
    neither starts nor ends with a white-space rune.  A process with a
    positive exit status makes [run] return the empty output and an
    error whose message contains the output of that process.  Inside a
    container the process is the command itself; outside, it is the
    container, started after a pull with exit status 0, and a pull with
    a positive exit status is reported in the same way. *)
Theorem run_result
    (Quote : string -> string) (cmd : string) (o : Options) (env : Env) (t : Trace) :
  (env_dockerenv env t = true ->
   let p := env_exec env t None cmd in
   (forall s : string,
       fst (run Quote cmd o env t) = (s, None) <->
       ExitStatus p = 0%N /\ Error_ p = None /\ s = strings.TrimSpace (Reader p)) /\
   (forall s : string,
       fst (run Quote cmd o env t) = (s, None) -> trimmed_of (Reader p) s) /\
   ((0 < ExitStatus p)%N ->
    exists e : error,
      fst (run Quote cmd o env t) = (EmptyString, Some e) /\
      strings.Contains (Error Quote e) (Reader p) = true)) /\
  (env_dockerenv env t = false ->
   let pull := env_exec env t None ("docker pull -q " ++ DockerImage o) in
   let p := env_exec env (after_pull Quote cmd o t) None (docker_run Quote cmd o) in
   (forall s : string,
       fst (run Quote cmd o env t) = (s, None) <->
       ExitStatus pull = 0%N /\
       ExitStatus p = 0%N /\ Error_ p = None /\ s = strings.TrimSpace (Reader p)) /\
   (forall s : string,
       fst (run Quote cmd o env t) = (s, None) -> trimmed_of (Reader p) s) /\
   ((0 < ExitStatus pull)%N ->
    exists e : error,
      fst (run Quote cmd o env t) = (EmptyString, Some e) /\
      strings.Contains (Error Quote e) (Reader pull) = true) /\
   (ExitStatus pull = 0%N -> (0 < ExitStatus p)%N ->
    exists e : error,
      fst (run Quote cmd o env t) = (EmptyString, Some e) /\
      strings.Contains (Error Quote e) (Reader p) = true)).
Proof.
  split; intros Hd; cbv zeta.
  - rewrite (run_inside Quote cmd o env t Hd). simpl fst. split; [|split].
    + intros s. apply pipe_result_ok.
    + intros s Hs. apply pipe_result_ok in Hs as (_ & _ & ->). apply TrimSpace_trimmed.
    + intros Hpos. rewrite (pipe_result_failed _ Hpos).
      eexists. split; [reflexivity|]. unfold Error. apply Contains_app_r.
  - split; [|split; [|split]].
    + intros s.
      destruct (N.eq_0_gt_0_cases
                  (ExitStatus (env_exec env t None ("docker pull -q " ++ DockerImage o))))
        as [H0|Hpos].
      * rewrite (run_outside_pulled Quote cmd o env t Hd H0). simpl fst.
        rewrite pipe_result_ok. tauto.
      * rewrite (run_outside_pull_failed Quote cmd o env t Hd Hpos). simpl fst.
        split; [discriminate|]. intros [H0 _]. lia.
    + intros s.
      destruct (N.eq_0_gt_0_cases
                  (ExitStatus (env_exec env t None ("docker pull -q " ++ DockerImage o))))
        as [H0|Hpos].
      * rewrite (run_outside_pulled Quote cmd o env t Hd H0). simpl fst.
        intros Hs. apply pipe_result_ok in Hs as (_ & _ & ->). apply TrimSpace_trimmed.
      * rewrite (run_outside_pull_failed Quote cmd o env t Hd Hpos). simpl fst.
        discriminate.
    + intros Hpos. rewrite (run_outside_pull_failed Quote cmd o env t Hd Hpos).
      eexists. split; [reflexivity|]. unfold Error. apply Contains_app_r.
    + intros H0 Hpos. rewrite (run_outside_pulled Quote cmd o env t Hd H0). simpl fst.
      rewrite (pipe_result_failed _ Hpos).
      eexists. split; [reflexivity|]. unfold Error. apply Contains_app_r.
Qed.

Lemma run_result_witness :
  fst (run strconv.QuoteASCII "psql" Sample.opts
           (Sample.scripted true [Sample.ok_pipe "ok"]) []) = ("ok", None) /\
  fst (run strconv.QuoteASCII "psql" Sample.opts
           (Sample.scripted true
              [Sample.ok_pipe (String (ascii_of_nat 9) " ok " ++ String carriage_return
                                 (String line_feed EmptyString))]) []) = ("ok", None) /\
  (exists e : error,
    fst (run strconv.QuoteASCII "psql" Sample.opts
             (Sample.scripted true [Sample.failed_pipe 1 "boom"]) []) =
    (EmptyString, Some e) /\
    strings.Contains (Error strconv.QuoteASCII e) "boom" = true).
Proof.
  split; [|split].
  - apply (proj1 (proj1 (run_result strconv.QuoteASCII "psql" Sample.opts
                           (Sample.scripted true [Sample.ok_pipe "ok"]) [])
                        eq_refl)).
    repeat split.
  - apply (proj1 (proj1 (run_result strconv.QuoteASCII "psql" Sample.opts
                           (Sample.scripted true
                              [Sample.ok_pipe
                                 (String (ascii_of_nat 9) " ok " ++
                                  String carriage_return
                                    (String line_feed EmptyString))]) [])
                        eq_refl)).
    split; [reflexivity|]. split; reflexivity.
  - apply (proj2 (proj2 (proj1 (run_result strconv.QuoteASCII "psql" Sample.opts
                           (Sample.scripted true [Sample.failed_pipe 1 "boom"]) [])
                        eq_refl))).
    reflexivity.
Defined.
